(** * Repository acquisition and conversion pipeline (download_github.py)

    A shallow embedding of [tutorials/dapt-curation/download_github.py]:
    the extension/name classifier, the document builder, the repository
    walker/converter and the acquisition orchestrator, with the Python
    library calls they rely on ([str], [os.path], [os.walk], [json.dumps],
    file input and output) modelled over an explicit file-system tree.

    Conventions.
    - A Python [str] is a [string] whose characters are the code points
      U+0000 to U+00FF, and [str.lower] is the one of these code points.
      The module [Unicode] has the classifier over every code point, with
      the case tables of the Unicode database as parameters; on names
      within U+00FF the two classifiers agree.
    - A Python [int] is a [Z].
    - Paths are POSIX paths ([os.sep] is ['/']); relative paths are resolved
      from the root of the tree; ['.'] and ['..'] are followed, symbolic
      links are not modelled.
    - [chardet.detect], [bytes.decode], [os.system] and [pandas.read_json]
      are parameters of the pipeline.
    - Effects are state passing over a [world]: the file tree and a log of
      the prints, file opens, decodes and commands, in order. *)

From Stdlib Require Import String Ascii List ZArith Lia Bool.
Import ListNotations.
Open Scope string_scope.
Open Scope Z_scope.

(* ================================================================= *)
(** ** Python [str] operations *)

Module PyStr.

(** The capital letters up to U+00FF: [A] to [Z], and U+00C0 to U+00DE
    without the multiplication sign U+00D7. *)
Definition is_upper (c : ascii) : bool :=
  let n := nat_of_ascii c in
  ((65 <=? n) && (n <=? 90)
   || (192 <=? n) && (n <=? 222) && negb (n =? 215))%nat.

(** The small letter of a capital letter is 32 code points further. *)
Definition lower_char (c : ascii) : ascii :=
  if is_upper c then ascii_of_nat (nat_of_ascii c + 32) else c.

(** [s.lower()] of a [str] within U+00FF: character by character.  Beyond
    U+00FF a mapping can be longer than one character and the capital
    sigma depends on its neighbours; [Unicode.lower] has these. *)
Fixpoint lower (s : string) : string :=
  match s with
  | EmptyString => EmptyString
  | String c s' => String (lower_char c) (lower s')
  end.

(** [s.rfind(c)] for a one-character needle: the highest index, or -1. *)
Fixpoint rfind (c : ascii) (s : string) : Z :=
  match s with
  | EmptyString => -1
  | String a s' =>
      let r := rfind c s' in
      if 0 <=? r then r + 1 else if Ascii.eqb a c then 0 else -1
  end.

Fixpoint take (n : nat) (s : string) : string :=
  match n, s with
  | S n', String a s' => String a (take n' s')
  | _, _ => EmptyString
  end.

Fixpoint drop (n : nat) (s : string) : string :=
  match n, s with
  | S n', String _ s' => drop n' s'
  | _, _ => s
  end.

(** [s[i:j]], [s[:j]] and [s[i:]] for indices that are not negative. *)
Definition slice (i j : Z) (s : string) : string :=
  take (Z.to_nat (j - i)) (drop (Z.to_nat i) s).
Definition slice_to (j : Z) (s : string) : string := take (Z.to_nat j) s.
Definition slice_from (i : Z) (s : string) : string := drop (Z.to_nat i) s.

(** [s.startswith(c)] and [s.endswith(c)] for a one-character argument. *)
Definition startswith (c : ascii) (s : string) : bool :=
  match s with
  | String a _ => Ascii.eqb a c
  | EmptyString => false
  end.

Fixpoint endswith (c : ascii) (s : string) : bool :=
  match s with
  | EmptyString => false
  | String a EmptyString => Ascii.eqb a c
  | String _ s' => endswith c s'
  end.

(** [s.split(c)]: never empty; [''.split(c)] is [['']]. *)
Fixpoint split (c : ascii) (s : string) : list string :=
  match s with
  | EmptyString => [EmptyString]
  | String a s' =>
      if Ascii.eqb a c then EmptyString :: split c s'
      else match split c s' with
           | p :: ps => String a p :: ps
           | [] => [String a EmptyString]
           end
  end.

(** [s.count(c)] for a one-character needle. *)
Fixpoint count (c : ascii) (s : string) : Z :=
  match s with
  | EmptyString => 0
  | String a s' => (if Ascii.eqb a c then 1 else 0) + count c s'
  end.

(** Every character of [s] is [c]. *)
Fixpoint all_char (c : ascii) (s : string) : bool :=
  match s with
  | EmptyString => true
  | String a s' => Ascii.eqb a c && all_char c s'
  end.

(** A character that [lower] neither changes nor produces. *)
Definition caseless (k : ascii) : Prop :=
  forall c, Ascii.eqb (lower_char c) k = Ascii.eqb c k.

End PyStr.

(* ================================================================= *)
(** ** [os.path] (posixpath) *)

Module OsPath.
Import PyStr.

Definition sep : ascii := "/"%char.
Definition extsep : ascii := "."%char.

(** [i = p.rfind(sep) + 1; return p[i:]] *)
Definition basename (p : string) : string :=
  slice_from (rfind sep p + 1) p.

(** [genericpath._splitext]: split at the last dot, unless everything
    between the last separator and that dot is dots. *)
Definition splitext (p : string) : string * string :=
  let sepIndex := rfind sep p in
  let dotIndex := rfind extsep p in
  if (sepIndex <? dotIndex)
     && negb (all_char extsep (slice (sepIndex + 1) dotIndex p))
  then (slice_to dotIndex p, slice_from dotIndex p)
  else (p, EmptyString).

(** [os.path.join(a, b)] *)
Definition join (a b : string) : string :=
  if startswith sep b then b
  else if (String.eqb a EmptyString) || endswith sep a then a ++ b
  else a ++ String sep b.

(** [os.path.join(a, *ps)] *)
Definition join_all (a : string) (ps : list string) : string :=
  fold_left join ps a.

End OsPath.

(* ================================================================= *)
(** ** The classifier table *)

Definition SUPPORTED_EXTENSIONS_TO_CATEGORY : list (string * string) :=
  [ (".vx", "Viva"); (".vxh", "Viva");
    (".v", "VerilogVHDL"); (".vh", "VerilogVHDL"); (".vhdl", "VerilogVHDL");
    (".va", "VerilogAnalog");
    (".c", "CPP"); (".cpp", "CPP"); (".h", "CPP"); (".hpp", "CPP");
    (".py", "Python");
    (".config", "Config");
    (".mk", "Makefile"); ("makefile", "Makefile"); ("makeppfile", "Makefile");
    (".pm", "Perl"); (".pl", "Perl");
    (".tcl", "Tcl");
    (".spec", "Spec");
    (".yaml", "Yaml"); (".yml", "Yaml");
    (".sp", "Spice"); (".cir", "Spice"); (".cmd", "Spice"); (".spf", "Spice");
    (".spice", "Spice");
    (".txt", "text"); (".json", "text"); (".xml", "text"); (".html", "text");
    (".pdf", "text"); (".md", "text");
    (EmptyString, "text") (* No extension *) ].

(** [d[k]] on a dict given by its items; [None] stands for [KeyError]. *)
Fixpoint dict_get (k : string) (d : list (string * string)) : option string :=
  match d with
  | [] => None
  | (k', v) :: d' => if String.eqb k k' then Some v else dict_get k d'
  end.

(** [k in d] *)
Definition dict_mem (k : string) (d : list (string * string)) : bool :=
  existsb (fun kv => String.eqb k (fst kv)) d.

(** Lines 56-70 of [convert_file_to_json]: the lower-cased extension and
    the category, or [None] where the source returns [None].  For a path
    with a character beyond U+00FF see [Unicode.classify], which is this
    function on the paths within U+00FF. *)
Definition classify (input_fp : string) : option (string * string) :=
  let filename := OsPath.basename input_fp in
  let '(filename_no_ext, ext) := OsPath.splitext filename in
  let filename_no_ext := PyStr.lower filename_no_ext in
  let ext := PyStr.lower ext in
  if negb (dict_mem ext SUPPORTED_EXTENSIONS_TO_CATEGORY) then
    if negb (dict_mem filename_no_ext SUPPORTED_EXTENSIONS_TO_CATEGORY) then
      None
    else
      match dict_get filename_no_ext SUPPORTED_EXTENSIONS_TO_CATEGORY with
      | Some category => Some (ext, category)
      | None => None
      end
  else
    match dict_get ext SUPPORTED_EXTENSIONS_TO_CATEGORY with
    | Some category => Some (ext, category)
    | None => None
    end.

(* ================================================================= *)
(** ** The classifier over every code point

    A Python [str] is a sequence of code points, and [str.lower] follows
    the Unicode database: every character is replaced by its full
    lower-case mapping, which may be more than one character, and the
    capital sigma becomes the final or the ordinary small sigma, by the
    characters around it.  The mappings and the two character properties
    the rule of the sigma reads are parameters. *)

Module Unicode.

Definition str : Type := list N.

(** The code points of a [string] of the pipeline. *)
Definition of_string (s : string) : str :=
  map N_of_ascii (list_ascii_of_string s).

Fixpoint eqb (a b : str) : bool :=
  match a, b with
  | [], [] => true
  | x :: a', y :: b' => N.eqb x y && eqb a' b'
  | _, _ => false
  end.

(** [s.rfind(c)] for a one-character needle: the highest index, or -1. *)
Fixpoint rfind (c : N) (s : str) : Z :=
  match s with
  | [] => -1
  | a :: s' =>
      let r := rfind c s' in
      if 0 <=? r then r + 1 else if N.eqb a c then 0 else -1
  end.

(** [s[i:j]], [s[:j]] and [s[i:]] for indices that are not negative. *)
Definition slice (i j : Z) (s : str) : str :=
  firstn (Z.to_nat (j - i)) (skipn (Z.to_nat i) s).
Definition slice_to (j : Z) (s : str) : str := firstn (Z.to_nat j) s.
Definition slice_from (i : Z) (s : str) : str := skipn (Z.to_nat i) s.

Definition sep : N := 47.
Definition extsep : N := 46.

(** [os.path.basename] and [os.path.splitext], as in [OsPath]. *)
Definition basename (p : str) : str :=
  slice_from (rfind sep p + 1) p.

Definition splitext (p : str) : str * str :=
  let sepIndex := rfind sep p in
  let dotIndex := rfind extsep p in
  if (sepIndex <? dotIndex)
     && negb (forallb (fun a => N.eqb a extsep) (slice (sepIndex + 1) dotIndex p))
  then (slice_to dotIndex p, slice_from dotIndex p)
  else (p, []).

Definition capital_sigma : N := 931.     (* U+03A3 *)
Definition final_sigma : N := 962.       (* U+03C2 *)
Definition small_sigma : N := 963.       (* U+03C3 *)

(** The table, its keys as code points. *)
Definition TABLE : list (str * string) :=
  map (fun kv => (of_string (fst kv), snd kv)) SUPPORTED_EXTENSIONS_TO_CATEGORY.

Fixpoint dict_get (k : str) (d : list (str * string)) : option string :=
  match d with
  | [] => None
  | (k', v) :: d' => if eqb k k' then Some v else dict_get k d'
  end.

Definition dict_mem (k : str) (d : list (str * string)) : bool :=
  existsb (fun kv => eqb k (fst kv)) d.

Section Lower.

Variable to_lower_full : N -> str.
  (* the full lower-case mapping of a character, one to three characters *)
Variable is_cased : N -> bool.
  (* the property Cased *)
Variable is_case_ignorable : N -> bool.
  (* the property Case_Ignorable *)

(** The first character that is not case-ignorable. *)
Fixpoint first_considered (s : str) : option N :=
  match s with
  | [] => None
  | c :: s' => if is_case_ignorable c then first_considered s' else Some c
  end.

(** The small sigma for a capital sigma: the final one when a cased
    character comes before it and none comes after it, case-ignorable
    characters apart.  [before] holds the characters before the sigma,
    the nearest first, [after] those after it. *)
Definition handle_capital_sigma (before after : str) : N :=
  let final :=
    match first_considered before with
    | Some c =>
        is_cased c
        && match first_considered after with
           | Some d => negb (is_cased d)
           | None => true
           end
    | None => false
    end in
  if final then final_sigma else small_sigma.

(** [s.lower()], from the character after [before] on. *)
Fixpoint do_lower (before : str) (s : str) : str :=
  match s with
  | [] => []
  | c :: s' =>
      ((if N.eqb c capital_sigma then [handle_capital_sigma before s']
        else to_lower_full c)
       ++ do_lower (c :: before) s')%list
  end.

(** [s.lower()] *)
Definition lower (s : str) : str := do_lower [] s.

(** Lines 56-70 of [convert_file_to_json]. *)
Definition classify (input_fp : str) : option (str * string) :=
  let filename := basename input_fp in
  let '(filename_no_ext, ext) := splitext filename in
  let filename_no_ext := lower filename_no_ext in
  let ext := lower ext in
  if negb (dict_mem ext TABLE) then
    if negb (dict_mem filename_no_ext TABLE) then
      None
    else
      match dict_get filename_no_ext TABLE with
      | Some category => Some (ext, category)
      | None => None
      end
  else
    match dict_get ext TABLE with
    | Some category => Some (ext, category)
    | None => None
    end.

(** The lower-cased form with the final sigma taken for the ordinary one:
    it is made character by character. *)
Definition fold_sigma (c : N) : N :=
  if N.eqb c final_sigma then small_sigma else c.

Definition fold_char (c : N) : str :=
  if N.eqb c capital_sigma then [small_sigma]
  else map fold_sigma (to_lower_full c).

Definition folded (s : str) : str := flat_map fold_char s.

End Lower.

(** A separator or a dot, and a string without a small sigma of either
    kind. *)
Definition is_mark (d : N) : Prop := d = sep \/ d = extsep.

Definition sigma_free (k : str) : bool :=
  forallb (fun y => negb (N.eqb y final_sigma) && negb (N.eqb y small_sigma)) k.

(** What the Unicode database says of the lower-case mappings, as far as
    the classifier depends on it: the letters [A] to [Z] are the only
    ASCII characters that change, no mapping is empty, and no mapping of
    another character holds a separator or a dot. *)
Definition ascii_lower (c : N) : N :=
  if (N.leb 65 c && N.leb c 90)%bool then (c + 32)%N else c.

Record case_tables (to_lower_full : N -> str) : Prop := {
  lower_of_ascii : forall c, (c < 128)%N -> to_lower_full c = [ascii_lower c];
  lower_not_empty : forall c, to_lower_full c <> [];
  lower_keeps_marks :
    forall c d, (128 <= c)%N -> In d (to_lower_full c) ->
                d <> sep /\ d <> extsep
}.

(** The mappings agree with [PyStr.lower] up to U+00FF. *)
Definition agrees_up_to_ff (to_lower_full : N -> str) : Prop :=
  forall c : ascii,
    to_lower_full (N_of_ascii c) = [N_of_ascii (PyStr.lower_char c)].

End Unicode.

(* ================================================================= *)
(** ** File-system tree *)

#[local] Set Warnings "-register-all".

(** A regular file carries its bytes and whether the process may open it;
    a directory carries its entries in [scandir] order. *)
Inductive node : Type :=
| File (perm : bool) (data : list Byte.byte)
| Dir (entries : list (string * node)).

Module Fs.

Fixpoint assoc (k : string) (es : list (string * node)) : option node :=
  match es with
  | [] => None
  | (k', v) :: es' => if String.eqb k k' then Some v else assoc k es'
  end.

Fixpoint set_entry (k : string) (v : node) (es : list (string * node))
  : list (string * node) :=
  match es with
  | [] => [(k, v)]
  | (k', v') :: es' =>
      if String.eqb k k' then (k', v) :: es' else (k', v') :: set_entry k v es'
  end.

(** The node reached from [n] through the entry names [names]. *)
Fixpoint get (n : node) (names : list string) : option node :=
  match names with
  | [] => Some n
  | k :: ks =>
      match n with
      | Dir es => match assoc k es with
                  | Some c => get c ks
                  | None => None
                  end
      | File _ _ => None
      end
  end.

(** Replace or create the node at [names]. *)
Fixpoint put (n : node) (names : list string) (v : node) : node :=
  match names with
  | [] => v
  | k :: ks =>
      match n with
      | Dir es =>
          let child := match assoc k es with
                       | Some c => c
                       | None => Dir []
                       end in
          Dir (set_entry k (put child ks v) es)
      | File _ _ => n
      end
  end.

Definition is_skip (c : string) : bool :=
  String.eqb c EmptyString || String.eqb c ".".
Definition is_parent (c : string) : bool := String.eqb c "..".

(** Path resolution: follow the components [cs] from the directory whose
    entry names, innermost first, are [acc].  Every directory passed
    through must exist. *)
Fixpoint canon (root : node) (acc : list string) (cs : list string)
  : option (list string) :=
  match cs with
  | [] => Some acc
  | c :: cs' =>
      match get root (rev acc) with
      | Some (Dir es) =>
          if is_skip c then canon root acc cs'
          else if is_parent c then canon root (tl acc) cs'
          else match assoc c es with
               | Some _ => canon root (c :: acc) cs'
               | None => None
               end
      | _ => None
      end
  end.

Definition resolve (root : node) (p : string) : option node :=
  if String.eqb p EmptyString then None
  else match canon root [] (PyStr.split OsPath.sep p) with
       | Some acc => get root (rev acc)
       | None => None
       end.

(** [os.path.exists(p)] *)
Definition exists_ (root : node) (p : string) : bool :=
  match resolve root p with Some _ => true | None => false end.

(** [open(p, 'rb').read()]; [None] stands for [OSError]. *)
Definition read_bytes (root : node) (p : string) : option (list Byte.byte) :=
  match resolve root p with
  | Some (File true data) => Some data
  | _ => None
  end.

(** [os.path.getsize(p)].  The size of a directory depends on the file
    system; the program never asks for it. *)
Definition getsize (root : node) (p : string) : option Z :=
  match resolve root p with
  | Some (File _ data) => Some (Z.of_nat (List.length data))
  | Some (Dir _) => Some 4096
  | None => None
  end.

(** [os.listdir(p)] *)
Definition listdir (root : node) (p : string) : option (list string) :=
  match resolve root p with
  | Some (Dir es) => Some (map fst es)
  | _ => None
  end.

(** Put [v] at path [p], whose parent directory must exist; an existing
    directory, or a file that may not be opened, is not replaced. *)
Definition place (root : node) (p : string) (v : node) : option node :=
  if String.eqb p EmptyString then None
  else
    let cs := PyStr.split OsPath.sep p in
    let name := last cs EmptyString in
    if is_skip name || is_parent name then None
    else match canon root [] (removelast cs) with
         | None => None
         | Some acc =>
             match get root (rev acc) with
             | Some (Dir es) =>
                 match assoc name es with
                 | Some (Dir _) => None
                 | Some (File false _) => None
                 | _ => Some (put root (rev acc ++ [name]) v)
                 end
             | _ => None
             end
         end.

(** [with open(p, 'w') as f: f.write(text)] *)
Definition write_text (root : node) (p : string) (text : string)
  : option node :=
  place root p (File true (list_byte_of_string text)).

Fixpoint makedirs_from (root : node) (acc : list string) (cs : list string)
  : option node :=
  match cs with
  | [] => match get root (rev acc) with
          | Some (Dir _) => Some root
          | _ => None
          end
  | c :: cs' =>
      match get root (rev acc) with
      | Some (Dir es) =>
          if is_skip c then makedirs_from root acc cs'
          else if is_parent c then makedirs_from root (tl acc) cs'
          else match assoc c es with
               | Some _ => makedirs_from root (c :: acc) cs'
               | None =>
                   makedirs_from (put root (rev acc ++ [c]) (Dir []))
                                 (c :: acc) cs'
               end
      | _ => None
      end
  end.

(** [os.makedirs(p, exist_ok=True)] *)
Definition makedirs (root : node) (p : string) : option node :=
  if String.eqb p EmptyString then None
  else makedirs_from root [] (PyStr.split OsPath.sep p).

Definition is_dir (n : node) : bool :=
  match n with Dir _ => true | File _ _ => false end.

Definition dirnames (es : list (string * node)) : list string :=
  map fst (filter (fun e => is_dir (snd e)) es).
Definition filenames (es : list (string * node)) : list string :=
  map fst (filter (fun e => negb (is_dir (snd e))) es).

(** [os.walk(top)], top-down: the triple of a directory, then the walks
    of its sub-directories, in order. *)
Fixpoint walk_node (top : string) (n : node)
  : list (string * list string * list string) :=
  match n with
  | File _ _ => []
  | Dir es =>
      (top, dirnames es, filenames es)
      :: flat_map (fun e => walk_node (OsPath.join top (fst e)) (snd e)) es
  end.

(** A [top] that is not a directory yields nothing ([os.walk] ignores
    the [scandir] error). *)
Definition walk (root : node) (top : string)
  : list (string * list string * list string) :=
  match resolve root top with
  | Some (Dir es) => walk_node top (Dir es)
  | _ => []
  end.

End Fs.

(* ================================================================= *)
(** ** Effects: a world of files and a log, and exceptions *)

Inductive event : Type :=
| EvPrint (msg : string)          (* print(msg) *)
| EvOpenRead (path : string)      (* open(path, 'rb') *)
| EvDecode (encoding : string)    (* content.decode(encoding) *)
| EvOpenWrite (path : string)     (* open(path, 'w') *)
| EvSystem (cmd : string).        (* os.system(cmd) *)

Inductive exn : Type :=
| OSError (path : string)
| FileNotFoundError (msg : string)
| LookupError (encoding : string)
| ValueError.

Record world : Type := mkWorld { fs : node; log : list event }.

Inductive result (A : Type) : Type :=
| Ok (a : A)
| Raise (e : exn).
Arguments Ok {A} a.
Arguments Raise {A} e.

Definition M (A : Type) : Type := world -> result A * world.

Definition ret {A} (a : A) : M A := fun w => (Ok a, w).
Definition raise {A} (e : exn) : M A := fun w => (Raise e, w).
Definition bind {A B} (m : M A) (k : A -> M B) : M B :=
  fun w => match m w with
           | (Ok a, w') => k a w'
           | (Raise e, w') => (Raise e, w')
           end.

Declare Scope py_scope.
Delimit Scope py_scope with py.
Notation "x <- m ;; k" := (bind m (fun x => k))
  (at level 61, m at next level, right associativity) : py_scope.
Notation "m ;; k" := (bind m (fun _ => k))
  (at level 61, right associativity) : py_scope.
Open Scope py_scope.

Definition emit (e : event) : M unit :=
  fun w => (Ok tt, mkWorld (fs w) (log w ++ [e])).

Definition print (msg : string) : M unit := emit (EvPrint msg).

Definition path_exists (p : string) : M bool :=
  fun w => (Ok (Fs.exists_ (fs w) p), w).

Definition open_rb_read (p : string) : M (list Byte.byte) :=
  emit (EvOpenRead p) ;;
  fun w => match Fs.read_bytes (fs w) p with
           | Some data => (Ok data, w)
           | None => (Raise (OSError p), w)
           end.

Definition getsize (p : string) : M Z :=
  fun w => match Fs.getsize (fs w) p with
           | Some n => (Ok n, w)
           | None => (Raise (OSError p), w)
           end.

Definition os_walk (top : string)
  : M (list (string * list string * list string)) :=
  fun w => (Ok (Fs.walk (fs w) top), w).

Definition listdir (p : string) : M (list string) :=
  fun w => match Fs.listdir (fs w) p with
           | Some names => (Ok names, w)
           | None => (Raise (OSError p), w)
           end.

Definition makedirs (p : string) : M unit :=
  fun w => match Fs.makedirs (fs w) p with
           | Some fs' => (Ok tt, mkWorld fs' (log w))
           | None => (Raise (OSError p), w)
           end.

Definition open_w_write (p : string) (text : string) : M unit :=
  emit (EvOpenWrite p) ;;
  fun w => match Fs.write_text (fs w) p text with
           | Some fs' => (Ok tt, mkWorld fs' (log w))
           | None => (Raise (OSError p), w)
           end.

(* ================================================================= *)
(** ** [json.dumps] of a document *)

Record document : Type := mkDocument {
  doc_id : string;
  doc_text : string;
  doc_file_extension : string;
  doc_category : string;
  doc_line_count : Z;
  doc_size_in_bytes : Z;
  doc_path : string
}.

Module Json.

Definition hex_digit (n : nat) : ascii :=
  match n with
  | 0 => "0" | 1 => "1" | 2 => "2" | 3 => "3" | 4 => "4" | 5 => "5"
  | 6 => "6" | 7 => "7" | 8 => "8" | 9 => "9" | 10 => "a" | 11 => "b"
  | 12 => "c" | 13 => "d" | 14 => "e" | _ => "f"
  end%nat%char.

Definition quote : string := String (ascii_of_nat 34) EmptyString.
Definition backslash : ascii := ascii_of_nat 92.

(** One character of [py_encode_basestring_ascii]. *)
Definition escape_char (c : ascii) : string :=
  let n := nat_of_ascii c in
  if (n =? 34)%nat then String backslash quote
  else if (n =? 92)%nat then "\\"
  else if (n =? 10)%nat then "\n"
  else if (n =? 13)%nat then "\r"
  else if (n =? 9)%nat then "\t"
  else if (n =? 8)%nat then "\b"
  else if (n =? 12)%nat then "\f"
  else if ((32 <=? n) && (n <=? 126))%nat then String c EmptyString
  else "\u00" ++ String (hex_digit (n / 16)) (String (hex_digit (n mod 16)) EmptyString).

Fixpoint escape (s : string) : string :=
  match s with
  | EmptyString => EmptyString
  | String c s' => escape_char c ++ escape s'
  end.

Definition str (s : string) : string := quote ++ escape s ++ quote.

Definition digit (d : Z) : ascii := ascii_of_nat (48 + Z.to_nat d).

Fixpoint digits (fuel : nat) (n : Z) (acc : string) : string :=
  match fuel with
  | O => acc
  | S fuel' =>
      let acc' := String (digit (n mod 10)) acc in
      if n <? 10 then acc' else digits fuel' (n / 10) acc'
  end.

(** [repr] of an [int] *)
Definition int (n : Z) : string :=
  if n <? 0 then String "-" (digits (S (Z.to_nat (Z.abs n))) (Z.abs n) EmptyString)
  else digits (S (Z.to_nat n)) n EmptyString.

Definition member (key value : string) : string :=
  str key ++ ": " ++ value.

(** [json.dumps(doc)] for the dict that [convert_file_to_json] builds,
    keys in insertion order. *)
Definition dumps (d : document) : string :=
  "{" ++ member "id" (str (doc_id d))
  ++ ", " ++ member "text" (str (doc_text d))
  ++ ", " ++ member "file_extension" (str (doc_file_extension d))
  ++ ", " ++ member "category" (str (doc_category d))
  ++ ", " ++ member "line_count" (int (doc_line_count d))
  ++ ", " ++ member "size_in_bytes" (int (doc_size_in_bytes d))
  ++ ", " ++ member "path" (str (doc_path d))
  ++ "}".

End Json.

(* ================================================================= *)
(** ** The pipeline *)

(** Outcome of [content.decode(encoding)]. *)
Inductive decoded : Type :=
| Decoded (text : string)
| UnicodeDecodeError
| UnknownEncoding.                (* LookupError: no such codec *)

Definition newline : ascii := ascii_of_nat 10.
Definition nl : string := String newline EmptyString.
Definition hidden_marker : ascii := "."%char.

(** [xs[:k]] *)
Definition slice_list {A} (k : Z) (xs : list A) : list A :=
  if 0 <=? k then firstn (Z.to_nat k) xs
  else firstn (Z.to_nat (Z.of_nat (List.length xs) + k)) xs.

Section Pipeline.

(** The collaborators outside the repository. *)
Variable detect : list Byte.byte -> option string.
  (* chardet.detect(content)["encoding"] *)
Variable decode : list Byte.byte -> string -> decoded.
  (* content.decode(encoding) *)
Variable os_system : string -> node -> Z * node.
  (* os.system(cmd): exit status and effect on the files *)
Variable read_json_lines : list Byte.byte -> option (list string).
  (* pd.read_json(..., lines=True)[0].tolist() *)
Variable script_dir : string.
  (* os.path.dirname(__file__) *)

Definition system (cmd : string) : M Z :=
  emit (EvSystem cmd) ;;
  fun w => let '(code, fs') := os_system cmd (fs w) in
           (Ok code, mkWorld fs' (log w)).

Definition convert_file_to_json (input_fp : string) : M (option document) :=
  match classify input_fp with
  | None => ret None
  | Some (ext, category) =>
      content <- open_rb_read input_fp ;;
      match detect content with
      | None => ret None
      | Some encoding =>
          if String.eqb encoding EmptyString then ret None
          else
            emit (EvDecode encoding) ;;
            match decode content encoding with
            | UnicodeDecodeError => ret None
            | UnknownEncoding => raise (LookupError encoding)
            | Decoded content =>
                let line_count := PyStr.count newline content + 1 in
                size_in_bytes <- getsize input_fp ;;
                ret (Some {| doc_id := input_fp;
                             doc_text := content;
                             doc_file_extension := ext;
                             doc_category := category;
                             doc_line_count := line_count;
                             doc_size_in_bytes := size_in_bytes;
                             doc_path := input_fp |})
            end
      end
  end.

(** [for file in files: ...] of [convert_repo_to_jsonl] *)
Fixpoint convert_files (root : string) (files : list string)
         (jsonl_docs : list document) : M (list document) :=
  match files with
  | [] => ret jsonl_docs
  | file :: files' =>
      if PyStr.startswith hidden_marker file then
        convert_files root files' jsonl_docs
      else
        let input_fp := OsPath.join root file in
        jsonl <- convert_file_to_json input_fp ;;
        match jsonl with
        | Some doc => convert_files root files' (jsonl_docs ++ [doc])
        | None => convert_files root files' jsonl_docs
        end
  end.

(** [any(part.startswith(".") for part in root.split(os.sep))] *)
Definition hidden_root (root : string) : bool :=
  existsb (PyStr.startswith hidden_marker) (PyStr.split OsPath.sep root).

(** [for root, _, files in os.walk(repo_dir): ...] *)
Fixpoint convert_walk (triples : list (string * list string * list string))
         (jsonl_docs : list document) : M (list document) :=
  match triples with
  | [] => ret jsonl_docs
  | (root, _, files) :: triples' =>
      if hidden_root root then convert_walk triples' jsonl_docs
      else
        jsonl_docs' <- convert_files root files jsonl_docs ;;
        convert_walk triples' jsonl_docs'
  end.

(** The text the write loop sends to the output file. *)
Definition jsonl_lines (jsonl_docs : list document) : string :=
  fold_left (fun out jsonl_doc => out ++ (Json.dumps jsonl_doc ++ nl))
            jsonl_docs EmptyString.

Definition convert_repo_to_jsonl (repo_dir jsonl_dir : string) : M unit :=
  let repo_name := OsPath.basename repo_dir in
  let output_fp := OsPath.join jsonl_dir (repo_name ++ ".jsonl") in
  already <- path_exists output_fp ;;
  if already then
    print ("Repository '" ++ repo_name
           ++ "' already converted to JSONL. Skipping...")
  else
    print ("Converting repository '" ++ repo_name ++ "' to JSONL format...") ;;
    triples <- os_walk repo_dir ;;
    jsonl_docs <- convert_walk triples [] ;;
    open_w_write output_fp (jsonl_lines jsonl_docs).

(** [for url in urls: ...] of [download_github_sources] *)
Fixpoint clone_all (clone_root_dir : string) (urls : list string) : M unit :=
  match urls with
  | [] => ret tt
  | url :: urls' =>
      let repo_name := OsPath.basename url in
      let clone_dir := OsPath.join clone_root_dir repo_name in
      present <- path_exists clone_dir ;;
      if present then
        print ("Repository '" ++ repo_name ++ "' already exists. Skipping...") ;;
        clone_all clone_root_dir urls'
      else
        exit_code <- system ("git clone https://github.com/" ++ url
                             ++ " " ++ clone_dir) ;;
        if negb (exit_code =? 0) then
          print ("Failed to clone repository '" ++ repo_name
                 ++ "' from '" ++ url ++ "'.") ;;
          clone_all clone_root_dir urls'
        else
          clone_all clone_root_dir urls'
  end.

(** [for repo in os.listdir(clone_root_dir): ...] *)
Fixpoint convert_all (clone_root_dir jsonl_dir : string)
         (repos : list string) : M unit :=
  match repos with
  | [] => ret tt
  | repo :: repos' =>
      let repo_dir := OsPath.join clone_root_dir repo in
      convert_repo_to_jsonl repo_dir jsonl_dir ;;
      convert_all clone_root_dir jsonl_dir repos'
  end.

(** [pd.read_json(path_or_buf=source_links_file, lines=True)[0].tolist()] *)
Definition read_urls (source_links_file : string) : M (list string) :=
  fun w => match Fs.read_bytes (fs w) source_links_file with
           | None => (Raise (OSError source_links_file), w)
           | Some data =>
               match read_json_lines data with
               | Some urls => (Ok urls, w)
               | None => (Raise ValueError, w)
               end
           end.

(** [if limit: urls = urls[:limit]] *)
Definition apply_limit (limit : option Z) (urls : list string) : list string :=
  match limit with
  | None => urls
  | Some k => if k =? 0 then urls else slice_list k urls
  end.

Definition github_root_dir : string :=
  OsPath.join_all script_dir ["data"; "raw"; "github"].
Definition clone_root_dir : string := OsPath.join github_root_dir "repos".
Definition jsonl_dir : string := OsPath.join github_root_dir "jsonl".

Definition download_github_sources
           (source_links_file : option string) (limit : option Z) : M string :=
  let source_links_file :=
    match source_links_file with
    | None => OsPath.join_all script_dir ["sources"; "github_repos.jsonl"]
    | Some f => f
    end in
  found <- path_exists source_links_file ;;
  if negb found then
    raise (FileNotFoundError ("File '" ++ source_links_file ++ "' not found."))
  else
    makedirs clone_root_dir ;;
    makedirs jsonl_dir ;;
    urls <- read_urls source_links_file ;;
    let urls := apply_limit limit urls in
    clone_all clone_root_dir urls ;;
    repos <- listdir clone_root_dir ;;
    convert_all clone_root_dir jsonl_dir repos ;;
    ret jsonl_dir.

End Pipeline.

(** The files below a directory: for each, the names of the directories
    on the way down, the name of the file, and the path [os.walk] and
    [os.path.join] give it from [top]. *)
Fixpoint files_under (top : string) (n : node)
  : list (list string * string * string) :=
  match n with
  | File _ _ => []
  | Dir es =>
      flat_map
        (fun e =>
           match snd e with
           | File _ _ => [([], fst e, OsPath.join top (fst e))]
           | Dir _ =>
               map (fun x => (fst e :: fst (fst x), snd (fst x), snd x))
                   (files_under (OsPath.join top (fst e)) (snd e))
           end) es
  end.

(** A name that begins with the hidden marker. *)
Definition is_hidden (name : string) : Prop :=
  PyStr.startswith hidden_marker name = true.

(** No separator in a name. *)
Definition slashless (name : string) : bool :=
  PyStr.count OsPath.sep name =? 0.

(** A name an entry of a directory can have: not empty, not [.] or [..],
    and without a separator. *)
Definition proper_name (name : string) : bool :=
  slashless name && negb (Fs.is_skip name) && negb (Fs.is_parent name).

(** No entry of the tree has a separator in its name. *)
Fixpoint names_ok (n : node) : bool :=
  match n with
  | File _ _ => true
  | Dir es => forallb (fun e => slashless (fst e) && names_ok (snd e)) es
  end.

(** What a later state of the files keeps of a node: a file as it is, a
    directory as a directory. *)
Definition keeps (n n' : node) : Prop :=
  match n with
  | File perm data => n' = File perm data
  | Dir _ => Fs.is_dir n' = true
  end.

(** [root'] has everything [root] has. *)
Definition grows (root root' : node) : Prop :=
  forall names n, Fs.get root names = Some n ->
                  exists n', Fs.get root' names = Some n' /\ keeps n n'.


(** Where [convert_repo_to_jsonl] puts the artifact of [repo_dir]. *)
Definition artifact_path (jsonl_dir repo_dir : string) : string :=
  OsPath.join jsonl_dir (OsPath.basename repo_dir ++ ".jsonl").

(** The directory an entry of the manifest is cloned into, the command
    that clones it, and what is printed when the directory is there. *)
Definition clone_dir_of (clone_root_dir url : string) : string :=
  OsPath.join clone_root_dir (OsPath.basename url).

Definition clone_cmd (clone_root_dir url : string) : string :=
  "git clone https://github.com/" ++ url ++ " " ++ clone_dir_of clone_root_dir url.

Definition skip_event (url : string) : event :=
  EvPrint ("Repository '" ++ OsPath.basename url ++ "' already exists. Skipping...").

(** The manifest [download_github_sources] reads. *)
Definition manifest_path (script_dir : string) (source_links_file : option string)
  : string :=
  match source_links_file with
  | None => OsPath.join_all script_dir ["sources"; "github_repos.jsonl"]
  | Some f => f
  end.

(** The commands of the [os.system] calls in a log, in order. *)
Definition system_calls (evs : list event) : list string :=
  flat_map (fun e => match e with EvSystem cmd => [cmd] | _ => [] end) evs.

(** A computation that leaves the files alone and only extends the log,
    with no command run. *)
Definition read_only {A} (m : M A) : Prop :=
  forall w r w', m w = (r, w') ->
                 fs w' = fs w
                 /\ exists evs, log w' = (log w ++ evs)%list
                                /\ system_calls evs = [].

(** A computation that runs no command. *)
Definition quiet {A} (m : M A) : Prop :=
  forall w r w', m w = (r, w') -> system_calls (log w') = system_calls (log w).

(** The paths of the files opened for reading in a log, in order. *)
Definition file_reads (evs : list event) : list string :=
  flat_map (fun e => match e with EvOpenRead p => [p] | _ => [] end) evs.

(** The encodings of the [decode] calls in a log, in order. *)
Definition decode_attempts (evs : list event) : list string :=
  flat_map (fun e => match e with EvDecode enc => [enc] | _ => [] end) evs.

#[global] Arguments Fs.resolve : simpl never.
#[global] Arguments Fs.exists_ : simpl never.
#[global] Arguments Fs.read_bytes : simpl never.
#[global] Arguments Fs.getsize : simpl never.
#[global] Arguments Fs.listdir : simpl never.
#[global] Arguments Fs.place : simpl never.
#[global] Arguments Fs.write_text : simpl never.
#[global] Arguments Fs.makedirs : simpl never.
#[global] Arguments Fs.walk : simpl never.
#[global] Arguments Json.dumps : simpl never.
#[global] Arguments classify : simpl never.
#[global] Arguments OsPath.join : simpl never.
#[global] Arguments OsPath.basename : simpl never.

(** Unfold the effects of one primitive step. *)
Ltac step :=
  cbv beta iota zeta delta
    [bind ret raise emit print path_exists open_rb_read getsize
     os_walk listdir makedirs open_w_write system];
  cbn [fs log].

(* ================================================================= *)
(** ** [downloaders.py] and [download_wikipedia.py]

    The functions of these two files prepare a call of
    [download_and_extract] of the library: they check the manifest, make
    the output directories, read and cap the manifest and derive one output
    path for each entry.  The call itself, with the [persist] of its
    result, is a parameter. *)

(** The downloader, iterator and extractor classes and the output format
    that go together in a call. *)
Inductive source_kind : Type :=
| DAPTtxt
| GitHub
| Arxiv.

(** [[os.path.join(dir, os.path.basename(url)) for url in urls]] *)
Definition output_paths (dir : string) (urls : list string) : list string :=
  map (fun url => OsPath.join dir (OsPath.basename url)) urls.

(** The manifest a function reads: the one given, or [name] in the
    [sources] directory of the script. *)
Definition source_links (script_dir : string) (name : string)
           (source_links_file : option string) : string :=
  match source_links_file with
  | None => OsPath.join_all script_dir ["sources"; name]
  | Some f => f
  end.

Module DownloadWikipedia.
Section Functions.

Variable read_json_lines : list Byte.byte -> option (list string).
Variable script_dir : string.
Variable download_and_extract :
  source_kind -> string -> bool -> list string -> list string -> M unit.
  (* kind, directory of the downloader, keep_raw_download, urls, output_paths *)

Definition download_wikipedia_sources
           (source_links_file output_dir : option string) (limit : option Z)
  : M string :=
  let source_links_file :=
    source_links script_dir "wikipedia_urls.jsonl" source_links_file in
  found <- path_exists source_links_file ;;
  if negb found then
    raise (FileNotFoundError ("File '" ++ source_links_file ++ "' not found."))
  else
    output_dir <-
      match output_dir with
      | None =>
          let output_dir :=
            OsPath.join_all script_dir ["data"; "raw"; "wikipedia"] in
          makedirs output_dir ;;
          ret output_dir
      | Some output_dir => ret output_dir
      end ;;
    urls <- read_urls read_json_lines source_links_file ;;
    let urls := apply_limit limit urls in
    download_and_extract DAPTtxt output_dir false urls
                         (output_paths output_dir urls) ;;
    ret output_dir.

End Functions.
End DownloadWikipedia.

Module Downloaders.
Section Functions.

Variable read_json_lines : list Byte.byte -> option (list string).
Variable script_dir : string.
Variable download_and_extract :
  source_kind -> string -> bool -> list string -> list string -> M unit.

Definition download_wikipedia_sources
           (source_links_file output_dir : option string) (limit : option Z)
  : M string :=
  let source_links_file :=
    source_links script_dir "wikipedia_urls.jsonl" source_links_file in
  found <- path_exists source_links_file ;;
  if negb found then
    raise (FileNotFoundError ("File '" ++ source_links_file ++ "' not found."))
  else
    let output_dir :=
      match output_dir with
      | None => OsPath.join_all script_dir ["data"; "raw"; "wikipedia"]
      | Some output_dir => output_dir
      end in
    makedirs output_dir ;;
    urls <- read_urls read_json_lines source_links_file ;;
    let urls := apply_limit limit urls in
    download_and_extract DAPTtxt output_dir false urls
                         (output_paths output_dir urls) ;;
    ret output_dir.

(** The common shape of [download_github_sources] and
    [download_pdf_sources], which differ in the default names and in the
    classes of the call. *)
Definition download_to_jsonl (kind : source_kind) (manifest_name data_name : string)
           (source_links_file output_dir : option string) (limit : option Z)
  : M string :=
  let source_links_file :=
    source_links script_dir manifest_name source_links_file in
  found <- path_exists source_links_file ;;
  if negb found then
    raise (FileNotFoundError ("File '" ++ source_links_file ++ "' not found."))
  else
    urls <- read_urls read_json_lines source_links_file ;;
    let urls := apply_limit limit urls in
    let output_dir :=
      match output_dir with
      | None => OsPath.join_all script_dir ["data"; "raw"; data_name]
      | Some output_dir => output_dir
      end in
    makedirs output_dir ;;
    let output_jsonl_dir := OsPath.join output_dir "jsonl" in
    makedirs output_jsonl_dir ;;
    download_and_extract kind output_dir true urls
                         (output_paths output_jsonl_dir urls) ;;
    ret output_jsonl_dir.

Definition download_github_sources :=
  download_to_jsonl GitHub "github_repos.jsonl" "github".

Definition download_pdf_sources :=
  download_to_jsonl Arxiv "arxiv_urls.jsonl" "arxiv".

End Functions.
End Downloaders.

(* ================================================================= *)
(** ** Further notions for the properties of the walk and of the run *)

(** [sub] is [xs] with some elements left out. *)
Inductive subseq {A : Type} : list A -> list A -> Prop :=
| subseq_nil : subseq [] []
| subseq_skip x sub xs : subseq sub xs -> subseq sub (x :: xs)
| subseq_take x sub xs : subseq sub xs -> subseq (x :: sub) (x :: xs).

(** The paths the inner loop hands to [convert_file_to_json]: the files
    that are not hidden, joined to the root, in order. *)
Definition file_candidates (root : string) (files : list string) : list string :=
  map (OsPath.join root)
      (filter (fun file => negb (PyStr.startswith hidden_marker file)) files).

(** The paths the walk hands to [convert_file_to_json]: those of every
    triple whose root has no hidden part, in order. *)
Definition walk_candidates (triples : list (string * list string * list string))
  : list string :=
  flat_map
    (fun t =>
       if hidden_root (fst (fst t)) then []
       else file_candidates (fst (fst t)) (snd t))
    triples.

(** The extension or the name of the path is in the table. *)
Definition supported (input_fp : string) : bool :=
  match classify input_fp with
  | Some _ => true
  | None => false
  end.

(** What [convert_file_to_json] makes of a path over given files: its
    document, if it returns one, and whether it raises. *)
Definition doc_of (detect : list Byte.byte -> option string)
           (decode : list Byte.byte -> string -> decoded)
           (root : node) (input_fp : string) : list document :=
  match fst (convert_file_to_json detect decode input_fp (mkWorld root [])) with
  | Ok (Some doc) => [doc]
  | _ => []
  end.

Definition raises (detect : list Byte.byte -> option string)
           (decode : list Byte.byte -> string -> decoded)
           (root : node) (input_fp : string) : bool :=
  match fst (convert_file_to_json detect decode input_fp (mkWorld root [])) with
  | Raise _ => true
  | Ok _ => false
  end.

(** What every document of the builder satisfies. *)
Definition well_formed_document (doc : document) : Prop :=
  doc_path doc = doc_id doc
  /\ classify (doc_id doc) = Some (doc_file_extension doc, doc_category doc)
  /\ PyStr.lower (doc_file_extension doc) = doc_file_extension doc
  /\ In (doc_category doc) (map snd SUPPORTED_EXTENSIONS_TO_CATEGORY)
  /\ doc_line_count doc = PyStr.count newline (doc_text doc) + 1
  /\ 1 <= doc_line_count doc
  /\ 0 <= doc_size_in_bytes doc.

(** Every character of [s] passes [f]. *)
Fixpoint str_forallb (f : ascii -> bool) (s : string) : bool :=
  match s with
  | EmptyString => true
  | String c s' => f c && str_forallb f s'
  end.

(** A printable ASCII character. *)
Definition printable (c : ascii) : bool :=
  ((32 <=? nat_of_ascii c) && (nat_of_ascii c <=? 126))%nat.

(** What the converter prints for a repository that has its artifact. *)
Definition converted_event (repo_dir : string) : event :=
  EvPrint ("Repository '" ++ OsPath.basename repo_dir
           ++ "' already converted to JSONL. Skipping...").

(** A directory is at [p]. *)
Definition dir_at (root : node) (p : string) : Prop :=
  exists es, Fs.resolve root p = Some (Dir es).

(* ================================================================= *)
(** ** Sample collaborators and trees *)

Module Sample.

Definition is_ascii_byte (b : Byte.byte) : bool :=
  (Byte.to_nat b <? 128)%nat.

(** A detector that names no encoding for an empty buffer, and a strict
    ASCII codec. *)
Definition ascii_detect (data : list Byte.byte) : option string :=
  match data with
  | [] => None
  | _ => Some "ASCII"
  end.

Definition ascii_decode (data : list Byte.byte) (encoding : string) : decoded :=
  if String.eqb encoding "ASCII" then
    if forallb is_ascii_byte data then Decoded (string_of_list_byte data)
    else UnicodeDecodeError
  else UnknownEncoding.

(** A detector whose answer, for a buffer that is not empty, is an
    encoding that has no codec. *)
Definition odd_detect (data : list Byte.byte) : option string :=
  match data with
  | [] => None
  | _ => Some "EUC-TW"
  end.

(** A two-bytes-per-character codec that keeps the first byte of each
    pair. *)
Fixpoint every_other (data : list Byte.byte) : option (list Byte.byte) :=
  match data with
  | [] => Some []
  | [_] => None
  | b :: _ :: rest => option_map (cons b) (every_other rest)
  end.

Definition utf16_detect (data : list Byte.byte) : option string :=
  match data with
  | [] => None
  | _ => Some "UTF-16LE"
  end.

Definition utf16_decode (data : list Byte.byte) (_ : string) : decoded :=
  match every_other data with
  | Some bs => Decoded (string_of_list_byte bs)
  | None => UnicodeDecodeError
  end.

(** A clone collaborator over a table of remote repositories: the command
    is [git clone <url> <dir>], and a destination that exists is refused. *)
Definition git_remote (remote : list (string * node))
           (cmd : string) (root : node) : Z * node :=
  match PyStr.split " "%char cmd with
  | [_; _; url; dir] =>
      match Fs.assoc url remote with
      | Some repo =>
          if Fs.exists_ root dir then (128, root)
          else match Fs.place root dir repo with
               | Some root' => (0, root')
               | None => (128, root)
               end
      | None => (128, root)
      end
  | _ => (1, root)
  end.

Definition unquote (line : string) : string :=
  PyStr.take (String.length line - 2) (PyStr.drop 1 line).

(** One JSON string per line. *)
Definition read_lines (data : list Byte.byte) : option (list string) :=
  Some (map unquote
            (filter (fun l => negb (String.eqb l EmptyString))
                    (PyStr.split newline (string_of_list_byte data)))).

Definition manifest (urls : list string) : list Byte.byte :=
  list_byte_of_string
    (String.concat EmptyString
       (map (fun u => Json.quote ++ u ++ Json.quote ++ nl) urls)).

Definition text_file (s : string) : node := File true (list_byte_of_string s).

(** An excerpt of the case tables of the Unicode database: the characters
    up to U+00FF, the capital I with a dot above (U+0130), the Greek
    capitals (U+0391 to U+03AB) and the Kelvin sign (U+212A); every other
    character is taken to have no case. *)
Definition to_lower_full (c : N) : Unicode.str :=
  if (N.leb 65 c && N.leb c 90
      || N.leb 192 c && N.leb c 222 && negb (N.eqb c 215))%bool
  then [c + 32]%N
  else if N.eqb c 304 then [105; 775]%N
  else if (N.leb 913 c && N.leb c 939 && negb (N.eqb c 930))%bool
  then [c + 32]%N
  else if N.eqb c 8490 then [107]%N
  else [c].

Definition is_cased (c : N) : bool :=
  (N.leb 65 c && N.leb c 90 || N.leb 97 c && N.leb c 122
   || N.eqb c 170 || N.eqb c 181 || N.eqb c 186
   || N.leb 192 c && N.leb c 255 && negb (N.eqb c 215) && negb (N.eqb c 247)
   || N.eqb c 304 || N.eqb c 305
   || N.leb 913 c && N.leb c 974 && negb (N.eqb c 930)
   || N.eqb c 8490)%bool.

Definition is_case_ignorable (c : N) : bool :=
  (N.eqb c 39 || N.eqb c 46 || N.eqb c 58 || N.eqb c 94 || N.eqb c 96
   || N.eqb c 168 || N.eqb c 173 || N.eqb c 175 || N.eqb c 180
   || N.eqb c 183 || N.eqb c 184
   || N.leb 768 c && N.leb c 879)%bool.

(** The classifier with these tables. *)
Definition unicode_classify : Unicode.str -> option (Unicode.str * string) :=
  Unicode.classify to_lower_full is_cased is_case_ignorable.

Definition script_dir : string := "/app".

(** The script's directory with a manifest and the given clone root. *)
Definition app (urls : list string) (repos : list (string * node)) : node :=
  Dir [("app",
        Dir [("sources", Dir [("github_repos.jsonl", File true (manifest urls))]);
             ("data", Dir [("raw", Dir [("github", Dir [("repos", Dir repos)])])])])].

Definition hello_world : node :=
  Dir [(".git", Dir [("config", text_file "[core]")]);
       ("README.md", text_file ("hello" ++ nl ++ "world"));
       (".gitignore", text_file "*.o");
       ("src", Dir [("main.c", text_file "int main;");
                    (".cache", Dir [("deep", Dir [("x.py", text_file "pass")])])])].

Definition locked : node := Dir [("notes.txt", File false [])].

Definition run (remote : list (string * node)) (root : node) (limit : option Z)
  : result string * world :=
  download_github_sources ascii_detect ascii_decode (git_remote remote)
                          read_lines script_dir None limit
                          (mkWorld root []).

Definition remote : list (string * node) :=
  [("https://github.com/octocat/hello-world", hello_world);
   ("https://github.com/octocat/spoon-knife",
    Dir [("index.html", text_file "<html/>")])].

(** A manifest whose second entry has no remote repository. *)
Definition three : list string :=
  ["octocat/hello-world"; "nobody/nothing"; "octocat/spoon-knife"].

Definition clone_root : string := "/app/data/raw/github/repos".
Definition jsonl_root : string := "/app/data/raw/github/jsonl".

(** A clone root with one repository, next to an output directory. *)
Definition site (out : list (string * node)) : node :=
  Dir [("r", hello_world); ("out", Dir out)].

(** The documents of a walk that returned. *)
Definition docs_of (r : result (list document) * world) : list document :=
  match fst r with
  | Ok docs => docs
  | Raise _ => []
  end.

(** The world of [site], the triples of the walk of its repository, and
    the walk from there. *)
Definition site_world : world := mkWorld (site []) [].

Definition site_triples : list (string * list string * list string) :=
  Fs.walk (site []) "/r".

Definition plain_walk : result (list document) * world :=
  convert_walk ascii_detect ascii_decode site_triples [] site_world.

(** The conversion loop over [site]. *)
Definition site_conversion : result unit * world :=
  convert_all ascii_detect ascii_decode "/" "/out" ["r"] site_world.

(** A script directory below a hidden directory, with one repository
    cloned. *)
Definition hidden_script_dir : string := "/home/u/.local/app".

Definition hidden_app : node :=
  Dir [("home",
        Dir [("u",
              Dir [(".local",
                    Dir [("app",
                          Dir [("data",
                                Dir [("raw",
                                      Dir [("github",
                                            Dir [("repos", Dir [("r", hello_world)]);
                                                 ("jsonl", Dir [])])])])])])])])].

(** A clone root with a stray file. *)
Definition stray : node :=
  Dir [("stray.txt", text_file "x"); ("out", Dir [])].

(** The files after [os.makedirs(p, exist_ok=True)]. *)
Definition made (root : node) (p : string) : node :=
  match Fs.makedirs root p with
  | Some root' => root'
  | None => root
  end.

(** The script's directory with a manifest of Wikipedia pages. *)
Definition wiki_app : node :=
  Dir [("app",
        Dir [("sources",
              Dir [("wikipedia_urls.jsonl",
                    File true (manifest ["https://en.wikipedia.org/wiki/Coq"]))])])].

(** A [download_and_extract] that leaves an empty file at every output
    path. *)
Fixpoint touch_all (paths : list string) : M unit :=
  match paths with
  | [] => ret tt
  | p :: paths' => open_w_write p EmptyString ;; touch_all paths'
  end.

Definition touching (_ : source_kind) (_ : string) (_ : bool)
           (_ : list string) (paths : list string) : M unit :=
  touch_all paths.

(** The walk [convert_repo_to_jsonl] makes of the repository of [site]. *)
Definition site_walk : result (list document) * world :=
  convert_walk ascii_detect ascii_decode (Fs.walk (site []) "/r") []
    (mkWorld (site []) [EvPrint "Converting repository 'r' to JSONL format..."]).

End Sample.

(* ================================================================= *)
(** * Properties *)

(** ** Strings and paths *)

Section StrFacts.
Import PyStr.

Lemma lower_char_idem (c : ascii) : lower_char (lower_char c) = lower_char c.
Proof. destruct c as [[] [] [] [] [] [] [] []]; reflexivity. Qed.

Lemma lower_idem (s : string) : lower (lower s) = lower s.
Proof.
  induction s as [|c s IH]; simpl; [reflexivity|].
  now rewrite lower_char_idem, IH.
Qed.

Lemma lower_char_sep (c : ascii) :
  Ascii.eqb (lower_char c) OsPath.sep = Ascii.eqb c OsPath.sep.
Proof. destruct c as [[] [] [] [] [] [] [] []]; reflexivity. Qed.

Lemma lower_char_extsep (c : ascii) :
  Ascii.eqb (lower_char c) OsPath.extsep = Ascii.eqb c OsPath.extsep.
Proof. destruct c as [[] [] [] [] [] [] [] []]; reflexivity. Qed.

Lemma rfind_lower (k : ascii) (s : string) :
  caseless k -> rfind k (lower s) = rfind k s.
Proof.
  intros Hk. induction s as [|c s IH]; simpl; [reflexivity|].
  now rewrite IH, Hk.
Qed.

Lemma all_char_lower (k : ascii) (s : string) :
  caseless k -> all_char k (lower s) = all_char k s.
Proof.
  intros Hk. induction s as [|c s IH]; simpl; [reflexivity|].
  now rewrite IH, Hk.
Qed.

Lemma take_lower (n : nat) (s : string) : take n (lower s) = lower (take n s).
Proof.
  revert s; induction n as [|n IH]; intros [|c s]; simpl; try reflexivity.
  now rewrite IH.
Qed.

Lemma drop_lower (n : nat) (s : string) : drop n (lower s) = lower (drop n s).
Proof.
  revert s; induction n as [|n IH]; intros [|c s]; simpl; try reflexivity.
  apply IH.
Qed.

Lemma basename_lower (p : string) :
  OsPath.basename (lower p) = lower (OsPath.basename p).
Proof.
  unfold OsPath.basename, slice_from.
  rewrite (rfind_lower OsPath.sep p lower_char_sep).
  apply drop_lower.
Qed.

Lemma splitext_lower (p : string) :
  OsPath.splitext (lower p) =
  (lower (fst (OsPath.splitext p)), lower (snd (OsPath.splitext p))).
Proof.
  unfold OsPath.splitext, slice, slice_to, slice_from.
  rewrite (rfind_lower OsPath.sep p lower_char_sep).
  rewrite (rfind_lower OsPath.extsep p lower_char_extsep).
  rewrite !drop_lower, !take_lower.
  rewrite (all_char_lower OsPath.extsep _ lower_char_extsep).
  destruct (_ && _); reflexivity.
Qed.

End StrFacts.

(** ** The classifier *)

(** The category depends on the path through its lower-cased form only. *)
Lemma classify_lower (input_fp : string) :
  classify (PyStr.lower input_fp) = classify input_fp.
Proof.
  unfold classify.
  rewrite basename_lower, splitext_lower.
  destruct (OsPath.splitext (OsPath.basename input_fp)) as [stem ext]; simpl.
  now rewrite !lower_idem.
Qed.

(** C1. A file named [makefile] has an empty extension, the empty
    extension is a key of the table, and so the category is the one of the
    no-extension entry, [text]; the entry of the table under the name
    [makefile], which says [Makefile], is not consulted. *)
Theorem classify_makefile_is_text :
  OsPath.splitext "makefile" = ("makefile", EmptyString)
  /\ classify "makefile" = Some (EmptyString, "text")
  /\ dict_get "makefile" SUPPORTED_EXTENSIONS_TO_CATEGORY = Some "Makefile"
  /\ classify "Makefile.am" = Some (".am", "Makefile").
Proof. repeat split; reflexivity. Qed.

(** Whatever its name, a file without an extension is classified by the
    no-extension entry. *)
Lemma classify_no_extension (input_fp : string) :
  snd (OsPath.splitext (OsPath.basename input_fp)) = EmptyString ->
  classify input_fp = Some (EmptyString, "text").
Proof.
  unfold classify.
  destruct (OsPath.splitext (OsPath.basename input_fp)) as [stem ext]; simpl.
  intros ->. reflexivity.
Qed.

(** Within U+00FF: two names with the same lower-cased form are classified
    alike, recorded extension included. *)
Lemma classify_same_lower (f g : string) :
  PyStr.lower f = PyStr.lower g -> classify f = classify g.
Proof.
  intros H. rewrite <- (classify_lower f), <- (classify_lower g).
  now rewrite H.
Qed.

(** ** Names over every code point *)

Section PointFacts.
Import Unicode.

Lemma points_eqb_eq (a b : str) : eqb a b = true <-> a = b.
Proof.
  revert b; induction a as [|x a IH]; intros [|y b]; cbn [eqb];
    try (split; [discriminate | discriminate]); [tauto|].
  rewrite andb_true_iff, N.eqb_eq, IH.
  split; [intros [-> ->]; reflexivity | intros [= -> ->]; now split].
Qed.

Lemma points_rfind_absent (c : N) (s : str) : ~ In c s -> rfind c s = -1.
Proof.
  induction s as [|x s IH]; intros Hn; [reflexivity|].
  cbn [rfind]. rewrite IH by (intros H; apply Hn; now right).
  cbn [Z.leb Z.compare].
  destruct (N.eqb_spec x c) as [->|_]; [|reflexivity].
  exfalso. apply Hn. now left.
Qed.

Lemma points_rfind_last (c : N) (a b : str) :
  ~ In c b -> rfind c (a ++ c :: b)%list = Z.of_nat (List.length a).
Proof.
  intros Hn. induction a as [|x a IH].
  - cbn [app rfind List.length]. rewrite (points_rfind_absent c b Hn).
    cbn [Z.leb Z.compare]. now rewrite N.eqb_refl.
  - cbn [app rfind List.length]. rewrite IH.
    destruct (Z.leb_spec 0 (Z.of_nat (List.length a))); lia.
Qed.

Lemma last_occurrence (c : N) (s : str) :
  In c s -> exists a b, s = (a ++ c :: b)%list /\ ~ In c b.
Proof.
  induction s as [|x s IH]; intros Hin; [contradiction|].
  destruct (in_dec N.eq_dec c s) as [Hs|Hs].
  - destruct (IH Hs) as (a & b & -> & Hb). now exists (x :: a), b.
  - destruct Hin as [->|Hin]; [|contradiction]. now exists [], s.
Qed.

Lemma skipn_length_app (a b : str) : skipn (List.length a) (a ++ b) = b.
Proof. induction a as [|x a IH]; [reflexivity | exact IH]. Qed.

Lemma firstn_length_app (a b : str) : firstn (List.length a) (a ++ b) = a.
Proof. induction a as [|x a IH]; [reflexivity | cbn; now rewrite IH]. Qed.

Lemma points_basename_absent (p : str) : ~ In sep p -> basename p = p.
Proof.
  intros Hn. unfold basename, slice_from.
  now rewrite (points_rfind_absent _ _ Hn).
Qed.

Lemma points_basename_last (a b : str) :
  ~ In sep b -> basename (a ++ sep :: b)%list = b.
Proof.
  intros Hn. unfold basename, slice_from.
  rewrite (points_rfind_last _ a b Hn).
  replace (Z.to_nat (Z.of_nat (List.length a) + 1))
    with (List.length (a ++ [sep])%list)
    by (rewrite length_app; cbn [List.length]; lia).
  change (a ++ sep :: b)%list with (a ++ [sep] ++ b)%list.
  rewrite app_assoc. apply skipn_length_app.
Qed.

Lemma points_basename_slashless (p : str) : ~ In sep (basename p).
Proof.
  destruct (in_dec N.eq_dec sep p) as [Hin|Hn].
  - destruct (last_occurrence _ _ Hin) as (a & b & -> & Hb).
    now rewrite (points_basename_last a b Hb).
  - now rewrite (points_basename_absent p Hn).
Qed.

Lemma points_splitext_absent (p : str) :
  ~ In sep p -> ~ In extsep p -> splitext p = (p, []).
Proof.
  intros Hs Hd. unfold splitext.
  now rewrite (points_rfind_absent _ _ Hs), (points_rfind_absent _ _ Hd).
Qed.

Lemma points_splitext_last (a b : str) :
  ~ In sep (a ++ extsep :: b)%list -> ~ In extsep b ->
  splitext (a ++ extsep :: b)%list
  = if forallb (fun x => N.eqb x extsep) a then ((a ++ extsep :: b)%list, [])
    else (a, extsep :: b).
Proof.
  intros Hs Hd. unfold splitext, slice, slice_to, slice_from.
  rewrite (points_rfind_absent _ _ Hs), (points_rfind_last _ a b Hd).
  replace (-1 <? Z.of_nat (List.length a)) with true
    by (symmetry; apply Z.ltb_lt; lia).
  replace (Z.to_nat (Z.of_nat (List.length a) - (-1 + 1))) with (List.length a) by lia.
  replace (Z.to_nat (-1 + 1)) with 0%nat by lia.
  rewrite Nat2Z.id. cbn [skipn andb].
  rewrite firstn_length_app, skipn_length_app.
  now destruct (forallb _ a).
Qed.

End PointFacts.

Section FoldedFacts.
Import Unicode.
Variable to_lower_full : N -> str.
Variable is_cased : N -> bool.
Variable is_case_ignorable : N -> bool.
Hypothesis tables : case_tables to_lower_full.

Lemma fold_char_mark (d : N) : is_mark d -> fold_char to_lower_full d = [d].
Proof.
  intros [-> | ->]; unfold fold_char;
    rewrite (lower_of_ascii _ tables) by (unfold sep, extsep; lia);
    reflexivity.
Qed.

Lemma fold_sigma_mark (x d : N) : is_mark d -> fold_sigma x = d -> x = d.
Proof.
  unfold fold_sigma. destruct (N.eqb_spec x final_sigma) as [->|_]; [|easy].
  intros [-> | ->]; discriminate.
Qed.

Lemma fold_char_other (c d : N) :
  is_mark d -> c <> d -> ~ In d (fold_char to_lower_full c).
Proof.
  intros Hd Hne. unfold fold_char.
  destruct (N.eqb_spec c capital_sigma) as [->|Hs].
  - intros [H|[]]. destruct Hd as [-> | ->]; discriminate.
  - rewrite in_map_iff. intros (x & Hx & Hin).
    apply (fold_sigma_mark _ _ Hd) in Hx. subst x.
    destruct (N.lt_ge_cases c 128) as [Hlt|Hge].
    + rewrite (lower_of_ascii _ tables c Hlt) in Hin.
      destruct Hin as [Hin|[]]. unfold ascii_lower in Hin.
      destruct (N.leb_spec 65 c); destruct (N.leb_spec c 90); cbn [andb] in Hin;
        try (now apply Hne).
      destruct Hd as [-> | ->]; unfold sep, extsep in *; lia.
    + destruct (lower_keeps_marks _ tables c d Hge Hin) as [H1 H2].
      destruct Hd; contradiction.
Qed.

Lemma fold_char_not_empty (c : N) : fold_char to_lower_full c <> [].
Proof.
  unfold fold_char.
  destruct (N.eqb c capital_sigma); [discriminate|].
  pose proof (lower_not_empty _ tables c) as H.
  destruct (to_lower_full c); [contradiction | discriminate].
Qed.

Lemma folded_cons (c : N) (s : str) :
  folded to_lower_full (c :: s)
  = (fold_char to_lower_full c ++ folded to_lower_full s)%list.
Proof. reflexivity. Qed.

Lemma folded_mark (d : N) (s : str) :
  is_mark d -> In d (folded to_lower_full s) <-> In d s.
Proof.
  intros Hd. induction s as [|c s IH]; [reflexivity|].
  rewrite folded_cons, in_app_iff, IH. cbn [In].
  destruct (N.eq_dec c d) as [->|Hne].
  - rewrite (fold_char_mark d Hd). cbn [In]. tauto.
  - pose proof (fold_char_other c d Hd Hne). tauto.
Qed.

Lemma folded_all_dots (a : str) :
  forallb (fun x => N.eqb x extsep) (folded to_lower_full a)
  = forallb (fun x => N.eqb x extsep) a.
Proof.
  induction a as [|c a IH]; [reflexivity|].
  rewrite folded_cons, forallb_app, IH. cbn [forallb].
  destruct (N.eqb_spec c extsep) as [->|Hne].
  - now rewrite (fold_char_mark extsep (or_intror eq_refl)).
  - pose proof (fold_char_other c extsep (or_intror eq_refl) Hne) as Hno.
    pose proof (fold_char_not_empty c) as Hne'.
    destruct (fold_char to_lower_full c) as [|x l]; [contradiction|].
    cbn [forallb]. destruct (N.eqb_spec x extsep) as [->|_]; [|reflexivity].
    exfalso. apply Hno. now left.
Qed.

Lemma folded_cons_mark (d : N) (a b : str) :
  is_mark d ->
  folded to_lower_full (a ++ d :: b)%list
  = (folded to_lower_full a ++ d :: folded to_lower_full b)%list.
Proof.
  intros Hd. unfold folded. rewrite flat_map_app. cbn [flat_map].
  now rewrite (fold_char_mark d Hd).
Qed.

Lemma basename_folded (p : str) :
  basename (folded to_lower_full p) = folded to_lower_full (basename p).
Proof.
  assert (Hsep : is_mark sep) by now left.
  destruct (in_dec N.eq_dec sep p) as [Hin|Hn].
  - destruct (last_occurrence _ _ Hin) as (a & b & -> & Hb).
    rewrite (folded_cons_mark sep a b Hsep).
    rewrite !points_basename_last; [reflexivity | exact Hb |].
    now rewrite (folded_mark sep b Hsep).
  - rewrite !points_basename_absent; [reflexivity | exact Hn |].
    now rewrite (folded_mark sep p Hsep).
Qed.

Lemma splitext_folded (p : str) :
  ~ In sep p ->
  splitext (folded to_lower_full p)
  = (folded to_lower_full (fst (splitext p)),
     folded to_lower_full (snd (splitext p))).
Proof.
  intros Hs.
  assert (Hsep : is_mark sep) by now left.
  assert (Hdot : is_mark extsep) by now right.
  assert (Hs' : ~ In sep (folded to_lower_full p))
    by now rewrite (folded_mark sep p Hsep).
  destruct (in_dec N.eq_dec extsep p) as [Hin|Hn].
  - destruct (last_occurrence _ _ Hin) as (a & b & -> & Hb).
    rewrite (points_splitext_last a b Hs Hb).
    rewrite (folded_cons_mark extsep a b Hdot) in *.
    rewrite (points_splitext_last (folded to_lower_full a)
               (folded to_lower_full b) Hs')
      by now rewrite (folded_mark extsep b Hdot).
    rewrite folded_all_dots.
    destruct (forallb _ a); cbn [fst snd].
    + now rewrite (folded_cons_mark extsep a b Hdot).
    + now rewrite folded_cons, (fold_char_mark extsep Hdot).
  - rewrite (points_splitext_absent p Hs Hn).
    rewrite (points_splitext_absent (folded to_lower_full p) Hs')
      by now rewrite (folded_mark extsep p Hdot).
    reflexivity.
Qed.

(** The folded form is the lower-cased form with its final sigmas
    folded. *)
Lemma do_lower_folded (s : str) : forall before,
  map fold_sigma (do_lower to_lower_full is_cased is_case_ignorable before s)
  = folded to_lower_full s.
Proof.
  induction s as [|c s IH]; intros before; [reflexivity|].
  cbn [do_lower]. rewrite map_app, IH, folded_cons. f_equal.
  unfold fold_char. destruct (N.eqb c capital_sigma); [|reflexivity].
  unfold handle_capital_sigma.
  destruct (match first_considered is_case_ignorable before with
            | Some c0 => _
            | None => false
            end); reflexivity.
Qed.

Lemma lower_folded (s : str) :
  map fold_sigma (lower to_lower_full is_cased is_case_ignorable s)
  = folded to_lower_full s.
Proof. apply do_lower_folded. Qed.

Lemma fold_sigma_free (l : str) :
  sigma_free l = true -> map fold_sigma l = l.
Proof.
  induction l as [|y l IH]; [reflexivity|].
  unfold sigma_free in *. cbn [forallb map]. intros H.
  apply andb_prop in H as [Hy Hl]. rewrite (IH Hl). f_equal.
  unfold fold_sigma. apply andb_prop in Hy as [Hy _].
  apply negb_true_iff in Hy. now rewrite Hy.
Qed.

Lemma fold_sigma_free_inv (l : str) :
  sigma_free (map fold_sigma l) = true -> map fold_sigma l = l.
Proof.
  induction l as [|y l IH]; [reflexivity|].
  unfold sigma_free in *. cbn [forallb map]. intros H.
  apply andb_prop in H as [Hy Hl]. rewrite (IH Hl). f_equal.
  unfold fold_sigma in *.
  destruct (N.eqb y final_sigma); [discriminate Hy | reflexivity].
Qed.

(** A string without a small sigma of either kind is the lower-cased form
    exactly when it is the folded form. *)
Lemma lower_is_key (x k : str) :
  sigma_free k = true ->
  lower to_lower_full is_cased is_case_ignorable x = k
  <-> folded to_lower_full x = k.
Proof.
  intros Hk. rewrite <- lower_folded. split.
  - intros <-. now apply fold_sigma_free.
  - intros H. rewrite <- H in Hk. now rewrite <- (fold_sigma_free_inv _ Hk).
Qed.

Lemma points_eqb_lower (x k : str) :
  sigma_free k = true ->
  eqb (lower to_lower_full is_cased is_case_ignorable x) k
  = eqb (folded to_lower_full x) k.
Proof.
  intros Hk. pose proof (lower_is_key x k Hk) as H.
  rewrite <- !points_eqb_eq in H.
  destruct (eqb (lower _ _ _ x) k), (eqb (folded _ x) k); intuition congruence.
Qed.

Lemma table_sigma_free :
  forallb (fun kv => sigma_free (fst kv)) TABLE = true.
Proof. reflexivity. Qed.

Lemma dict_get_lower (x : str) : forall d,
  forallb (fun kv => sigma_free (fst kv)) d = true ->
  dict_get (lower to_lower_full is_cased is_case_ignorable x) d
  = dict_get (folded to_lower_full x) d.
Proof.
  induction d as [|[k v] d IH]; [reflexivity|].
  cbn [forallb fst dict_get]. intros H. apply andb_prop in H as [Hk Hd].
  now rewrite (points_eqb_lower x k Hk), (IH Hd).
Qed.

Lemma dict_mem_lower (x : str) : forall d,
  forallb (fun kv => sigma_free (fst kv)) d = true ->
  dict_mem (lower to_lower_full is_cased is_case_ignorable x) d
  = dict_mem (folded to_lower_full x) d.
Proof.
  induction d as [|[k v] d IH]; [reflexivity|].
  cbn [forallb fst]. intros H. apply andb_prop in H as [Hk Hd].
  unfold dict_mem in *. cbn [existsb fst].
  now rewrite (points_eqb_lower x k Hk), (IH Hd).
Qed.

Lemma dict_get_key (k : str) (v : string) : forall d,
  dict_get k d = Some v ->
  dict_mem k d = true
  /\ (forallb (fun kv => sigma_free (fst kv)) d = true -> sigma_free k = true).
Proof.
  induction d as [|[k' v'] d IH]; [discriminate|].
  cbn [dict_get]. unfold dict_mem in *. cbn [existsb forallb fst].
  destruct (eqb k k') eqn:E.
  - intros _. split; [reflexivity|]. apply points_eqb_eq in E. subst k'.
    intros H. now apply andb_prop in H as [H _].
  - intros H. destruct (IH H) as [Hm Hf]. split; [exact Hm|].
    intros H'. apply andb_prop in H' as [_ H']. now apply Hf.
Qed.

(** Names with one folded form have stems and extensions with one folded
    form. *)
Lemma classify_folded (f g : str) :
  folded to_lower_full f = folded to_lower_full g ->
  let stem_ext p := splitext (basename p) in
  folded to_lower_full (fst (stem_ext f))
  = folded to_lower_full (fst (stem_ext g))
  /\ folded to_lower_full (snd (stem_ext f))
     = folded to_lower_full (snd (stem_ext g)).
Proof.
  intros H. cbv zeta.
  pose proof (splitext_folded (basename f) (points_basename_slashless f)) as Hf.
  pose proof (splitext_folded (basename g) (points_basename_slashless g)) as Hg.
  rewrite <- basename_folded in Hf, Hg. rewrite H, Hg in Hf.
  injection Hf as H1 H2. now split.
Qed.


End FoldedFacts.

(** *** The classifier of the pipeline is the one over code points *)

Section Agreement.
Variable to_lower_full : N -> Unicode.str.
Variable is_cased : N -> bool.
Variable is_case_ignorable : N -> bool.
Hypothesis agrees : Unicode.agrees_up_to_ff to_lower_full.

Lemma of_string_cons (c : ascii) (s : string) :
  Unicode.of_string (String c s) = N_of_ascii c :: Unicode.of_string s.
Proof. reflexivity. Qed.

Lemma N_of_ascii_eqb (a b : ascii) :
  N.eqb (N_of_ascii a) (N_of_ascii b) = Ascii.eqb a b.
Proof.
  destruct (Ascii.eqb_spec a b) as [->|Hne]; [apply N.eqb_refl|].
  apply N.eqb_neq. intros H. apply Hne.
  now rewrite <- (ascii_N_embedding a), <- (ascii_N_embedding b), H.
Qed.

Lemma of_string_eqb (a b : string) :
  Unicode.eqb (Unicode.of_string a) (Unicode.of_string b) = String.eqb a b.
Proof.
  revert b; induction a as [|x a IH]; intros [|y b]; try reflexivity.
  rewrite !of_string_cons. cbn [Unicode.eqb String.eqb].
  rewrite N_of_ascii_eqb, IH. now destruct (Ascii.eqb x y).
Qed.

Lemma of_string_rfind (c : ascii) (s : string) :
  Unicode.rfind (N_of_ascii c) (Unicode.of_string s) = PyStr.rfind c s.
Proof.
  induction s as [|a s IH]; [reflexivity|].
  rewrite of_string_cons. cbn [Unicode.rfind PyStr.rfind].
  now rewrite IH, N_of_ascii_eqb.
Qed.

Lemma of_string_take (n : nat) (s : string) :
  firstn n (Unicode.of_string s) = Unicode.of_string (PyStr.take n s).
Proof.
  revert s; induction n as [|n IH]; intros [|a s]; try reflexivity.
  rewrite of_string_cons. cbn [firstn PyStr.take].
  now rewrite IH, of_string_cons.
Qed.

Lemma of_string_drop (n : nat) (s : string) :
  skipn n (Unicode.of_string s) = Unicode.of_string (PyStr.drop n s).
Proof.
  revert s; induction n as [|n IH]; intros [|a s]; try reflexivity.
  rewrite of_string_cons. cbn [skipn PyStr.drop]. apply IH.
Qed.

Lemma of_string_all_dots (s : string) :
  forallb (fun x => N.eqb x Unicode.extsep) (Unicode.of_string s)
  = PyStr.all_char OsPath.extsep s.
Proof.
  induction s as [|a s IH]; [reflexivity|].
  rewrite of_string_cons. cbn [forallb PyStr.all_char]. rewrite IH.
  f_equal. exact (N_of_ascii_eqb a OsPath.extsep).
Qed.

Lemma of_string_basename (p : string) :
  Unicode.basename (Unicode.of_string p)
  = Unicode.of_string (OsPath.basename p).
Proof.
  unfold Unicode.basename, OsPath.basename, Unicode.slice_from,
    PyStr.slice_from.
  change (Unicode.rfind Unicode.sep)
    with (Unicode.rfind (N_of_ascii OsPath.sep)).
  rewrite of_string_rfind. apply of_string_drop.
Qed.

Lemma of_string_splitext (p : string) :
  Unicode.splitext (Unicode.of_string p)
  = (Unicode.of_string (fst (OsPath.splitext p)),
     Unicode.of_string (snd (OsPath.splitext p))).
Proof.
  unfold Unicode.splitext, OsPath.splitext, Unicode.slice, Unicode.slice_to,
    Unicode.slice_from, PyStr.slice, PyStr.slice_to, PyStr.slice_from.
  change (Unicode.rfind Unicode.sep)
    with (Unicode.rfind (N_of_ascii OsPath.sep)).
  change (Unicode.rfind Unicode.extsep)
    with (Unicode.rfind (N_of_ascii OsPath.extsep)).
  rewrite !of_string_rfind, !of_string_drop, !of_string_take,
    of_string_all_dots.
  now destruct (_ && _).
Qed.

Lemma of_string_do_lower (s : string) : forall before,
  Unicode.do_lower to_lower_full is_cased is_case_ignorable before
                   (Unicode.of_string s)
  = Unicode.of_string (PyStr.lower s).
Proof.
  induction s as [|c s IH]; intros before; [reflexivity|].
  rewrite of_string_cons. cbn [Unicode.do_lower PyStr.lower].
  rewrite IH, agrees, of_string_cons.
  replace (N.eqb (N_of_ascii c) Unicode.capital_sigma) with false;
    [reflexivity|].
  symmetry. apply N.eqb_neq. pose proof (N_ascii_bounded c).
  unfold Unicode.capital_sigma. lia.
Qed.

Lemma of_string_dict_get (k : string) : forall d,
  Unicode.dict_get (Unicode.of_string k)
    (map (fun kv => (Unicode.of_string (fst kv), snd kv)) d)
  = dict_get k d.
Proof.
  induction d as [|[k' v] d IH]; [reflexivity|].
  cbn [map Unicode.dict_get dict_get fst snd].
  now rewrite of_string_eqb, IH.
Qed.

Lemma of_string_dict_mem (k : string) : forall d,
  Unicode.dict_mem (Unicode.of_string k)
    (map (fun kv => (Unicode.of_string (fst kv), snd kv)) d)
  = dict_mem k d.
Proof.
  induction d as [|[k' v] d IH]; [reflexivity|].
  unfold Unicode.dict_mem, dict_mem in *. cbn [map existsb fst snd].
  now rewrite of_string_eqb, IH.
Qed.

(** On a name whose characters are within U+00FF, the classifier over
    code points answers as the classifier of the pipeline does. *)
Lemma classify_of_string (input_fp : string) :
  Unicode.classify to_lower_full is_cased is_case_ignorable
                   (Unicode.of_string input_fp)
  = option_map (fun r => (Unicode.of_string (fst r), snd r))
               (classify input_fp).
Proof.
  unfold Unicode.classify, classify, Unicode.lower.
  rewrite of_string_basename, of_string_splitext.
  destruct (OsPath.splitext (OsPath.basename input_fp)) as [stem ext].
  cbn [fst snd]. rewrite !of_string_do_lower.
  unfold Unicode.TABLE. rewrite !of_string_dict_mem, !of_string_dict_get.
  destruct (negb (dict_mem (PyStr.lower ext) _)).
  - destruct (negb (dict_mem (PyStr.lower stem) _)); [reflexivity|].
    destruct (dict_get (PyStr.lower stem) _); reflexivity.
  - destruct (dict_get (PyStr.lower ext) _); reflexivity.
Qed.

End Agreement.

(** The sample tables are case tables, and agree with [PyStr.lower]. *)
Lemma sample_case_tables : Unicode.case_tables Sample.to_lower_full.
Proof.
  split.
  - intros c Hc. unfold Sample.to_lower_full, Unicode.ascii_lower.
    destruct (N.leb_spec 65 c), (N.leb_spec c 90); cbn [andb orb];
      try reflexivity;
      destruct (N.leb_spec 192 c); try lia; cbn [andb orb];
      destruct (N.eqb_spec c 304); try lia;
      destruct (N.leb_spec 913 c); try lia; cbn [andb];
      destruct (N.eqb_spec c 8490); try lia; reflexivity.
  - intros c. unfold Sample.to_lower_full.
    repeat match goal with
           | |- context [if ?b then _ else _] => destruct b
           end; discriminate.
  - intros c d Hc. unfold Sample.to_lower_full, Unicode.sep, Unicode.extsep.
    repeat match goal with
           | |- context [if ?b then _ else _] => destruct b
           end; cbn [In]; intros H; lia.
Qed.

Lemma sample_agrees_up_to_ff : Unicode.agrees_up_to_ff Sample.to_lower_full.
Proof. intros c. destruct c as [[] [] [] [] [] [] [] []]; reflexivity. Qed.


(** The capital sigma and the final small sigma: one lower-cased form,
    one category by the name, and two recorded extensions. *)
Example sigma_names :
  Unicode.lower Sample.to_lower_full Sample.is_cased Sample.is_case_ignorable
                (Unicode.of_string "makefile." ++ [931]%N)%list
  = Unicode.lower Sample.to_lower_full Sample.is_cased Sample.is_case_ignorable
                  (Unicode.of_string "makefile." ++ [962]%N)%list
  /\ Sample.unicode_classify (Unicode.of_string "makefile." ++ [931]%N)%list
     = Some ([46; 963]%N, "Makefile")
  /\ Sample.unicode_classify (Unicode.of_string "makefile." ++ [962]%N)%list
     = Some ([46; 962]%N, "Makefile").
Proof. repeat split; reflexivity. Qed.

(** Names within U+00FF: the capital and the small e with an acute
    accent. *)
Example accented_names :
  classify ("R" ++ String (ascii_of_nat 201) "SUM"
                ++ String (ascii_of_nat 201) ".TXT")
  = classify ("r" ++ String (ascii_of_nat 233) "sum"
                  ++ String (ascii_of_nat 233) ".txt")
  /\ PyStr.lower (String (ascii_of_nat 201) EmptyString)
     = String (ascii_of_nat 233) EmptyString.
Proof. split; reflexivity. Qed.

(** ** The document builder *)

Lemma world_eta (w : world) : mkWorld (fs w) (log w) = w.
Proof. now destruct w. Qed.

Lemma getsize_of_read (root : node) (p : string) (content : list Byte.byte) :
  Fs.read_bytes root p = Some content ->
  Fs.getsize root p = Some (Z.of_nat (List.length content)).
Proof.
  unfold Fs.read_bytes, Fs.getsize.
  destruct (Fs.resolve root p) as [[[] data|es]|]; try discriminate.
  now intros [= ->].
Qed.

Section Builder.
Variable detect : list Byte.byte -> option string.
Variable decode : list Byte.byte -> string -> decoded.

(** C3, as the code has it.  For a readable file of a supported kind the
    builder returns [None], without raising and with the files untouched,
    when the detector names no encoding ([None] or the empty name) and
    when decoding under the detected encoding raises [UnicodeDecodeError];
    the detected encoding is then the only one tried.  The handler catches
    nothing else: when the detector names an encoding for which there is
    no codec, [content.decode] raises [LookupError], and the builder
    raises it to its caller. *)
Theorem unknown_codec_escapes_the_builder
        (input_fp : string) (w : world) (ext category : string)
        (content : list Byte.byte) :
  classify input_fp = Some (ext, category) ->
  Fs.read_bytes (fs w) input_fp = Some content ->
  (detect content = None \/ detect content = Some EmptyString ->
   convert_file_to_json detect decode input_fp w
   = (Ok None, mkWorld (fs w) (log w ++ [EvOpenRead input_fp])))
  /\ (forall encoding,
         detect content = Some encoding -> encoding <> EmptyString ->
         decode content encoding = UnicodeDecodeError ->
         convert_file_to_json detect decode input_fp w
         = (Ok None,
            mkWorld (fs w) (log w ++ [EvOpenRead input_fp; EvDecode encoding])))
  /\ (forall encoding,
         detect content = Some encoding -> encoding <> EmptyString ->
         decode content encoding = UnknownEncoding ->
         convert_file_to_json detect decode input_fp w
         = (Raise (LookupError encoding),
            mkWorld (fs w) (log w ++ [EvOpenRead input_fp; EvDecode encoding]))).
Proof.
  intros Hc Hread. unfold convert_file_to_json. rewrite Hc.
  step. rewrite Hread. split; [|split].
  - intros [-> | ->]; reflexivity.
  - intros encoding -> Hne ->. apply String.eqb_neq in Hne. rewrite Hne.
    step. now rewrite <- app_assoc.
  - intros encoding -> Hne ->. apply String.eqb_neq in Hne. rewrite Hne.
    step. now rewrite <- app_assoc.
Qed.

(** C7, as the code has it.  For an eligible file (known category,
    readable, detected and decoded) the record carries the decoded text, a
    line count of one more than the number of newlines in it, and as size
    the one the file system reports, the number of bytes of the file.
    [chardet.detect] names no encoding for an empty buffer, so an empty
    file is not eligible: the builder returns [None] for it before any
    decoding, and the size in a record is never 0. *)
Theorem convert_file_line_count_and_size (input_fp : string) (w : world) :
  detect [] = None ->
  (forall ext category content encoding text,
      classify input_fp = Some (ext, category) ->
      Fs.read_bytes (fs w) input_fp = Some content ->
      detect content = Some encoding ->
      encoding <> EmptyString ->
      decode content encoding = Decoded text ->
      exists doc w',
        convert_file_to_json detect decode input_fp w = (Ok (Some doc), w')
        /\ fs w' = fs w
        /\ doc_id doc = input_fp /\ doc_path doc = input_fp
        /\ doc_file_extension doc = ext /\ doc_category doc = category
        /\ doc_text doc = text
        /\ doc_line_count doc = PyStr.count newline text + 1
        /\ Fs.getsize (fs w) input_fp = Some (doc_size_in_bytes doc)
        /\ doc_size_in_bytes doc = Z.of_nat (List.length content)
        /\ 1 <= doc_size_in_bytes doc)
  /\ (Fs.read_bytes (fs w) input_fp = Some [] ->
      exists evs,
        convert_file_to_json detect decode input_fp w
        = (Ok None, mkWorld (fs w) (log w ++ evs))
        /\ decode_attempts evs = []).
Proof.
  intros Hempty. split.
  - intros ext category content encoding text Hc Hread Hd Hne He.
    unfold convert_file_to_json.
    rewrite Hc. step. rewrite Hread, Hd.
    apply String.eqb_neq in Hne. rewrite Hne. step. rewrite He. step.
    rewrite (getsize_of_read _ _ _ Hread).
    eexists _, _. split; [reflexivity|].
    cbn [fs doc_id doc_path doc_file_extension doc_category doc_text
         doc_line_count doc_size_in_bytes].
    do 9 (split; [reflexivity|]).
    destruct content as [|b content]; [|cbn [List.length]; lia].
    rewrite Hempty in Hd. discriminate.
  - intros Hread. unfold convert_file_to_json.
    destruct (classify input_fp) as [[ext category]|].
    + step. rewrite Hread, Hempty.
      exists [EvOpenRead input_fp]. split; reflexivity.
    + exists []. rewrite app_nil_r, world_eta. split; reflexivity.
Qed.

End Builder.

Lemma unknown_codec_escapes_the_builder_witness :
  convert_file_to_json Sample.odd_detect Sample.ascii_decode "/a.txt"
    (mkWorld (Dir [("a.txt", Sample.text_file "abc")]) [])
  = (Raise (LookupError "EUC-TW"),
     mkWorld (Dir [("a.txt", Sample.text_file "abc")])
             ([] ++ [EvOpenRead "/a.txt"; EvDecode "EUC-TW"])).
Proof.
  apply (unknown_codec_escapes_the_builder
           Sample.odd_detect Sample.ascii_decode "/a.txt"
           (mkWorld (Dir [("a.txt", Sample.text_file "abc")]) [])
           ".txt" "text" (list_byte_of_string "abc")).
  - reflexivity.
  - reflexivity.
  - reflexivity.
  - discriminate.
  - reflexivity.
Defined.

(** A decoding that fails on the bytes is caught: the file is left out. *)
Example invalid_bytes_are_rejected :
  convert_file_to_json Sample.ascii_detect Sample.ascii_decode "/bad.txt"
    (mkWorld (Dir [("bad.txt", File true [Byte.xff])]) [])
  = (Ok None,
     mkWorld (Dir [("bad.txt", File true [Byte.xff])])
             [EvOpenRead "/bad.txt"; EvDecode "ASCII"]).
Proof. reflexivity. Qed.

Lemma convert_file_line_count_and_size_witness :
  (exists doc w',
      convert_file_to_json Sample.ascii_detect Sample.ascii_decode "/two.txt"
        (mkWorld (Dir [("two.txt", Sample.text_file ("a" ++ nl ++ "b"));
                       ("empty.txt", File true [])]) [])
      = (Ok (Some doc), w')
      /\ doc_line_count doc = 2 /\ doc_size_in_bytes doc = 3)
  /\ (exists evs,
         convert_file_to_json Sample.ascii_detect Sample.ascii_decode "/empty.txt"
           (mkWorld (Dir [("two.txt", Sample.text_file ("a" ++ nl ++ "b"));
                          ("empty.txt", File true [])]) [])
         = (Ok None,
            mkWorld (Dir [("two.txt", Sample.text_file ("a" ++ nl ++ "b"));
                          ("empty.txt", File true [])]) ([] ++ evs))
         /\ decode_attempts evs = []).
Proof.
  split.
  - destruct (proj1 (convert_file_line_count_and_size
                       Sample.ascii_detect Sample.ascii_decode "/two.txt"
                       (mkWorld (Dir [("two.txt", Sample.text_file ("a" ++ nl ++ "b"));
                                      ("empty.txt", File true [])]) [])
                       eq_refl)
                    ".txt" "text" (list_byte_of_string ("a" ++ nl ++ "b"))
                    "ASCII" ("a" ++ nl ++ "b"))
      as (doc & w' & Hrun & _ & _ & _ & _ & _ & _ & Hlines & _ & Hsize & _);
      try reflexivity; try discriminate.
    exists doc, w'. split; [exact Hrun|]. split; [exact Hlines | exact Hsize].
  - apply (proj2 (convert_file_line_count_and_size
                    Sample.ascii_detect Sample.ascii_decode "/empty.txt"
                    (mkWorld (Dir [("two.txt", Sample.text_file ("a" ++ nl ++ "b"));
                                   ("empty.txt", File true [])]) [])
                    eq_refl)).
    reflexivity.
Defined.

(** C7, as stated, fails on the empty file: the detector has no encoding
    for its buffer, and the builder returns [None] after reading it. *)
Lemma empty_file_is_not_eligible :
  convert_file_to_json Sample.ascii_detect Sample.ascii_decode "/empty.txt"
    (mkWorld (Dir [("empty.txt", File true [])]) [])
  = (Ok None,
     mkWorld (Dir [("empty.txt", File true [])]) [EvOpenRead "/empty.txt"]).
Proof. reflexivity. Qed.

(** The smallest record: one byte, one line. *)
Example one_byte_file :
  fst (convert_file_to_json Sample.ascii_detect Sample.ascii_decode "/x.txt"
         (mkWorld (Dir [("x.txt", Sample.text_file "x")]) []))
  = Ok (Some {| doc_id := "/x.txt"; doc_text := "x";
                doc_file_extension := ".txt"; doc_category := "text";
                doc_line_count := 1; doc_size_in_bytes := 1;
                doc_path := "/x.txt" |}).
Proof. reflexivity. Qed.

(** The size is the one of the file, not the length of the text: four
    bytes decoded to two characters. *)
Example size_is_of_the_file :
  fst (convert_file_to_json Sample.utf16_detect Sample.utf16_decode "/hi.txt"
         (mkWorld (Dir [("hi.txt", File true [Byte.x68; Byte.x00; Byte.x69; Byte.x00])])
                  []))
  = Ok (Some {| doc_id := "/hi.txt"; doc_text := "hi";
                doc_file_extension := ".txt"; doc_category := "text";
                doc_line_count := 1; doc_size_in_bytes := 4;
                doc_path := "/hi.txt" |}).
Proof. reflexivity. Qed.

(** ** The file-system tree *)

Section FsFacts.
Import Fs.

Lemma assoc_set_entry_same k v es : assoc k (set_entry k v es) = Some v.
Proof.
  induction es as [|[k' v'] es IH]; simpl.
  - now rewrite String.eqb_refl.
  - destruct (String.eqb k k') eqn:E; simpl; rewrite E; [reflexivity | exact IH].
Qed.

Lemma assoc_set_entry_other k k' v es :
  k' <> k -> assoc k' (set_entry k v es) = assoc k' es.
Proof.
  intros Hne. induction es as [|[k0 v0] es IH]; simpl.
  - apply String.eqb_neq in Hne. now rewrite Hne.
  - destruct (String.eqb k k0) eqn:E; simpl.
    + apply String.eqb_eq in E; subst k0.
      apply String.eqb_neq in Hne. now rewrite Hne.
    + now rewrite IH.
Qed.

Lemma get_app root a b :
  get root (a ++ b) = match get root a with
                      | Some n => get n b
                      | None => None
                      end.
Proof.
  revert root; induction a as [|k a IH]; intros root; simpl; [reflexivity|].
  destruct root as [perm data|es]; [reflexivity|].
  destruct (assoc k es); [apply IH | reflexivity].
Qed.

Lemma keeps_refl n : keeps n n.
Proof. destruct n; simpl; reflexivity. Qed.

Lemma keeps_trans a b c : keeps a b -> keeps b c -> keeps a c.
Proof.
  destruct a; simpl.
  - intros ->. simpl. auto.
  - destruct b; simpl; [discriminate | auto].
Qed.

Lemma grows_refl root : grows root root.
Proof. intros names n H. exists n. split; [exact H | apply keeps_refl]. Qed.

Lemma grows_trans a b c : grows a b -> grows b c -> grows a c.
Proof.
  intros Hab Hbc names n H.
  destruct (Hab _ _ H) as (n1 & H1 & K1).
  destruct (Hbc _ _ H1) as (n2 & H2 & K2).
  exists n2. split; [exact H2 | eapply keeps_trans; eassumption].
Qed.

(** Creating a node where there was none loses nothing. *)
Lemma put_absent_grows names : forall root v,
  get root names = None -> grows root (put root names v).
Proof.
  induction names as [|k ks IH]; intros root v Habs; [discriminate|].
  intros ms n Hget.
  destruct root as [perm data|es].
  { exists n. split; [exact Hget | apply keeps_refl]. }
  destruct ms as [|k' ms'].
  { injection Hget as <-. eexists. split; reflexivity. }
  simpl in *.
  destruct (String.eqb_spec k' k) as [->|Hne].
  - rewrite assoc_set_entry_same.
    destruct (assoc k es) as [c|]; [|discriminate].
    apply (IH c v Habs ms' n Hget).
  - rewrite (assoc_set_entry_other _ _ _ _ Hne).
    exists n. split; [exact Hget | apply keeps_refl].
Qed.

Lemma put_get_same parent : forall root es name v,
  get root parent = Some (Dir es) ->
  get (put root (parent ++ [name]) v) (parent ++ [name]) = Some v.
Proof.
  induction parent as [|k ps IH]; intros root es name v H; simpl in *.
  - injection H as ->. now rewrite assoc_set_entry_same.
  - destruct root as [perm data|es0]; [discriminate|].
    destruct (assoc k es0) as [c|] eqn:E; [|discriminate].
    simpl. rewrite assoc_set_entry_same. eapply IH; eassumption.
Qed.

Lemma grows_dir root root' names es :
  grows root root' -> get root names = Some (Dir es) ->
  exists es', get root' names = Some (Dir es').
Proof.
  intros G H. destruct (G _ _ H) as ([perm data|es'] & H' & K); simpl in K.
  - discriminate.
  - now exists es'.
Qed.

Lemma canon_grows root root' cs : forall acc acc',
  grows root root' ->
  canon root acc cs = Some acc' -> canon root' acc cs = Some acc'.
Proof.
  induction cs as [|c cs IH]; intros acc acc' G H; simpl in *; [exact H|].
  destruct (get root (rev acc)) as [[perm data|es]|] eqn:Hd; try discriminate.
  destruct (grows_dir _ _ _ _ G Hd) as (es' & Hd'). rewrite Hd'.
  destruct (is_skip c); [now apply IH|].
  destruct (is_parent c); [now apply IH|].
  destruct (assoc c es) as [x|] eqn:Hx; [|discriminate].
  assert (Hget : get root (rev acc ++ [c]) = Some x).
  { rewrite get_app, Hd. simpl. now rewrite Hx. }
  destruct (G _ _ Hget) as (x' & Hget' & _).
  rewrite get_app, Hd' in Hget'. simpl in Hget'.
  destruct (assoc c es'); [now apply IH | discriminate].
Qed.

Lemma canon_app root cs1 cs2 : forall acc,
  canon root acc (cs1 ++ cs2)
  = match canon root acc cs1 with
    | Some acc1 => canon root acc1 cs2
    | None => None
    end.
Proof.
  induction cs1 as [|c cs1 IH]; intros acc; simpl; [reflexivity|].
  destruct (get root (rev acc)) as [[perm data|es]|]; try reflexivity.
  destruct (is_skip c); [apply IH|].
  destruct (is_parent c); [apply IH|].
  destruct (assoc c es); [apply IH | reflexivity].
Qed.

Lemma resolve_grows root root' p n :
  grows root root' -> resolve root p = Some n ->
  exists n', resolve root' p = Some n' /\ keeps n n'.
Proof.
  unfold resolve. intros G.
  destruct (String.eqb p EmptyString); [discriminate|].
  destruct (canon root [] (PyStr.split OsPath.sep p)) as [acc|] eqn:Hc;
    [|discriminate].
  rewrite (canon_grows _ _ _ _ _ G Hc). apply G.
Qed.

Lemma exists_grows root root' p :
  grows root root' -> exists_ root p = true -> exists_ root' p = true.
Proof.
  unfold exists_. intros G.
  destruct (resolve root p) as [n|] eqn:H; [|discriminate].
  destruct (resolve_grows _ _ _ _ G H) as (n' & -> & _). reflexivity.
Qed.

Lemma read_bytes_grows root root' p data :
  grows root root' -> read_bytes root p = Some data ->
  read_bytes root' p = Some data.
Proof.
  unfold read_bytes. intros G.
  destruct (resolve root p) as [[[] d|es]|] eqn:H; try discriminate.
  destruct (resolve_grows _ _ _ _ G H) as (n' & -> & K). simpl in K.
  now subst n'.
Qed.

Lemma makedirs_from_grows cs : forall root acc root',
  makedirs_from root acc cs = Some root' -> grows root root'.
Proof.
  induction cs as [|c cs IH]; intros root acc root'; simpl.
  - destruct (get root (rev acc)) as [[perm data|es]|]; try discriminate.
    intros [= <-]. apply grows_refl.
  - destruct (get root (rev acc)) as [[perm data|es]|] eqn:Hd; try discriminate.
    destruct (is_skip c); [apply IH|].
    destruct (is_parent c); [apply IH|].
    destruct (assoc c es) as [x|] eqn:Hx; [apply IH|].
    intros H. apply IH in H.
    eapply grows_trans; [|exact H].
    apply put_absent_grows. rewrite get_app, Hd. simpl. now rewrite Hx.
Qed.

Lemma makedirs_grows root p root' :
  makedirs root p = Some root' -> grows root root'.
Proof.
  unfold makedirs. destruct (String.eqb p EmptyString); [discriminate|].
  apply makedirs_from_grows.
Qed.

Lemma split_nonempty c s : PyStr.split c s <> [].
Proof.
  destruct s as [|a s]; simpl; [discriminate|].
  destruct (Ascii.eqb a c); [discriminate|].
  destruct (PyStr.split c s); discriminate.
Qed.

(** What [place] does when it succeeds at a path that did not resolve. *)
Lemma place_absent_inv root p v root' :
  place root p v = Some root' -> resolve root p = None ->
  exists acc es name,
    PyStr.split OsPath.sep p
    = (removelast (PyStr.split OsPath.sep p) ++ [name])%list
    /\ is_skip name = false /\ is_parent name = false
    /\ canon root [] (removelast (PyStr.split OsPath.sep p)) = Some acc
    /\ get root (rev acc) = Some (Dir es)
    /\ assoc name es = None
    /\ root' = put root (rev acc ++ [name])%list v.
Proof.
  unfold place, resolve.
  destruct (String.eqb p EmptyString); [discriminate|].
  set (cs := PyStr.split OsPath.sep p).
  assert (Hcs : cs = (removelast cs ++ [last cs EmptyString])%list)
    by (apply app_removelast_last, split_nonempty).
  set (name := last cs EmptyString) in *.
  destruct (is_skip name) eqn:Hs; [discriminate|].
  destruct (is_parent name) eqn:Hp; [discriminate|]. simpl.
  destruct (canon root [] (removelast cs)) as [acc|] eqn:Hc; [|discriminate].
  destruct (get root (rev acc)) as [[perm data|es]|] eqn:Hd; try discriminate.
  intros Hplace Hres.
  rewrite Hcs, canon_app, Hc in Hres. simpl in Hres.
  rewrite Hd, Hs, Hp in Hres.
  destruct (assoc name es) as [x|] eqn:Hx.
  - exfalso. simpl in Hres. rewrite get_app, Hd in Hres. simpl in Hres.
    rewrite Hx in Hres. discriminate.
  - injection Hplace as <-. exists acc, es, name. repeat split; assumption.
Qed.

Lemma place_absent_grows root p v root' :
  place root p v = Some root' -> resolve root p = None -> grows root root'.
Proof.
  intros Hplace Hres.
  destruct (place_absent_inv _ _ _ _ Hplace Hres)
    as (acc & es & name & _ & _ & _ & _ & Hd & Hx & ->).
  apply put_absent_grows. rewrite get_app, Hd. simpl. now rewrite Hx.
Qed.

Lemma resolve_place root p v root' :
  place root p v = Some root' -> resolve root p = None ->
  resolve root' p = Some v.
Proof.
  intros Hplace Hres.
  pose proof (place_absent_grows _ _ _ _ Hplace Hres) as G.
  destruct (place_absent_inv _ _ _ _ Hplace Hres)
    as (acc & es & name & Hcs & Hs & Hp & Hc & Hd & Hx & ->).
  assert (Hne : String.eqb p EmptyString = false).
  { unfold place in Hplace. destruct (String.eqb p EmptyString);
      [discriminate | reflexivity]. }
  unfold resolve. rewrite Hne, Hcs, canon_app.
  rewrite (canon_grows _ _ _ _ _ G Hc). simpl.
  destruct (grows_dir _ _ _ _ G Hd) as (es' & Hd'). rewrite Hd', Hs, Hp.
  pose proof (put_get_same _ _ _ name v Hd) as Hsame.
  pose proof Hsame as Hsame'.
  rewrite get_app, Hd' in Hsame'. simpl in Hsame'.
  destruct (assoc name es'); [|discriminate].
  simpl. exact Hsame.
Qed.

End FsFacts.

(** ** Serialization *)

Section JsonFacts.
Import PyStr.

Lemma count_nonneg c s : 0 <= count c s.
Proof. induction s as [|a s IH]; simpl; [lia | destruct (Ascii.eqb a c); lia]. Qed.

Lemma count_app c a b : count c (a ++ b) = count c a + count c b.
Proof. induction a as [|x a IH]; simpl; [reflexivity | rewrite IH; lia]. Qed.

Lemma escape_char_no_newline c : count newline (Json.escape_char c) = 0.
Proof. destruct c as [[] [] [] [] [] [] [] []]; reflexivity. Qed.

Lemma escape_no_newline s : count newline (Json.escape s) = 0.
Proof.
  induction s as [|c s IH]; simpl; [reflexivity|].
  now rewrite count_app, escape_char_no_newline, IH.
Qed.

Lemma str_no_newline s : count newline (Json.str s) = 0.
Proof.
  unfold Json.str. now rewrite !count_app, escape_no_newline.
Qed.

Lemma digit_not_newline d :
  0 <= d < 10 -> Ascii.eqb (Json.digit d) newline = false.
Proof.
  intros H. unfold Json.digit.
  assert (Hk : (Z.to_nat d < 10)%nat) by lia.
  revert Hk. generalize (Z.to_nat d) as k. intros k Hk.
  do 10 (destruct k as [|k]; [reflexivity|]). lia.
Qed.

Lemma digits_no_newline fuel : forall n acc,
  count newline (Json.digits fuel n acc) = count newline acc.
Proof.
  induction fuel as [|fuel IH]; intros n acc; cbn [Json.digits];
    [reflexivity|].
  assert (Hd : Ascii.eqb (Json.digit (n mod 10)) newline = false)
    by (apply digit_not_newline, Z.mod_pos_bound; lia).
  destruct (n <? 10); [|rewrite IH]; cbn [count]; now rewrite Hd.
Qed.

Lemma int_no_newline n : count newline (Json.int n) = 0.
Proof.
  unfold Json.int. destruct (n <? 0).
  - change (count newline (String "-" ?s)) with (0 + count newline s).
    now rewrite digits_no_newline.
  - now rewrite digits_no_newline.
Qed.

Lemma dumps_no_newline d : count newline (Json.dumps d) = 0.
Proof.
  unfold Json.dumps, Json.member.
  rewrite !count_app, !str_no_newline, !int_no_newline. reflexivity.
Qed.

(** Splitting at newlines a text made of a newline-free line, a newline
    and a rest. *)
Lemma split_line s rest :
  count newline s = 0 ->
  split newline (s ++ String newline rest) = s :: split newline rest.
Proof.
  induction s as [|a s IH]; simpl; intros H.
  - reflexivity.
  - destruct (Ascii.eqb a newline) eqn:E.
    + pose proof (count_nonneg newline s). lia.
    + rewrite IH by lia. reflexivity.
Qed.

Lemma append_assoc_str (a b c : string) : (a ++ b) ++ c = a ++ (b ++ c).
Proof. induction a as [|x a IH]; simpl; [reflexivity | now rewrite IH]. Qed.

Lemma fold_lines docs : forall out,
  fold_left (fun out d => out ++ (Json.dumps d ++ nl)) docs out
  = out ++ jsonl_lines docs.
Proof.
  unfold jsonl_lines.
  induction docs as [|d docs IH]; intros out; cbn [fold_left].
  - clear. induction out as [|a out IH]; simpl; [reflexivity | now rewrite <- IH].
  - rewrite IH, (IH (EmptyString ++ _)). now rewrite append_assoc_str.
Qed.

Lemma jsonl_lines_cons d docs :
  jsonl_lines (d :: docs) = Json.dumps d ++ String newline (jsonl_lines docs).
Proof.
  unfold jsonl_lines at 1. cbn [fold_left]. rewrite fold_lines.
  cbn [append]. unfold nl. rewrite append_assoc_str. reflexivity.
Qed.

(** The artifact text, read back line by line, is the serialized
    documents in order, followed by the empty tail after the last
    newline. *)
Lemma jsonl_lines_split docs :
  split newline (jsonl_lines docs)
  = (map Json.dumps docs ++ [EmptyString])%list.
Proof.
  induction docs as [|d docs IH]; [reflexivity|].
  rewrite jsonl_lines_cons, split_line by apply dumps_no_newline.
  cbn [map app]. now rewrite IH.
Qed.

End JsonFacts.

(** ** The walker reads and never writes *)

Section WalkerFacts.
Variable detect : list Byte.byte -> option string.
Variable decode : list Byte.byte -> string -> decoded.

Lemma system_calls_app a b :
  system_calls (a ++ b) = (system_calls a ++ system_calls b)%list.
Proof. unfold system_calls. now rewrite flat_map_app. Qed.

Lemma read_only_same (w : world) :
  fs w = fs w /\ exists evs, log w = (log w ++ evs)%list /\ system_calls evs = [].
Proof. split; [reflexivity|]. exists []. now rewrite app_nil_r. Qed.

Lemma read_only_ret {A} (a : A) : read_only (ret a).
Proof. intros w r w' [= <- <-]. exact (read_only_same w). Qed.

Lemma read_only_raise {A} e : read_only (@raise A e).
Proof. intros w r w' [= <- <-]. exact (read_only_same w). Qed.

Lemma read_only_bind {A B} (m : M A) (k : A -> M B) :
  read_only m -> (forall a, read_only (k a)) -> read_only (bind m k).
Proof.
  intros Hm Hk w r w'. unfold bind.
  destruct (m w) as [[a|e] w1] eqn:E1; intros H.
  - destruct (Hm _ _ _ E1) as (F1 & evs1 & L1 & S1).
    destruct (Hk a _ _ _ H) as (F2 & evs2 & L2 & S2).
    split; [congruence|]. exists (evs1 ++ evs2)%list.
    rewrite L2, L1, app_assoc, system_calls_app, S1, S2. now split.
  - injection H as <- <-. exact (Hm _ _ _ E1).
Qed.

Lemma read_only_emit e : system_calls [e] = [] -> read_only (emit e).
Proof.
  intros He w r w' [= <- <-]. split; [reflexivity | now exists [e]].
Qed.

Lemma read_only_open_rb_read p : read_only (open_rb_read p).
Proof.
  apply read_only_bind; [now apply read_only_emit|]. intros _ w r w'.
  destruct (Fs.read_bytes (fs w) p); intros [= <- <-];
    exact (read_only_same w).
Qed.

Lemma read_only_getsize p : read_only (getsize p).
Proof.
  intros w r w'. unfold getsize.
  destruct (Fs.getsize (fs w) p); intros [= <- <-];
    exact (read_only_same w).
Qed.

Lemma read_only_convert_file input_fp :
  read_only (convert_file_to_json detect decode input_fp).
Proof.
  unfold convert_file_to_json.
  destruct (classify input_fp) as [[ext category]|]; [|apply read_only_ret].
  apply read_only_bind; [apply read_only_open_rb_read|]. intros content.
  destruct (detect content) as [encoding|]; [|apply read_only_ret].
  destruct (String.eqb encoding EmptyString); [apply read_only_ret|].
  apply read_only_bind; [now apply read_only_emit|]. intros _.
  destruct (decode content encoding).
  - apply read_only_bind; [apply read_only_getsize|]. intros n.
    apply read_only_ret.
  - apply read_only_ret.
  - apply read_only_raise.
Qed.

Lemma read_only_convert_files root files : forall docs,
  read_only (convert_files detect decode root files docs).
Proof.
  induction files as [|file files IH]; intros docs; simpl.
  - apply read_only_ret.
  - destruct (PyStr.startswith hidden_marker file); [apply IH|].
    apply read_only_bind; [apply read_only_convert_file|].
    intros [doc|]; apply IH.
Qed.

Lemma read_only_convert_walk triples : forall docs,
  read_only (convert_walk detect decode triples docs).
Proof.
  induction triples as [|[[root dirs] files] triples IH]; intros docs; simpl.
  - apply read_only_ret.
  - destruct (hidden_root root); [apply IH|].
    apply read_only_bind; [apply read_only_convert_files | intros; apply IH].
Qed.

End WalkerFacts.

(** ** The repository walker/converter *)

Section Converter.
Variable detect : list Byte.byte -> option string.
Variable decode : list Byte.byte -> string -> decoded.

Lemma file_reads_app a b :
  file_reads (a ++ b) = (file_reads a ++ file_reads b)%list.
Proof. unfold file_reads. now rewrite flat_map_app. Qed.

(** The converter, by cases. *)
Lemma convert_repo_cases (repo_dir jsonl_dir : string) (w : world) :
  convert_repo_to_jsonl detect decode repo_dir jsonl_dir w
  = if Fs.exists_ (fs w) (artifact_path jsonl_dir repo_dir) then
      (Ok tt, mkWorld (fs w)
                (log w ++ [EvPrint ("Repository '" ++ OsPath.basename repo_dir
                                    ++ "' already converted to JSONL. Skipping...")]))
    else
      match convert_walk detect decode (Fs.walk (fs w) repo_dir) []
              (mkWorld (fs w)
                 (log w ++ [EvPrint ("Converting repository '"
                                     ++ OsPath.basename repo_dir
                                     ++ "' to JSONL format...")])) with
      | (Ok docs, w1) =>
          open_w_write (artifact_path jsonl_dir repo_dir) (jsonl_lines docs) w1
      | (Raise e, w1) => (Raise e, w1)
      end.
Proof.
  unfold convert_repo_to_jsonl. step. fold (artifact_path jsonl_dir repo_dir).
  destruct (Fs.exists_ (fs w) (artifact_path jsonl_dir repo_dir)); [reflexivity|].
  destruct (convert_walk _ _ _ _ _) as [[docs|e] w1]; reflexivity.
Qed.

(** C5. With the artifact of the repository already in the output
    directory, the converter returns at once: it only prints, it opens no
    file, and the files, the artifact among them, are what they were. *)
Theorem convert_repo_skips_converted
        (repo_dir jsonl_dir : string) (w : world) :
  Fs.exists_ (fs w) (artifact_path jsonl_dir repo_dir) = true ->
  exists msg,
    convert_repo_to_jsonl detect decode repo_dir jsonl_dir w
    = (Ok tt, mkWorld (fs w) (log w ++ [EvPrint msg]))
    /\ file_reads (log w ++ [EvPrint msg]) = file_reads (log w)
    /\ Fs.read_bytes (fs (snd (convert_repo_to_jsonl detect decode
                                 repo_dir jsonl_dir w)))
                     (artifact_path jsonl_dir repo_dir)
       = Fs.read_bytes (fs w) (artifact_path jsonl_dir repo_dir).
Proof.
  intros Hex. unfold convert_repo_to_jsonl. step.
  fold (artifact_path jsonl_dir repo_dir). rewrite Hex.
  eexists. split; [reflexivity|]. split; [|reflexivity].
  rewrite file_reads_app. simpl. apply app_nil_r.
Qed.

(** C6. The artifact is written after the walk, whole or not at all.
    If the walk raises, the converter raises the same exception and the
    files are unchanged, so there is still no artifact.  If the walk
    returns its documents, the only change to the files is one write of
    the artifact, which then reads back as the serialized documents, one
    per line and in the order they were produced, and nothing else is
    lost; if that write is refused, the files are unchanged. *)
Theorem convert_repo_artifact_all_or_nothing
        (repo_dir jsonl_dir : string) (w : world) :
  let output_fp := artifact_path jsonl_dir repo_dir in
  let w0 := mkWorld (fs w)
                    (log w ++ [EvPrint ("Converting repository '"
                                        ++ OsPath.basename repo_dir
                                        ++ "' to JSONL format...")]) in
  let walk := convert_walk detect decode (Fs.walk (fs w) repo_dir) [] w0 in
  let run := convert_repo_to_jsonl detect decode repo_dir jsonl_dir w in
  Fs.exists_ (fs w) output_fp = false ->
  (forall e w1, walk = (Raise e, w1) ->
     run = (Raise e, w1) /\ fs w1 = fs w
     /\ Fs.exists_ (fs w1) output_fp = false)
  /\ (forall docs w1, walk = (Ok docs, w1) ->
        fs w1 = fs w
        /\ PyStr.split newline (jsonl_lines docs)
           = (map Json.dumps docs ++ [EmptyString])%list
        /\ ((exists fs',
                Fs.write_text (fs w) output_fp (jsonl_lines docs) = Some fs'
                /\ run = (Ok tt, mkWorld fs' (log w1 ++ [EvOpenWrite output_fp]))
                /\ Fs.read_bytes fs' output_fp
                   = Some (list_byte_of_string (jsonl_lines docs))
                /\ grows (fs w) fs')
            \/ (Fs.write_text (fs w) output_fp (jsonl_lines docs) = None
                /\ run = (Raise (OSError output_fp),
                          mkWorld (fs w) (log w1 ++ [EvOpenWrite output_fp]))))).
Proof.
  intros output_fp w0 walk run Habs.
  assert (Hrun : run = match walk with
                       | (Ok docs, w1) =>
                           open_w_write output_fp (jsonl_lines docs) w1
                       | (Raise e, w1) => (Raise e, w1)
                       end).
  { unfold run, convert_repo_to_jsonl. step.
    fold (artifact_path jsonl_dir repo_dir). fold output_fp. rewrite Habs.
    fold w0. fold walk. destruct walk as [[docs|e] w1]; reflexivity. }
  assert (Hres : Fs.resolve (fs w) output_fp = None).
  { unfold Fs.exists_ in Habs.
    destruct (Fs.resolve (fs w) output_fp); [discriminate | reflexivity]. }
  split.
  - intros e w1 Hw. rewrite Hw in Hrun.
    destruct (read_only_convert_walk detect decode _ _ _ _ _ Hw) as (F & _).
    change (fs w0) with (fs w) in F.
    repeat split; [exact Hrun | exact F | now rewrite F].
  - intros docs w1 Hw. rewrite Hw in Hrun.
    destruct (read_only_convert_walk detect decode _ _ _ _ _ Hw) as (F & _).
    change (fs w0) with (fs w) in F.
    split; [exact F|]. split; [apply jsonl_lines_split|].
    revert Hrun. step. rewrite F.
    destruct (Fs.write_text (fs w) output_fp (jsonl_lines docs))
      as [fs'|] eqn:Hwr; intros Hrun.
    + left. exists fs'. split; [reflexivity|]. split; [exact Hrun|].
      unfold Fs.write_text in Hwr. split.
      * unfold Fs.read_bytes. now rewrite (resolve_place _ _ _ _ Hwr Hres).
      * exact (place_absent_grows _ _ _ _ Hwr Hres).
    + right. split; [reflexivity | exact Hrun].
Qed.

(** After a run that returns, the artifact is there and nothing that was
    there is lost. *)
Lemma convert_repo_returns (repo_dir jsonl_dir : string) (w w' : world) :
  convert_repo_to_jsonl detect decode repo_dir jsonl_dir w = (Ok tt, w') ->
  Fs.exists_ (fs w') (artifact_path jsonl_dir repo_dir) = true
  /\ grows (fs w) (fs w').
Proof.
  rewrite convert_repo_cases.
  destruct (Fs.exists_ (fs w) (artifact_path jsonl_dir repo_dir)) eqn:Hex.
  - intros [= <-]. split; [exact Hex | apply grows_refl].
  - destruct (convert_walk _ _ _ _ _) as [[docs|e] w1] eqn:Hw; [|discriminate].
    destruct (read_only_convert_walk detect decode _ _ _ _ _ Hw) as (F & _).
    cbn [fs] in F. step. rewrite F.
    destruct (Fs.write_text (fs w) _ _) as [fs'|] eqn:Hwr; [|discriminate].
    intros [= <-]. cbn [fs].
    assert (Hres : Fs.resolve (fs w) (artifact_path jsonl_dir repo_dir) = None).
    { unfold Fs.exists_ in Hex.
      destruct (Fs.resolve (fs w) _); [discriminate | reflexivity]. }
    unfold Fs.write_text in Hwr. split.
    + unfold Fs.exists_. now rewrite (resolve_place _ _ _ _ Hwr Hres).
    + exact (place_absent_grows _ _ _ _ Hwr Hres).
Qed.

(** A second run after one that returned only prints. *)
Lemma convert_repo_second_run (repo_dir jsonl_dir : string) (w w1 : world) :
  convert_repo_to_jsonl detect decode repo_dir jsonl_dir w = (Ok tt, w1) ->
  exists msg,
    convert_repo_to_jsonl detect decode repo_dir jsonl_dir w1
    = (Ok tt, mkWorld (fs w1) (log w1 ++ [EvPrint msg])).
Proof.
  intros Hrun. destruct (convert_repo_returns _ _ _ _ Hrun) as [Hex _].
  rewrite convert_repo_cases, Hex. eexists. reflexivity.
Qed.

Lemma quiet_convert_repo (repo_dir jsonl_dir : string) :
  quiet (convert_repo_to_jsonl detect decode repo_dir jsonl_dir).
Proof.
  intros w r w'. rewrite convert_repo_cases.
  destruct (Fs.exists_ (fs w) _).
  - intros [= <- <-]. cbn [log]. rewrite system_calls_app. apply app_nil_r.
  - destruct (convert_walk _ _ _ _ _) as [[docs|e] w1] eqn:Hw;
      destruct (read_only_convert_walk detect decode _ _ _ _ _ Hw)
        as (_ & evs & L & S); cbn [log] in L.
    + step. destruct (Fs.write_text (fs w1) _ _); intros [= <- <-]; cbn [log];
        rewrite L, !system_calls_app, S; cbn; now rewrite !app_nil_r.
    + intros [= <- <-]. rewrite L, !system_calls_app, S. cbn.
      now rewrite !app_nil_r.
Qed.

End Converter.

(** ** The orchestrator *)

Section Orchestrator.
Variable detect : list Byte.byte -> option string.
Variable decode : list Byte.byte -> string -> decoded.
Variable os_system : string -> node -> Z * node.
Variable read_json_lines : list Byte.byte -> option (list string).
Variable script_dir : string.

(** *** The clone loop *)

Lemma system_calls_skips urls : system_calls (map skip_event urls) = [].
Proof. induction urls as [|u us IH]; [reflexivity | exact IH]. Qed.

Lemma clone_all_skips root urls : forall w,
  Forall (fun url => Fs.exists_ (fs w) (clone_dir_of root url) = true) urls ->
  clone_all os_system root urls w
  = (Ok tt, mkWorld (fs w) (log w ++ map skip_event urls)).
Proof.
  induction urls as [|url urls IH]; intros w Hall.
  - cbn. now rewrite app_nil_r, world_eta.
  - inversion Hall as [|? ? Hex Hrest]; subst.
    cbn [clone_all]. step.
    fold (clone_dir_of root url). rewrite Hex.
    rewrite IH by exact Hrest. cbn [fs log map].
    now rewrite <- app_assoc.
Qed.

Lemma clone_all_returns root urls : forall w,
  exists fs' evs,
    clone_all os_system root urls w = (Ok tt, mkWorld fs' (log w ++ evs)).
Proof.
  induction urls as [|url urls IH]; intros w.
  - exists (fs w), []. cbn. now rewrite app_nil_r, world_eta.
  - cbn [clone_all]. step.
    destruct (Fs.exists_ (fs w) _).
    + match goal with
      | |- context [clone_all _ _ _ ?w1] =>
          destruct (IH w1) as (fs' & evs & ->)
      end.
      exists fs'. eexists. cbn [log]. now rewrite <- app_assoc.
    + destruct (os_system _ (fs w)) as [code fs1].
      destruct (negb (code =? 0)).
      * match goal with
        | |- context [clone_all _ _ _ ?w1] =>
            destruct (IH w1) as (fs' & evs & ->)
        end.
        exists fs'. eexists. cbn [log]. now rewrite <- !app_assoc.
      * match goal with
        | |- context [clone_all _ _ _ ?w1] =>
            destruct (IH w1) as (fs' & evs & ->)
        end.
        exists fs'. eexists. cbn [log]. now rewrite <- !app_assoc.
Qed.

Lemma clone_all_app root l1 l2 : forall w,
  clone_all os_system root (l1 ++ l2) w = clone_all os_system root l2 (snd (clone_all os_system root l1 w)).
Proof.
  induction l1 as [|url l1 IH]; intros w; [reflexivity|].
  cbn [app clone_all]. step.
  destruct (Fs.exists_ (fs w) _); [apply IH|].
  destruct (os_system _ (fs w)) as [code fs1].
  destruct (negb (code =? 0)); apply IH.
Qed.

(** An entry whose directory is not there when its turn comes is cloned. *)
Lemma clone_all_attempts root url urls w :
  Fs.exists_ (fs w) (clone_dir_of root url) = false ->
  exists evs,
    log (snd (clone_all os_system root (url :: urls) w))
    = (log w ++ EvSystem (clone_cmd root url) :: evs)%list.
Proof.
  intros Habs. cbn [clone_all]. step.
  fold (clone_dir_of root url). rewrite Habs. fold (clone_cmd root url).
  destruct (os_system _ (fs w)) as [code fs1].
  destruct (negb (code =? 0));
    match goal with
    | |- context [clone_all _ _ _ ?w1] =>
        destruct (clone_all_returns root urls w1) as (fs' & evs & ->)
    end; cbn [snd log]; rewrite <- !app_assoc; eexists; reflexivity.
Qed.

(** *** The conversion loop *)

Lemma quiet_convert_all root jsonl repos :
  quiet (convert_all detect decode root jsonl repos).
Proof.
  induction repos as [|repo repos IH]; intros w r w'; cbn [convert_all].
  - now intros [= <- <-].
  - unfold bind.
    destruct (convert_repo_to_jsonl _ _ _ _ w) as [[[]|e] w1] eqn:E1; intros H.
    + rewrite (IH _ _ _ H). exact (quiet_convert_repo _ _ _ _ _ _ _ E1).
    + injection H as <- <-. exact (quiet_convert_repo _ _ _ _ _ _ _ E1).
Qed.

(** When the conversion loop returns, every repository it was given has
    its artifact, and nothing that was there is lost. *)
Lemma convert_all_returns root jsonl repos : forall w w',
  convert_all detect decode root jsonl repos w = (Ok tt, w') ->
  grows (fs w) (fs w')
  /\ Forall (fun repo =>
               Fs.exists_ (fs w') (artifact_path jsonl (OsPath.join root repo))
               = true) repos.
Proof.
  induction repos as [|repo repos IH]; intros w w'; cbn [convert_all].
  - intros [= <-]. split; [apply grows_refl | constructor].
  - unfold bind.
    destruct (convert_repo_to_jsonl _ _ _ _ w) as [[[]|e] w1] eqn:E1;
      [|discriminate].
    intros H. destruct (IH _ _ H) as (G2 & Hall).
    destruct (convert_repo_returns _ _ _ _ _ _ E1) as (Hex & G1).
    split; [eapply grows_trans; eassumption|].
    constructor; [|exact Hall]. eapply exists_grows; eassumption.
Qed.

Lemma convert_all_app root jsonl l1 l2 : forall w,
  convert_all detect decode root jsonl (l1 ++ l2) w
  = match convert_all detect decode root jsonl l1 w with
    | (Ok _, w1) => convert_all detect decode root jsonl l2 w1
    | (Raise e, w1) => (Raise e, w1)
    end.
Proof.
  induction l1 as [|repo l1 IH]; intros w; [reflexivity|].
  cbn [app convert_all]. unfold bind.
  destruct (convert_repo_to_jsonl _ _ _ _ w) as [[[]|e] w1]; [apply IH | reflexivity].
Qed.

(** An exception in one repository ends the loop there. *)
Lemma convert_all_raises root jsonl l1 repo l2 w w1 e w2 :
  convert_all detect decode root jsonl l1 w = (Ok tt, w1) ->
  convert_repo_to_jsonl detect decode (OsPath.join root repo) jsonl w1
  = (Raise e, w2) ->
  convert_all detect decode root jsonl (l1 ++ repo :: l2) w = (Raise e, w2).
Proof.
  intros H1 H2. rewrite convert_all_app, H1. cbn [convert_all]. unfold bind.
  now rewrite H2.
Qed.

(** *** The whole run *)

Lemma read_bytes_exists root p data :
  Fs.read_bytes root p = Some data -> Fs.exists_ root p = true.
Proof.
  unfold Fs.read_bytes, Fs.exists_.
  destruct (Fs.resolve root p); [reflexivity | discriminate].
Qed.

(** The run once the manifest is read and the two directories are made. *)
Lemma download_cases (src : option string) (limit : option Z) (w : world)
      (data : list Byte.byte) (urls : list string) (fs1 fs2 : node) :
  Fs.read_bytes (fs w) (manifest_path script_dir src) = Some data ->
  read_json_lines data = Some urls ->
  Fs.makedirs (fs w) (clone_root_dir script_dir) = Some fs1 ->
  Fs.makedirs fs1 (jsonl_dir script_dir) = Some fs2 ->
  download_github_sources detect decode os_system read_json_lines script_dir
                          src limit w
  = (clone_all os_system (clone_root_dir script_dir) (apply_limit limit urls) ;;
     repos <- listdir (clone_root_dir script_dir) ;;
     convert_all detect decode (clone_root_dir script_dir)
                 (jsonl_dir script_dir) repos ;;
     ret (jsonl_dir script_dir)) (mkWorld fs2 (log w)).
Proof.
  intros Hread Hparse Hm1 Hm2.
  unfold download_github_sources. fold (manifest_path script_dir src).
  unfold bind at 1. unfold path_exists at 1.
  rewrite (read_bytes_exists _ _ _ Hread). cbn [negb].
  unfold bind at 1. unfold makedirs at 1. rewrite Hm1.
  unfold bind at 1. unfold makedirs at 1. cbn [fs log]. rewrite Hm2.
  unfold bind at 1. unfold read_urls. cbn [fs log].
  rewrite (read_bytes_grows (fs w) fs2 _ data); [|
    eapply grows_trans; eapply makedirs_grows; eassumption | exact Hread].
  rewrite Hparse. reflexivity.
Qed.

(** C9. With the manifest readable and the clone directory of every entry
    (up to the cap) already there, the run calls [os.system] not once;
    and when the two output directories can be made, it prints a skip for
    every entry and goes on to list the clone root and convert. *)
Theorem orchestrator_skips_present_clones
        (src : option string) (limit : option Z) (w : world)
        (data : list Byte.byte) (urls : list string) :
  Fs.read_bytes (fs w) (manifest_path script_dir src) = Some data ->
  read_json_lines data = Some urls ->
  Forall (fun url =>
            Fs.exists_ (fs w) (clone_dir_of (clone_root_dir script_dir) url)
            = true) (apply_limit limit urls) ->
  system_calls
    (log (snd (download_github_sources detect decode os_system read_json_lines
                                       script_dir src limit w)))
  = system_calls (log w)
  /\ forall fs1 fs2,
      Fs.makedirs (fs w) (clone_root_dir script_dir) = Some fs1 ->
      Fs.makedirs fs1 (jsonl_dir script_dir) = Some fs2 ->
      download_github_sources detect decode os_system read_json_lines
                              script_dir src limit w
      = (repos <- listdir (clone_root_dir script_dir) ;;
         convert_all detect decode (clone_root_dir script_dir)
                     (jsonl_dir script_dir) repos ;;
         ret (jsonl_dir script_dir))
          (mkWorld fs2 (log w ++ map skip_event (apply_limit limit urls))).
Proof.
  intros Hread Hparse Hall.
  assert (Hrun : forall fs1 fs2,
             Fs.makedirs (fs w) (clone_root_dir script_dir) = Some fs1 ->
             Fs.makedirs fs1 (jsonl_dir script_dir) = Some fs2 ->
             download_github_sources detect decode os_system read_json_lines
                                     script_dir src limit w
             = (repos <- listdir (clone_root_dir script_dir) ;;
                convert_all detect decode (clone_root_dir script_dir)
                            (jsonl_dir script_dir) repos ;;
                ret (jsonl_dir script_dir))
                 (mkWorld fs2 (log w ++ map skip_event (apply_limit limit urls)))).
  { intros fs1 fs2 Hm1 Hm2.
    rewrite (download_cases src limit w data urls fs1 fs2) by assumption.
    unfold bind at 1. rewrite clone_all_skips; [reflexivity|].
    cbn [fs]. eapply Forall_impl; [|exact Hall]. cbv beta. intros url Hex.
    eapply exists_grows; [|exact Hex].
    eapply grows_trans; eapply makedirs_grows; eassumption. }
  split; [|exact Hrun].
  destruct (Fs.makedirs (fs w) (clone_root_dir script_dir)) as [fs1|] eqn:Hm1.
  2:{ unfold download_github_sources. fold (manifest_path script_dir src).
      unfold bind at 1. unfold path_exists at 1.
      rewrite (read_bytes_exists _ _ _ Hread). cbn [negb].
      unfold bind at 1. unfold makedirs at 1. rewrite Hm1. reflexivity. }
  destruct (Fs.makedirs fs1 (jsonl_dir script_dir)) as [fs2|] eqn:Hm2.
  2:{ unfold download_github_sources. fold (manifest_path script_dir src).
      unfold bind at 1. unfold path_exists at 1.
      rewrite (read_bytes_exists _ _ _ Hread). cbn [negb].
      unfold bind at 1. unfold makedirs at 1. rewrite Hm1.
      unfold bind at 1. unfold makedirs at 1. cbn [fs log]. rewrite Hm2.
      reflexivity. }
  rewrite (Hrun fs1 fs2 eq_refl Hm2).
  unfold bind at 1. unfold listdir. cbn [fs log].
  assert (Hskips : system_calls (log w ++ map skip_event (apply_limit limit urls))
                   = system_calls (log w)).
  { rewrite system_calls_app.
    rewrite system_calls_skips. apply app_nil_r. }
  destruct (Fs.listdir fs2 (clone_root_dir script_dir)) as [repos|];
    [|exact Hskips].
  unfold bind.
  destruct (convert_all _ _ _ _ repos _) as [[[]|e] w1] eqn:Hc;
    cbn [snd ret]; rewrite (quiet_convert_all _ _ _ _ _ _ Hc); exact Hskips.
Qed.

(** C10. A cap of 0 is no cap: the run is the run without a cap.  A
    positive cap [k] keeps the first [k] entries of the manifest, and the
    run is then the run without a cap over a manifest cut to its first [k]
    entries.  (A negative cap, as a Python slice, drops entries from the
    end.) *)
Theorem limit_zero_is_no_limit (src : option string) (w : world) :
  download_github_sources detect decode os_system read_json_lines script_dir
                          src (Some 0) w
  = download_github_sources detect decode os_system read_json_lines script_dir
                            src None w
  /\ (forall urls, apply_limit (Some 0) urls = urls)
  /\ (forall urls, apply_limit None urls = urls)
  /\ (forall urls k,
        apply_limit (Some (Z.pos k)) urls = firstn (Pos.to_nat k) urls)
  /\ (forall urls k,
        apply_limit (Some (Z.neg k)) urls
        = firstn (List.length urls - Pos.to_nat k) urls)
  /\ (forall k,
        download_github_sources detect decode os_system read_json_lines
                                script_dir src (Some (Z.pos k)) w
        = download_github_sources detect decode os_system
            (fun data => option_map (firstn (Pos.to_nat k)) (read_json_lines data))
            script_dir src None w).
Proof.
  split; [reflexivity|]. split; [reflexivity|]. split; [reflexivity|].
  split; [|split].
  - intros urls k. unfold apply_limit, slice_list. cbn [Z.eqb Z.leb Z.compare].
    now rewrite Z2Nat.inj_pos.
  - intros urls k. unfold apply_limit, slice_list. cbn [Z.eqb Z.leb Z.compare].
    f_equal. lia.
  - intros k. unfold download_github_sources, bind, path_exists, makedirs, read_urls.
    destruct (negb _); [reflexivity|].
    destruct (Fs.makedirs (fs w) _) as [fs1|]; [|reflexivity]. cbn [fs log].
    destruct (Fs.makedirs fs1 _) as [fs2|]; [|reflexivity]. cbn [fs log].
    destruct (Fs.read_bytes fs2 _) as [data|]; [|reflexivity].
    destruct (read_json_lines data) as [urls|]; [|reflexivity].
    cbn [option_map apply_limit]. unfold slice_list.
    cbn [Z.eqb Z.leb Z.compare]. now rewrite Z2Nat.inj_pos.
Qed.

End Orchestrator.

(** ** Hidden files and directories *)

Lemma node_induction (P : node -> Prop) :
  (forall perm data, P (File perm data)) ->
  (forall es, Forall (fun e => P (snd e)) es -> P (Dir es)) ->
  forall n, P n.
Proof.
  intros Hfile Hdir. fix IH 1. intros [perm data|es].
  - apply Hfile.
  - apply Hdir. induction es as [|[k c] es IHes]; constructor.
    + apply IH.
    + exact IHes.
Qed.

Section HiddenFacts.
Import PyStr.

Lemma split_app_sep c a b :
  split c (a ++ String c b) = (split c a ++ split c b)%list.
Proof.
  induction a as [|x a IH]; cbn [append split].
  - now rewrite Ascii.eqb_refl.
  - rewrite IH. destruct (Ascii.eqb x c); [reflexivity|].
    pose proof (split_nonempty c a) as Hne.
    destruct (split c a); [contradiction | reflexivity].
Qed.

Lemma split_slashless c s : count c s = 0 -> split c s = [s].
Proof.
  induction s as [|x s IH]; cbn [count split]; intros H; [reflexivity|].
  pose proof (count_nonneg c s).
  destruct (Ascii.eqb x c); [lia|]. rewrite IH by lia. reflexivity.
Qed.

Lemma endswith_inv c a :
  endswith c a = true -> exists a', a = a' ++ String c EmptyString.
Proof.
  induction a as [|x a IH]; [discriminate|]. cbn [endswith].
  destruct a as [|y a].
  - intros H. apply Ascii.eqb_eq in H. subst x. now exists EmptyString.
  - intros H. destruct (IH H) as (a' & E). exists (String x a').
    cbn [append]. now rewrite <- E.
Qed.

Lemma append_snoc a c b : (a ++ String c EmptyString) ++ b = a ++ String c b.
Proof. now rewrite append_assoc_str. Qed.

Lemma hidden_root_first d :
  startswith hidden_marker d = true -> hidden_root d = true.
Proof.
  unfold hidden_root. destruct d as [|x d]; [discriminate|].
  cbn [startswith]. intros H.
  assert (Hx : Ascii.eqb x OsPath.sep = false).
  { apply Ascii.eqb_eq in H. now subst x. }
  cbn [split]. rewrite Hx.
  pose proof (split_nonempty OsPath.sep d) as Hne.
  destruct (split OsPath.sep d); [contradiction|].
  cbn [existsb startswith]. now rewrite H.
Qed.

(** Appending to a text keeps the hidden parts it has: the first part
    keeps its first character, and the later parts only grow. *)
Lemma split_app_keeps c m a b :
  (startswith m (hd EmptyString (split c a)) = true ->
   startswith m (hd EmptyString (split c (a ++ b))) = true)
  /\ (existsb (startswith m) (tl (split c a)) = true ->
      existsb (startswith m) (tl (split c (a ++ b))) = true).
Proof.
  induction a as [|x a [IHh IHt]]; [split; discriminate|].
  cbn [append split].
  pose proof (split_nonempty c a) as Hne.
  pose proof (split_nonempty c (a ++ b)) as Hne'.
  destruct (split c a) as [|q qs]; [contradiction|].
  destruct (split c (a ++ b)) as [|q' qs']; [contradiction|].
  cbn [hd tl] in *.
  destruct (Ascii.eqb x c); cbn [hd tl existsb startswith].
  - split; [discriminate|]. intros H. apply orb_true_iff in H.
    apply orb_true_iff. destruct H; [left | right]; auto.
  - split; auto.
Qed.

Lemma hidden_root_mono a b : hidden_root a = true -> hidden_root (a ++ b) = true.
Proof.
  unfold hidden_root.
  pose proof (split_nonempty OsPath.sep a) as Hne.
  pose proof (split_nonempty OsPath.sep (a ++ b)) as Hne'.
  destruct (split_app_keeps OsPath.sep hidden_marker a b) as [Hh Ht].
  destruct (split OsPath.sep a) as [|q qs]; [contradiction|].
  destruct (split OsPath.sep (a ++ b)) as [|q' qs']; [contradiction|].
  cbn [hd tl existsb] in *. intros H. apply orb_true_iff in H.
  apply orb_true_iff. destruct H; [left | right]; auto.
Qed.

(** What [join] returns. *)
Lemma join_cases a b :
  startswith OsPath.sep b = false ->
  OsPath.join a b = b /\ a = EmptyString
  \/ (exists a', a = a' ++ String OsPath.sep EmptyString
                 /\ OsPath.join a b = a' ++ String OsPath.sep b)
  \/ OsPath.join a b = a ++ String OsPath.sep b.
Proof.
  intros Hb. unfold OsPath.join. rewrite Hb.
  destruct (String.eqb_spec a EmptyString) as [->|Hne]; cbn [orb].
  - now left.
  - destruct (endswith OsPath.sep a) eqn:He.
    + right; left. destruct (endswith_inv _ _ He) as (a' & ->).
      exists a'. split; [reflexivity | apply append_snoc].
    + now right; right.
Qed.

Lemma slashless_not_absolute name :
  slashless name = true -> startswith OsPath.sep name = false.
Proof.
  unfold slashless. destruct name as [|x name]; [reflexivity|].
  cbn [count startswith]. pose proof (count_nonneg OsPath.sep name) as Hc.
  destruct (Ascii.eqb x OsPath.sep); [|reflexivity].
  intros E. apply Z.eqb_eq in E. lia.
Qed.

Lemma hidden_not_absolute name :
  startswith hidden_marker name = true -> startswith OsPath.sep name = false.
Proof.
  destruct name as [|x name]; [discriminate|]. cbn [startswith].
  intros E. apply Ascii.eqb_eq in E. now subst x.
Qed.

(** Below a hidden root everything is hidden. *)
Lemma hidden_root_join_root root name :
  startswith OsPath.sep name = false ->
  hidden_root root = true -> hidden_root (OsPath.join root name) = true.
Proof.
  intros Hs Hr.
  destruct (join_cases root name Hs) as [[_ ->] | [(a' & Ha & E) | E]].
  - discriminate.
  - rewrite E, <- append_snoc, <- Ha. now apply hidden_root_mono.
  - rewrite E. now apply hidden_root_mono.
Qed.

Lemma hidden_root_app_sep a b :
  hidden_root (a ++ String OsPath.sep b) = hidden_root a || hidden_root b.
Proof. unfold hidden_root. now rewrite split_app_sep, existsb_app. Qed.

(** Whatever is directly inside a hidden directory is hidden. *)
Lemma hidden_root_join_name root name :
  startswith hidden_marker name = true ->
  hidden_root (OsPath.join root name) = true.
Proof.
  intros Hn. pose proof (hidden_root_first _ Hn) as Hh.
  destruct (join_cases root name (hidden_not_absolute _ Hn))
    as [[-> _] | [(a' & _ & ->) | ->]].
  - exact Hh.
  - rewrite hidden_root_app_sep, Hh. apply orb_true_r.
  - rewrite hidden_root_app_sep, Hh. apply orb_true_r.
Qed.

(** A visible name under a visible root gives a visible path. *)
Lemma hidden_root_join_visible root name :
  slashless name = true ->
  hidden_root root = false ->
  startswith hidden_marker name = false ->
  hidden_root (OsPath.join root name) = false.
Proof.
  intros Hs Hr Hn.
  assert (Hname : hidden_root name = false).
  { unfold hidden_root. rewrite split_slashless.
    - cbn [existsb]. now rewrite Hn.
    - unfold slashless in Hs. now apply Z.eqb_eq in Hs. }
  destruct (join_cases root name (slashless_not_absolute _ Hs))
    as [[-> _] | [(a' & Ha & ->) | ->]].
  - exact Hname.
  - rewrite hidden_root_app_sep, Hname.
    rewrite Ha, hidden_root_app_sep in Hr. apply orb_false_iff in Hr.
    destruct Hr as [-> _]. reflexivity.
  - now rewrite hidden_root_app_sep, Hname, Hr.
Qed.

(** The path of a file that is hidden, or below a hidden directory, or
    below a hidden root, has a part that begins with the marker. *)
Lemma files_under_hidden tree :
  names_ok tree = true ->
  forall top dirs file p,
    In (dirs, file, p) (files_under top tree) ->
    hidden_root top = true \/ is_hidden file \/ Exists is_hidden dirs ->
    hidden_root p = true.
Proof.
  induction tree as [perm data|es IH] using node_induction; intros Hok top dirs file p Hin Hhid.
  - contradiction.
  - cbn [files_under] in Hin. apply in_flat_map in Hin.
    destruct Hin as ([name child] & He & Hin). cbn [fst snd] in Hin.
    cbn [names_ok] in Hok. rewrite forallb_forall in Hok.
    specialize (Hok _ He). cbn [fst snd] in Hok.
    apply andb_true_iff in Hok. destruct Hok as [Hname Hchild].
    rewrite Forall_forall in IH. specialize (IH _ He). cbn [snd] in IH.
    destruct child as [perm data|es'].
    + destruct Hin as [[= <- <- <-]|[]].
      destruct Hhid as [Ht | [Hf | Hd]].
      * apply hidden_root_join_root; [now apply slashless_not_absolute | exact Ht].
      * now apply hidden_root_join_name.
      * inversion Hd.
    + apply in_map_iff in Hin. destruct Hin as ([[ds f] p'] & [= <- <- <-] & Hin).
      apply (IH Hchild _ _ _ _ Hin).
      destruct Hhid as [Ht | [Hf | Hd]].
      * left. apply hidden_root_join_root;
          [now apply slashless_not_absolute | exact Ht].
      * right; now left.
      * inversion Hd as [? ? Hhead | ? ? Htail]; subst.
        -- left. now apply hidden_root_join_name.
        -- right; now right.
Qed.

(** The file names [os.walk] reports have no separator. *)
Lemma walk_node_names tree :
  names_ok tree = true ->
  forall top root dirs files,
    In (root, dirs, files) (Fs.walk_node top tree) ->
    forall file, In file files -> slashless file = true.
Proof.
  induction tree as [perm data|es IH] using node_induction;
    intros Hok top root dirs files Hin file Hfile.
  - contradiction.
  - cbn [names_ok] in Hok. rewrite forallb_forall in Hok.
    cbn [Fs.walk_node] in Hin. destruct Hin as [[= <- <- <-] | Hin].
    + unfold Fs.filenames in Hfile. apply in_map_iff in Hfile.
      destruct Hfile as (e & <- & He). apply filter_In in He.
      destruct He as [He _]. specialize (Hok _ He).
      now apply andb_true_iff in Hok.
    + apply in_flat_map in Hin. destruct Hin as (e & He & Hin).
      rewrite Forall_forall in IH. specialize (Hok _ He).
      apply andb_true_iff in Hok.
      exact (IH _ He (proj2 Hok) _ _ _ _ Hin _ Hfile).
Qed.

End HiddenFacts.

Section Hidden.
Variable detect : list Byte.byte -> option string.
Variable decode : list Byte.byte -> string -> decoded.

Lemma convert_file_id input_fp w doc w' :
  convert_file_to_json detect decode input_fp w = (Ok (Some doc), w') ->
  doc_id doc = input_fp.
Proof.
  unfold convert_file_to_json.
  destruct (classify input_fp) as [[ext category]|]; [|discriminate].
  step. destruct (Fs.read_bytes (fs w) input_fp) as [content|]; [|discriminate].
  destruct (detect content) as [encoding|]; [|discriminate].
  destruct (String.eqb encoding EmptyString); [discriminate|]. step.
  destruct (decode content encoding); try discriminate. step.
  destruct (Fs.getsize (fs w) input_fp); [|discriminate].
  now intros [= <- _].
Qed.

(** Every document the inner loop adds is that of a file it was given,
    not hidden, under the path [join] gives it. *)
Lemma convert_files_ids root files : forall docs0 w docs w',
  convert_files detect decode root files docs0 w = (Ok docs, w') ->
  forall doc, In doc docs ->
    In doc docs0
    \/ exists file, In file files
                    /\ PyStr.startswith hidden_marker file = false
                    /\ doc_id doc = OsPath.join root file.
Proof.
  induction files as [|file files IH]; intros docs0 w docs w'; cbn [convert_files].
  - intros [= <- _] doc Hdoc. now left.
  - destruct (PyStr.startswith hidden_marker file) eqn:Hh.
    + intros Hrun doc Hdoc.
      destruct (IH _ _ _ _ Hrun doc Hdoc) as [H0 | (f & Hf & Hv & Hid)];
        [now left | right]. exists f. repeat split; auto. now right.
    + unfold bind.
      destruct (convert_file_to_json detect decode _ w) as [[[d|]|e] w1] eqn:Hc;
        [| |discriminate]; intros Hrun doc Hdoc;
        destruct (IH _ _ _ _ Hrun doc Hdoc) as [H0 | (f & Hf & Hv & Hid)].
      * apply in_app_or in H0. destruct H0 as [H0 | [<- | []]]; [now left | right].
        exists file. repeat split; [now left | exact Hh |].
        exact (convert_file_id _ _ _ _ Hc).
      * right. exists f. repeat split; auto. now right.
      * now left.
      * right. exists f. repeat split; auto. now right.
Qed.

(** Every document of the walk is that of a file of a triple whose root
    has no hidden part. *)
Lemma convert_walk_ids triples : forall docs0 w docs w',
  convert_walk detect decode triples docs0 w = (Ok docs, w') ->
  forall doc, In doc docs ->
    In doc docs0
    \/ exists root dirs files file,
         In (root, dirs, files) triples
         /\ hidden_root root = false
         /\ In file files
         /\ PyStr.startswith hidden_marker file = false
         /\ doc_id doc = OsPath.join root file.
Proof.
  induction triples as [|[[root dirs] files] triples IH];
    intros docs0 w docs w'; cbn [convert_walk].
  - intros [= <- _] doc Hdoc. now left.
  - destruct (hidden_root root) eqn:Hr.
    + intros Hrun doc Hdoc.
      destruct (IH _ _ _ _ Hrun doc Hdoc)
        as [H0 | (r & ds & fl & f & Hin & H1 & H2 & H3 & H4)]; [now left | right].
      exists r, ds, fl, f. repeat split; auto. now right.
    + unfold bind.
      destruct (convert_files detect decode root files docs0 w)
        as [[docs1|e] w1] eqn:Hc; [|discriminate].
      intros Hrun doc Hdoc.
      destruct (IH _ _ _ _ Hrun doc Hdoc)
        as [H0 | (r & ds & fl & f & Hin & H1 & H2 & H3 & H4)].
      * destruct (convert_files_ids _ _ _ _ _ _ Hc doc H0)
          as [H00 | (f & Hf & Hv & Hid)]; [now left | right].
        exists root, dirs, files, f. repeat split; auto. now left.
      * right. exists r, ds, fl, f. repeat split; auto. now right.
Qed.

(** C4. Whatever the walk of a repository produces, no document in it is
    that of a file whose name begins with the marker, nor of a file below,
    at any depth, a directory whose name begins with the marker.  (The
    names of the tree hold no separator, as file names do.) *)
Theorem hidden_files_contribute_nothing
        (root : node) (repo_dir : string) (tree : node)
        (w0 : world) (docs : list document) (w1 : world) :
  Fs.resolve root repo_dir = Some tree ->
  names_ok tree = true ->
  convert_walk detect decode (Fs.walk root repo_dir) [] w0 = (Ok docs, w1) ->
  forall dirs file p,
    In (dirs, file, p) (files_under repo_dir tree) ->
    is_hidden file \/ Exists is_hidden dirs ->
    forall doc, In doc docs -> doc_id doc <> p.
Proof.
  intros Hres Hok Hwalk dirs file p Hfile Hhid doc Hdoc Heq.
  assert (Hp : hidden_root p = true).
  { apply (files_under_hidden tree Hok repo_dir dirs file p Hfile). now right. }
  destruct (convert_walk_ids _ _ _ _ _ Hwalk doc Hdoc)
    as [[] | (r & ds & fl & f & Hin & Hr & Hf & Hv & Hid)].
  unfold Fs.walk in Hin. rewrite Hres in Hin.
  destruct tree as [perm data|es]; [contradiction|].
  pose proof (walk_node_names _ Hok _ _ _ _ Hin f Hf) as Hs.
  pose proof (hidden_root_join_visible r f Hs Hr Hv) as Hvis.
  rewrite <- Hid, Heq, Hp in Hvis. discriminate.
Qed.

End Hidden.

(** ** Instances *)

Lemma orchestrator_skips_present_clones_witness :
  system_calls
    (log (snd (Sample.run Sample.remote
                 (Sample.app ["octocat/hello-world"]
                             [("hello-world", Sample.hello_world)]) None)))
  = [].
Proof.
  refine (proj1 (orchestrator_skips_present_clones
                   Sample.ascii_detect Sample.ascii_decode
                   (Sample.git_remote Sample.remote) Sample.read_lines
                   Sample.script_dir None None
                   (mkWorld (Sample.app ["octocat/hello-world"]
                                        [("hello-world", Sample.hello_world)]) [])
                   (Sample.manifest ["octocat/hello-world"])
                   ["octocat/hello-world"] _ _ _)).
  - reflexivity.
  - reflexivity.
  - repeat constructor.
Defined.

Lemma hidden_files_contribute_nothing_witness :
  Forall (fun doc => doc_id doc <> "/r/src/.cache/deep/x.py")
         (Sample.docs_of
            (convert_walk Sample.ascii_detect Sample.ascii_decode
                          (Fs.walk (Sample.site []) "/r") []
                          (mkWorld (Sample.site []) []))).
Proof.
  apply Forall_forall.
  apply (hidden_files_contribute_nothing
           Sample.ascii_detect Sample.ascii_decode
           (Sample.site []) "/r" Sample.hello_world
           (mkWorld (Sample.site []) [])
           _ (snd (convert_walk Sample.ascii_detect Sample.ascii_decode
                                (Fs.walk (Sample.site []) "/r") []
                                (mkWorld (Sample.site []) [])))
           eq_refl eq_refl)
    with (dirs := ["src"; ".cache"; "deep"]) (file := "x.py").
  - vm_compute. reflexivity.
  - vm_compute. repeat (first [left; reflexivity | right]).
  - right. apply Exists_cons_tl, Exists_cons_hd. reflexivity.
Defined.

(** What the walk of the sample repository does produce. *)
Example sample_walk_documents :
  map doc_id
      (Sample.docs_of
         (convert_walk Sample.ascii_detect Sample.ascii_decode
                       (Fs.walk (Sample.site []) "/r") []
                       (mkWorld (Sample.site []) [])))
  = ["/r/README.md"; "/r/src/main.c"]
  /\ map (fun x => snd x) (files_under "/r" Sample.hello_world)
     = ["/r/.git/config"; "/r/README.md"; "/r/.gitignore"; "/r/src/main.c";
        "/r/src/.cache/deep/x.py"].
Proof. vm_compute. split; reflexivity. Qed.

Lemma convert_repo_skips_converted_witness :
  exists msg,
    convert_repo_to_jsonl Sample.ascii_detect Sample.ascii_decode "/r" "/out"
      (mkWorld (Sample.site [("r.jsonl", Sample.text_file "{}")]) [])
    = (Ok tt, mkWorld (Sample.site [("r.jsonl", Sample.text_file "{}")])
                      ([] ++ [EvPrint msg]))
    /\ file_reads ([] ++ [EvPrint msg]) = file_reads []
    /\ Fs.read_bytes
         (fs (snd (convert_repo_to_jsonl
                     Sample.ascii_detect Sample.ascii_decode "/r" "/out"
                     (mkWorld (Sample.site [("r.jsonl", Sample.text_file "{}")])
                              []))))
         (artifact_path "/out" "/r")
       = Fs.read_bytes (Sample.site [("r.jsonl", Sample.text_file "{}")])
                       (artifact_path "/out" "/r").
Proof.
  apply (convert_repo_skips_converted
           Sample.ascii_detect Sample.ascii_decode "/r" "/out"
           (mkWorld (Sample.site [("r.jsonl", Sample.text_file "{}")]) [])).
  reflexivity.
Defined.

Lemma convert_repo_artifact_all_or_nothing_witness :
  exists fs',
    List.length (Sample.docs_of Sample.site_walk) = 2%nat
    /\ convert_repo_to_jsonl Sample.ascii_detect Sample.ascii_decode
                             "/r" "/out" (mkWorld (Sample.site []) [])
       = (Ok tt, mkWorld fs' (log (snd Sample.site_walk)
                              ++ [EvOpenWrite (artifact_path "/out" "/r")]))
    /\ Fs.read_bytes fs' (artifact_path "/out" "/r")
       = Some (list_byte_of_string (jsonl_lines (Sample.docs_of Sample.site_walk)))
    /\ PyStr.split newline (jsonl_lines (Sample.docs_of Sample.site_walk))
       = (map Json.dumps (Sample.docs_of Sample.site_walk) ++ [EmptyString])%list.
Proof.
  destruct (convert_repo_artifact_all_or_nothing
              Sample.ascii_detect Sample.ascii_decode "/r" "/out"
              (mkWorld (Sample.site []) []) eq_refl) as [_ Hok].
  destruct (Hok (Sample.docs_of Sample.site_walk) (snd Sample.site_walk))
    as (_ & Hsplit & [(fs' & _ & Hrun & Hread & _) | (Hwr & _)]).
  - vm_compute. reflexivity.
  - exists fs'. split; [reflexivity|].
    split; [exact Hrun|]. split; [exact Hread | exact Hsplit].
  - exfalso. vm_compute in Hwr. discriminate.
Defined.

(* ================================================================= *)
(** * Further properties *)

(** ** Base names *)

Section BasenameFacts.
Import PyStr.

Lemma rfind_lower_bound c s : -1 <= rfind c s.
Proof.
  induction s as [|a s IH]; cbn [rfind]; [lia|].
  destruct (0 <=? rfind c s) eqn:E; [lia|].
  destruct (Ascii.eqb a c); lia.
Qed.

Lemma rfind_absent c s : rfind c s < 0 <-> count c s = 0.
Proof.
  induction s as [|a s IH]; cbn [rfind count]; [split; [reflexivity | lia]|].
  pose proof (rfind_lower_bound c s) as Hlb.
  pose proof (count_nonneg c s) as Hc.
  destruct (0 <=? rfind c s) eqn:E.
  - apply Z.leb_le in E. split; [lia|]. intros H.
    assert (count c s = 0) by (destruct (Ascii.eqb a c); lia).
    apply IH in H0. lia.
  - apply Z.leb_gt in E. apply IH in E.
    destruct (Ascii.eqb a c); split; lia.
Qed.

Lemma basename_cons a s :
  OsPath.basename (String a s)
  = if 0 <=? rfind OsPath.sep s then OsPath.basename s
    else if Ascii.eqb a OsPath.sep then s else String a s.
Proof.
  unfold OsPath.basename, slice_from. cbn [rfind].
  pose proof (rfind_lower_bound OsPath.sep s) as Hlb.
  destruct (0 <=? rfind OsPath.sep s) eqn:E.
  - apply Z.leb_le in E.
    replace (Z.to_nat (rfind OsPath.sep s + 1 + 1))
      with (S (Z.to_nat (rfind OsPath.sep s + 1))) by lia.
    reflexivity.
  - destruct (Ascii.eqb a OsPath.sep); reflexivity.
Qed.

(** A base name holds no separator. *)
Lemma basename_slashless p : slashless (OsPath.basename p) = true.
Proof.
  unfold slashless. apply Z.eqb_eq.
  induction p as [|a s IH]; [reflexivity|]. rewrite basename_cons.
  destruct (0 <=? rfind OsPath.sep s) eqn:E; [exact IH|].
  apply Z.leb_gt in E. apply rfind_absent in E.
  destruct (Ascii.eqb a OsPath.sep) eqn:Ea; [exact E|].
  cbn [count]. rewrite Ea. lia.
Qed.

(** A name without a separator is its own base name. *)
Lemma basename_of_slashless name :
  slashless name = true -> OsPath.basename name = name.
Proof.
  unfold slashless. intros H. apply Z.eqb_eq in H. apply rfind_absent in H.
  pose proof (rfind_lower_bound OsPath.sep name) as Hlb.
  unfold OsPath.basename, slice_from.
  replace (rfind OsPath.sep name + 1) with 0 by lia. destruct name; reflexivity.
Qed.

Lemma rfind_app_sep c a b : 0 <= rfind c (a ++ String c b).
Proof.
  induction a as [|x a IH]; cbn [append rfind].
  - pose proof (rfind_lower_bound c b).
    destruct (0 <=? rfind c b) eqn:E; [apply Z.leb_le in E; lia|].
    rewrite Ascii.eqb_refl. lia.
  - destruct (0 <=? rfind c (a ++ String c b)) eqn:E; [lia|].
    apply Z.leb_gt in E. lia.
Qed.

Lemma basename_app_sep a b :
  OsPath.basename (a ++ String OsPath.sep b) = OsPath.basename b.
Proof.
  induction a as [|x a IH]; cbn [append]; rewrite basename_cons.
  - destruct (0 <=? rfind OsPath.sep b) eqn:E; [reflexivity|].
    rewrite Ascii.eqb_refl. symmetry. apply basename_of_slashless.
    apply Z.leb_gt in E. apply rfind_absent in E.
    unfold slashless. now apply Z.eqb_eq.
  - pose proof (rfind_app_sep OsPath.sep a b) as H. apply Z.leb_le in H.
    now rewrite H.
Qed.

(** The base name of a joined path is the name joined. *)
Lemma basename_join root name :
  slashless name = true -> OsPath.basename (OsPath.join root name) = name.
Proof.
  intros Hs.
  destruct (join_cases root name (slashless_not_absolute _ Hs))
    as [[-> _] | [(a' & _ & ->) | ->]].
  - now apply basename_of_slashless.
  - rewrite basename_app_sep. now apply basename_of_slashless.
  - rewrite basename_app_sep. now apply basename_of_slashless.
Qed.

End BasenameFacts.

Lemma classify_by_basename (input_fp : string) :
  classify input_fp = classify (OsPath.basename input_fp).
Proof.
  unfold classify.
  now rewrite (basename_of_slashless _ (basename_slashless input_fp)).
Qed.

(** X1. The directory a file is in has no say in its classification: a
    file name joined to any root is classified as the name alone, whatever
    dots and letters the root has. *)
Theorem classify_ignores_directories (root name : string) :
  slashless name = true ->
  classify (OsPath.join root name) = classify name.
Proof.
  intros Hs. rewrite classify_by_basename, (basename_join _ _ Hs).
  reflexivity.
Qed.

Lemma classify_ignores_directories_witness :
  classify (OsPath.join "/repos/tool.py/docs.v" "NOTES") = classify "NOTES".
Proof.
  apply (classify_ignores_directories "/repos/tool.py/docs.v" "NOTES").
  reflexivity.
Defined.

(** ** More on the document builder and the walk *)

Section MoreWalk.
Variable detect : list Byte.byte -> option string.
Variable decode : list Byte.byte -> string -> decoded.

Lemma dict_get_in k d v : dict_get k d = Some v -> In v (map snd d).
Proof.
  induction d as [|[k' v'] d IH]; cbn [dict_get map snd]; [discriminate|].
  destruct (String.eqb k k'); [intros [= ->]; now left | right; auto].
Qed.

Lemma classify_inv input_fp ext category :
  classify input_fp = Some (ext, category) ->
  PyStr.lower ext = ext
  /\ In category (map snd SUPPORTED_EXTENSIONS_TO_CATEGORY).
Proof.
  unfold classify.
  destruct (OsPath.splitext (OsPath.basename input_fp)) as [stem e].
  destruct (negb (dict_mem (PyStr.lower e) _)).
  - destruct (negb (dict_mem (PyStr.lower stem) _)); [discriminate|].
    destruct (dict_get (PyStr.lower stem) _) as [c|] eqn:E; [|discriminate].
    intros [= <- <-]. split; [apply lower_idem | exact (dict_get_in _ _ _ E)].
  - destruct (dict_get (PyStr.lower e) _) as [c|] eqn:E; [|discriminate].
    intros [= <- <-]. split; [apply lower_idem | exact (dict_get_in _ _ _ E)].
Qed.

Lemma convert_file_well_formed input_fp w doc w' :
  convert_file_to_json detect decode input_fp w = (Ok (Some doc), w') ->
  well_formed_document doc.
Proof.
  unfold convert_file_to_json.
  destruct (classify input_fp) as [[ext category]|] eqn:Hc; [|discriminate].
  step. destruct (Fs.read_bytes (fs w) input_fp) as [content|]; [|discriminate].
  destruct (detect content) as [encoding|]; [|discriminate].
  destruct (String.eqb encoding EmptyString); [discriminate|]. step.
  destruct (decode content encoding) as [text| |]; try discriminate. step.
  destruct (Fs.getsize (fs w) input_fp) as [n|] eqn:Hn; [|discriminate].
  intros [= <- _]. unfold well_formed_document.
  cbn [doc_path doc_id doc_file_extension doc_category doc_line_count
       doc_text doc_size_in_bytes].
  destruct (classify_inv _ _ _ Hc) as [Hl Hin].
  pose proof (count_nonneg newline text) as Hcount.
  do 4 (split; [assumption || reflexivity|]).
  split; [reflexivity|]. split; [lia|].
  unfold Fs.getsize in Hn.
  destruct (Fs.resolve (fs w) input_fp) as [[perm data|es]|]; try discriminate;
    injection Hn as <-; lia.
Qed.

(** The builder looks at the files only: its result over a world is its
    result over the same files with an empty log, and its log entries are
    added to the log there was. *)
Lemma convert_file_frame input_fp (w : world) :
  convert_file_to_json detect decode input_fp w
  = (fst (convert_file_to_json detect decode input_fp (mkWorld (fs w) [])),
     mkWorld (fs w)
       (log w ++ log (snd (convert_file_to_json detect decode input_fp
                             (mkWorld (fs w) []))))).
Proof.
  unfold convert_file_to_json.
  destruct (classify input_fp) as [[ext category]|];
    [|cbn; now rewrite app_nil_r, world_eta].
  step. destruct (Fs.read_bytes (fs w) input_fp) as [content|]; [|reflexivity].
  destruct (detect content) as [encoding|]; [|reflexivity].
  destruct (String.eqb encoding EmptyString); [reflexivity|]. step.
  destruct (decode content encoding) as [text| |]; step;
    try (cbn; now rewrite <- app_assoc).
  destruct (Fs.getsize (fs w) input_fp); cbn; now rewrite <- app_assoc.
Qed.

(** The builder opens the file exactly when the path is supported. *)
Lemma convert_file_reads input_fp (w : world) :
  file_reads (log (snd (convert_file_to_json detect decode input_fp w)))
  = (file_reads (log w) ++ if supported input_fp then [input_fp] else [])%list.
Proof.
  unfold convert_file_to_json, supported.
  destruct (classify input_fp) as [[ext category]|];
    [|cbn; now rewrite app_nil_r].
  step. destruct (Fs.read_bytes (fs w) input_fp) as [content|];
    [|cbn; now rewrite file_reads_app].
  destruct (detect content) as [encoding|]; [|cbn; now rewrite file_reads_app].
  destruct (String.eqb encoding EmptyString); [cbn; now rewrite file_reads_app|].
  step.
  destruct (decode content encoding) as [text| |]; step;
    try (cbn; rewrite !file_reads_app; cbn; now rewrite app_nil_r).
  destruct (Fs.getsize (fs w) input_fp); cbn; rewrite !file_reads_app; cbn;
    now rewrite app_nil_r.
Qed.

(** What one call of the builder leaves behind, in terms of [doc_of],
    [raises] and [supported]. *)
Lemma convert_file_outcome input_fp (w : world) r w1 :
  convert_file_to_json detect decode input_fp w = (r, w1) ->
  fs w1 = fs w
  /\ file_reads (log w1)
     = (file_reads (log w) ++ if supported input_fp then [input_fp] else [])%list
  /\ match r with
     | Ok (Some doc) => doc_of detect decode (fs w) input_fp = [doc]
                        /\ raises detect decode (fs w) input_fp = false
     | Ok None => doc_of detect decode (fs w) input_fp = []
                  /\ raises detect decode (fs w) input_fp = false
     | Raise _ => raises detect decode (fs w) input_fp = true
     end.
Proof.
  intros E. pose proof (convert_file_reads input_fp w) as Hreads.
  rewrite E in Hreads. cbn [snd] in Hreads.
  rewrite convert_file_frame in E. injection E as Hr Hw.
  split; [now subst w1|]. split; [exact Hreads|].
  unfold doc_of, raises. rewrite Hr. destruct r as [[doc|]|e]; auto.
Qed.

(** The inner loop, as a whole. *)
Lemma convert_files_outcome root files : forall docs0 w,
  match convert_files detect decode root files docs0 w with
  | (Ok docs, w') =>
      docs = (docs0 ++ flat_map (doc_of detect decode (fs w))
                                (file_candidates root files))%list
      /\ fs w' = fs w
      /\ file_reads (log w')
         = (file_reads (log w)
            ++ filter supported (file_candidates root files))%list
  | (Raise _, _) =>
      Exists (fun p => raises detect decode (fs w) p = true)
             (file_candidates root files)
  end.
Proof.
  unfold file_candidates.
  induction files as [|file files IH]; intros docs0 w; cbn [convert_files].
  - cbn. now rewrite !app_nil_r.
  - cbn [filter]. destruct (PyStr.startswith hidden_marker file); cbn [negb];
      [apply IH|].
    cbn [map flat_map filter]. unfold bind.
    destruct (convert_file_to_json detect decode (OsPath.join root file) w)
      as [r w1] eqn:E.
    destruct (convert_file_outcome _ _ _ _ E) as (F & R & O).
    destruct r as [[doc|]|e].
    + destruct O as [Hd _]. specialize (IH (docs0 ++ [doc])%list w1).
      destruct (convert_files _ _ _ _ _ w1) as [[docs|e] w'].
      * destruct IH as (-> & F' & R'). rewrite F in *.
        rewrite Hd, R', R, <- !app_assoc. repeat split; try assumption.
        destruct (supported (OsPath.join root file)); reflexivity.
      * rewrite F in IH. now apply Exists_cons_tl.
    + destruct O as [Hd _]. specialize (IH docs0 w1).
      destruct (convert_files _ _ _ _ _ w1) as [[docs|e] w'].
      * destruct IH as (-> & F' & R'). rewrite F in *.
        rewrite Hd, R', R, <- !app_assoc. repeat split; try assumption.
        destruct (supported (OsPath.join root file)); reflexivity.
      * rewrite F in IH. now apply Exists_cons_tl.
    + now apply Exists_cons_hd.
Qed.

(** The walk, as a whole. *)
Lemma convert_walk_outcome triples : forall docs0 w,
  match convert_walk detect decode triples docs0 w with
  | (Ok docs, w') =>
      docs = (docs0 ++ flat_map (doc_of detect decode (fs w))
                                (walk_candidates triples))%list
      /\ fs w' = fs w
      /\ file_reads (log w')
         = (file_reads (log w) ++ filter supported (walk_candidates triples))%list
  | (Raise _, _) =>
      Exists (fun p => raises detect decode (fs w) p = true)
             (walk_candidates triples)
  end.
Proof.
  induction triples as [|[[root dirs] files] triples IH]; intros docs0 w;
    cbn [convert_walk walk_candidates flat_map fst snd].
  - cbn. now rewrite !app_nil_r.
  - destruct (hidden_root root); [apply IH|]. unfold bind.
    pose proof (convert_files_outcome root files docs0 w) as Hf.
    destruct (convert_files detect decode root files docs0 w) as [[docs1|e] w1].
    + destruct Hf as (-> & F & R).
      match goal with
      | |- context [convert_walk _ _ _ ?d w1] => specialize (IH d w1)
      end.
      destruct (convert_walk _ _ _ _ w1) as [[docs|e] w'].
      * destruct IH as (-> & F' & R'). rewrite F in *.
        rewrite R', R, flat_map_app, filter_app, <- !app_assoc.
        repeat split; assumption.
      * rewrite F in IH. apply Exists_app. now right.
    + apply Exists_app. now left.
Qed.

(** X2. The documents of a walk that returns are those of the paths it
    visits, the non-hidden files of the triples whose root has no hidden
    part, in that order, one for each path the builder accepts and none
    for the others; and the walk does return when the builder raises on
    none of these paths. *)
Theorem walk_yields_the_eligible_files
        (triples : list (string * list string * list string)) (w : world) :
  (forall docs w',
      convert_walk detect decode triples [] w = (Ok docs, w') ->
      docs = flat_map (doc_of detect decode (fs w)) (walk_candidates triples))
  /\ (Forall (fun p => raises detect decode (fs w) p = false)
             (walk_candidates triples) ->
      exists w',
        convert_walk detect decode triples [] w
        = (Ok (flat_map (doc_of detect decode (fs w)) (walk_candidates triples)),
           w')).
Proof.
  pose proof (convert_walk_outcome triples [] w) as H.
  destruct (convert_walk detect decode triples [] w) as [[docs|e] w1].
  - destruct H as (-> & _ & _). split.
    + now intros docs w' [= <- _].
    + intros _. now exists w1.
  - split; [discriminate|]. intros Hno. exfalso.
    apply Exists_exists in H. destruct H as (p & Hin & Hp).
    rewrite Forall_forall in Hno. rewrite (Hno p Hin) in Hp. discriminate.
Qed.

(** X3. A walk that returns has opened exactly the visited paths that are
    supported, each once and in order: a file whose extension and name are
    not in the table is never opened. *)
Theorem walk_opens_the_supported_files
        (triples : list (string * list string * list string)) (w : world)
        (docs : list document) (w' : world) :
  convert_walk detect decode triples [] w = (Ok docs, w') ->
  file_reads (log w')
  = (file_reads (log w) ++ filter supported (walk_candidates triples))%list.
Proof.
  intros E. pose proof (convert_walk_outcome triples [] w) as H.
  rewrite E in H. now destruct H as (_ & _ & R).
Qed.

(** X4. Every document of a walk is well formed: its path is its id, its
    extension and category are those the classifier gives the id, the
    extension is in lower case and the category is one of the table, the
    line count is one more than the newlines of the text, hence at least
    1, and the size is not negative. *)
Theorem walk_documents_are_well_formed
        (triples : list (string * list string * list string)) (w : world)
        (docs : list document) (w' : world) :
  convert_walk detect decode triples [] w = (Ok docs, w') ->
  Forall well_formed_document docs.
Proof.
  intros E. pose proof (convert_walk_outcome triples [] w) as H.
  rewrite E in H. destruct H as (-> & _ & _). cbn [app].
  apply Forall_forall. intros doc Hin. apply in_flat_map in Hin.
  destruct Hin as (p & _ & Hin). unfold doc_of in Hin.
  destruct (convert_file_to_json detect decode p (mkWorld (fs w) []))
    as [r w1] eqn:Ec. cbn [fst] in Hin.
  destruct r as [[d|]|e]; try contradiction.
  destruct Hin as [<-|[]]. exact (convert_file_well_formed _ _ _ _ Ec).
Qed.

(** With nothing to visit, the walk returns at once. *)
Lemma convert_files_no_candidates root files : forall docs0 w,
  file_candidates root files = [] ->
  convert_files detect decode root files docs0 w = (Ok docs0, w).
Proof.
  unfold file_candidates.
  induction files as [|file files IH]; intros docs0 w H; [reflexivity|].
  cbn [convert_files]. cbn [filter] in H.
  destruct (PyStr.startswith hidden_marker file); [now apply IH | discriminate].
Qed.

Lemma convert_walk_no_candidates triples : forall docs0 w,
  walk_candidates triples = [] ->
  convert_walk detect decode triples docs0 w = (Ok docs0, w).
Proof.
  induction triples as [|[[root dirs] files] triples IH]; intros docs0 w H;
    [reflexivity|].
  cbn [convert_walk]. cbn [walk_candidates flat_map fst snd] in H.
  destruct (hidden_root root); [now apply IH|].
  apply app_eq_nil in H. destruct H as [Hf Ht].
  unfold bind. rewrite (convert_files_no_candidates _ _ _ _ Hf). now apply IH.
Qed.

(** The converter when the walk visits nothing: it writes an empty
    artifact. *)
Lemma convert_repo_no_candidates (repo_dir jsonl_dir : string) (w : world) :
  walk_candidates (Fs.walk (fs w) repo_dir) = [] ->
  Fs.exists_ (fs w) (artifact_path jsonl_dir repo_dir) = false ->
  convert_repo_to_jsonl detect decode repo_dir jsonl_dir w
  = open_w_write (artifact_path jsonl_dir repo_dir) EmptyString
      (mkWorld (fs w)
         (log w ++ [EvPrint ("Converting repository '"
                             ++ OsPath.basename repo_dir
                             ++ "' to JSONL format...")])).
Proof.
  intros Hc Habs. rewrite convert_repo_cases, Habs.
  now rewrite (convert_walk_no_candidates _ _ _ Hc).
Qed.

End MoreWalk.

(** ** Walks that visit nothing *)

(** Below a root with a hidden part every root of the walk has one. *)
Lemma walk_node_hidden tree :
  names_ok tree = true ->
  forall top, hidden_root top = true ->
    Forall (fun t => hidden_root (fst (fst t)) = true) (Fs.walk_node top tree).
Proof.
  induction tree as [perm data|es IH] using node_induction; intros Hok top Htop.
  - constructor.
  - cbn [Fs.walk_node]. constructor; [exact Htop|].
    cbn [names_ok] in Hok. rewrite forallb_forall in Hok.
    rewrite Forall_forall in IH. apply Forall_forall. intros t Hin.
    apply in_flat_map in Hin. destruct Hin as (e & He & Hin).
    specialize (Hok _ He). apply andb_true_iff in Hok. destruct Hok as [Hn Hc].
    pose proof (IH _ He Hc (OsPath.join top (fst e))
                   (hidden_root_join_root _ _ (slashless_not_absolute _ Hn) Htop))
      as Hall.
    rewrite Forall_forall in Hall. now apply Hall.
Qed.

Lemma walk_candidates_hidden triples :
  Forall (fun t => hidden_root (fst (fst t)) = true) triples ->
  walk_candidates triples = [].
Proof.
  induction 1 as [|t triples Ht _ IH]; [reflexivity|].
  cbn [walk_candidates flat_map]. rewrite Ht. exact IH.
Qed.

Lemma walk_hidden_root (root : node) (repo_dir : string) :
  hidden_root repo_dir = true ->
  (forall tree, Fs.resolve root repo_dir = Some tree -> names_ok tree = true) ->
  walk_candidates (Fs.walk root repo_dir) = [].
Proof.
  intros Hh Hok. unfold Fs.walk.
  destruct (Fs.resolve root repo_dir) as [[perm data|es]|] eqn:E; try reflexivity.
  apply walk_candidates_hidden, walk_node_hidden; [now apply Hok | exact Hh].
Qed.

(** A script directory with a hidden part hides the clone root and all
    that is in it. *)
Lemma hidden_script_dir_hides_clone_root (script_dir repo : string) :
  hidden_root script_dir = true ->
  PyStr.startswith OsPath.sep repo = false ->
  hidden_root (OsPath.join (clone_root_dir script_dir) repo) = true.
Proof.
  intros Hs Hr. unfold clone_root_dir, github_root_dir, OsPath.join_all.
  cbn [fold_left].
  repeat (apply hidden_root_join_root; [assumption || reflexivity|]).
  exact Hs.
Qed.

Section EmptyWalks.
Variable detect : list Byte.byte -> option string.
Variable decode : list Byte.byte -> string -> decoded.

(** X5. The hidden test is on the whole path of a root, the path of the
    repository included.  So when the directory of the script has a part
    that begins with the marker, every repository of the clone root is
    converted without one file being opened, to an empty artifact. *)
Theorem hidden_script_dir_empties_every_artifact
        (script_dir repo : string) (w : world) :
  hidden_root script_dir = true ->
  PyStr.startswith OsPath.sep repo = false ->
  (forall tree,
      Fs.resolve (fs w) (OsPath.join (clone_root_dir script_dir) repo) = Some tree ->
      names_ok tree = true) ->
  Fs.exists_ (fs w)
             (artifact_path (jsonl_dir script_dir)
                            (OsPath.join (clone_root_dir script_dir) repo))
  = false ->
  exists msg,
    convert_repo_to_jsonl detect decode
      (OsPath.join (clone_root_dir script_dir) repo) (jsonl_dir script_dir) w
    = open_w_write
        (artifact_path (jsonl_dir script_dir)
                       (OsPath.join (clone_root_dir script_dir) repo))
        EmptyString
        (mkWorld (fs w) (log w ++ [EvPrint msg])).
Proof.
  intros Hs Hr Hok Habs. eexists.
  apply convert_repo_no_candidates; [|exact Habs].
  apply walk_hidden_root; [now apply hidden_script_dir_hides_clone_root | exact Hok].
Qed.

(** X6. [os.listdir] also lists what is not a directory.  For such an
    entry, or for a path that is not there, the walk yields nothing and the
    converter still writes an artifact, an empty one. *)
Theorem not_a_directory_gets_an_empty_artifact
        (repo_dir jsonl_dir : string) (w : world) :
  (forall es, Fs.resolve (fs w) repo_dir <> Some (Dir es)) ->
  Fs.exists_ (fs w) (artifact_path jsonl_dir repo_dir) = false ->
  (exists msg,
      convert_repo_to_jsonl detect decode repo_dir jsonl_dir w
      = open_w_write (artifact_path jsonl_dir repo_dir) EmptyString
          (mkWorld (fs w) (log w ++ [EvPrint msg])))
  /\ (forall fs',
         Fs.write_text (fs w) (artifact_path jsonl_dir repo_dir) EmptyString
         = Some fs' ->
         fst (convert_repo_to_jsonl detect decode repo_dir jsonl_dir w) = Ok tt
         /\ Fs.read_bytes fs' (artifact_path jsonl_dir repo_dir) = Some []).
Proof.
  intros Hnd Habs.
  assert (Hrun : convert_repo_to_jsonl detect decode repo_dir jsonl_dir w
                 = open_w_write (artifact_path jsonl_dir repo_dir) EmptyString
                     (mkWorld (fs w)
                        (log w ++ [EvPrint ("Converting repository '"
                                            ++ OsPath.basename repo_dir
                                            ++ "' to JSONL format...")]))).
  { apply convert_repo_no_candidates; [|exact Habs]. unfold Fs.walk.
    destruct (Fs.resolve (fs w) repo_dir) as [[perm data|es]|] eqn:E;
      try reflexivity.
    now destruct (Hnd es). }
  split; [eexists; exact Hrun|].
  intros fs' Hwr. rewrite Hrun. step. rewrite Hwr. split; [reflexivity|].
  assert (Hres : Fs.resolve (fs w) (artifact_path jsonl_dir repo_dir) = None).
  { unfold Fs.exists_ in Habs.
    destruct (Fs.resolve (fs w) (artifact_path jsonl_dir repo_dir));
      [discriminate | reflexivity]. }
  unfold Fs.read_bytes. unfold Fs.write_text in Hwr.
  now rewrite (resolve_place _ _ _ _ Hwr Hres).
Qed.

(** The converter loses nothing, whatever its result. *)
Lemma convert_repo_grows (repo_dir jsonl_dir : string) (w : world) r w' :
  convert_repo_to_jsonl detect decode repo_dir jsonl_dir w = (r, w') ->
  grows (fs w) (fs w').
Proof.
  rewrite convert_repo_cases.
  destruct (Fs.exists_ (fs w) (artifact_path jsonl_dir repo_dir)) eqn:Hex.
  - intros [= _ <-]. apply grows_refl.
  - destruct (convert_walk _ _ _ _ _) as [[docs|e] w1] eqn:Hw;
      destruct (read_only_convert_walk detect decode _ _ _ _ _ Hw) as (F & _);
      cbn [fs] in F.
    + step. rewrite F.
      destruct (Fs.write_text (fs w) _ _) as [fs'|] eqn:Hwr;
        intros [= _ <-]; cbn [fs]; [|apply grows_refl].
      assert (Hres : Fs.resolve (fs w) (artifact_path jsonl_dir repo_dir) = None).
      { unfold Fs.exists_ in Hex.
        destruct (Fs.resolve (fs w) _); [discriminate | reflexivity]. }
      exact (place_absent_grows _ _ _ _ Hwr Hres).
    + intros [= _ <-]. rewrite F. apply grows_refl.
Qed.

Lemma convert_all_grows root jsonl repos : forall w r w',
  convert_all detect decode root jsonl repos w = (r, w') ->
  grows (fs w) (fs w').
Proof.
  induction repos as [|repo repos IH]; intros w r w'; cbn [convert_all].
  - intros [= _ <-]. apply grows_refl.
  - unfold bind.
    destruct (convert_repo_to_jsonl _ _ _ _ w) as [[[]|e] w1] eqn:E1; intros H.
    + eapply grows_trans; [exact (convert_repo_grows _ _ _ _ _ E1)|].
      exact (IH _ _ _ H).
    + injection H as _ <-. exact (convert_repo_grows _ _ _ _ _ E1).
Qed.

(** X7. Whatever its result, a return or an exception, the conversion
    loop changes no file that was there and removes nothing: every file
    reads as before and every path that existed still does; and it runs no
    command. *)
Theorem conversion_never_touches_what_is_there
        (root jsonl : string) (repos : list string) (w : world)
        (r : result unit) (w' : world) :
  convert_all detect decode root jsonl repos w = (r, w') ->
  (forall p data, Fs.read_bytes (fs w) p = Some data ->
                  Fs.read_bytes (fs w') p = Some data)
  /\ (forall p, Fs.exists_ (fs w) p = true -> Fs.exists_ (fs w') p = true)
  /\ system_calls (log w') = system_calls (log w).
Proof.
  intros E. pose proof (convert_all_grows _ _ _ _ _ _ E) as G.
  split; [|split].
  - intros p data. now apply read_bytes_grows.
  - intros p. now apply exists_grows.
  - exact (quiet_convert_all _ _ _ _ _ _ _ _ E).
Qed.

End EmptyWalks.

(** ** The text of an artifact *)

Section AsciiFacts.

Lemma str_forallb_app f a b :
  str_forallb f (a ++ b) = str_forallb f a && str_forallb f b.
Proof.
  induction a as [|x a IH]; cbn [append str_forallb]; [reflexivity|].
  now rewrite IH, andb_assoc.
Qed.

Lemma escape_char_printable c : str_forallb printable (Json.escape_char c) = true.
Proof. destruct c as [[] [] [] [] [] [] [] []]; reflexivity. Qed.

Lemma escape_printable s : str_forallb printable (Json.escape s) = true.
Proof.
  induction s as [|c s IH]; cbn [Json.escape]; [reflexivity|].
  now rewrite str_forallb_app, escape_char_printable, IH.
Qed.

Lemma str_printable s : str_forallb printable (Json.str s) = true.
Proof.
  unfold Json.str. now rewrite !str_forallb_app, escape_printable.
Qed.

Lemma digit_printable d : 0 <= d < 10 -> printable (Json.digit d) = true.
Proof.
  intros H. unfold Json.digit.
  assert (Hk : (Z.to_nat d < 10)%nat) by lia.
  revert Hk. generalize (Z.to_nat d) as k. intros k Hk.
  do 10 (destruct k as [|k]; [reflexivity|]). lia.
Qed.

Lemma digits_printable fuel : forall n acc,
  str_forallb printable acc = true ->
  str_forallb printable (Json.digits fuel n acc) = true.
Proof.
  induction fuel as [|fuel IH]; intros n acc Hacc; cbn [Json.digits];
    [exact Hacc|].
  assert (Hd : printable (Json.digit (n mod 10)) = true)
    by (apply digit_printable, Z.mod_pos_bound; lia).
  destruct (n <? 10); [|apply IH]; cbn [str_forallb]; now rewrite Hd, Hacc.
Qed.

Lemma int_printable n : str_forallb printable (Json.int n) = true.
Proof.
  unfold Json.int. destruct (n <? 0).
  - change (str_forallb printable (String "-" ?s))
      with (printable "-" && str_forallb printable s).
    now rewrite digits_printable.
  - now apply digits_printable.
Qed.

Lemma dumps_printable d : str_forallb printable (Json.dumps d) = true.
Proof.
  unfold Json.dumps, Json.member.
  rewrite !str_forallb_app, !str_printable, !int_printable. reflexivity.
Qed.

Lemma str_forallb_weaken (f g : ascii -> bool) s :
  (forall c, f c = true -> g c = true) ->
  str_forallb f s = true -> str_forallb g s = true.
Proof.
  intros Hfg. induction s as [|c s IH]; cbn [str_forallb]; [reflexivity|].
  intros H. apply andb_true_iff in H. destruct H as [Hc Hs].
  now rewrite (Hfg _ Hc), IH.
Qed.

(** X8. Whatever the documents hold, the text written to an artifact is
    made of printable ASCII characters and newlines only: [json.dumps]
    escapes everything else. *)
Theorem artifact_text_is_ascii (docs : list document) :
  str_forallb (fun c => printable c || Ascii.eqb c newline) (jsonl_lines docs)
  = true.
Proof.
  induction docs as [|d docs IH]; [reflexivity|].
  rewrite jsonl_lines_cons, str_forallb_app. cbn [str_forallb].
  rewrite IH, Ascii.eqb_refl, orb_true_r.
  rewrite (str_forallb_weaken printable _ (Json.dumps d));
    [reflexivity | | apply dumps_printable].
  intros c ->. reflexivity.
Qed.

End AsciiFacts.

(** ** More on the file-system tree: [makedirs] *)

Section MakedirsFacts.
Import Fs.

Lemma get_snoc_inv root names c y :
  get root (names ++ [c]) = Some y ->
  exists es, get root names = Some (Dir es) /\ assoc c es = Some y.
Proof.
  rewrite get_app. destruct (get root names) as [[perm data|es]|];
    cbn [get]; try discriminate.
  intros H. exists es. split; [reflexivity|].
  destruct (assoc c es); [exact H | discriminate].
Qed.

(** After [makedirs_from] the components resolve, to a directory. *)
Lemma makedirs_from_dir cs : forall root acc root',
  makedirs_from root acc cs = Some root' ->
  exists acc' es,
    canon root' acc cs = Some acc' /\ get root' (rev acc') = Some (Dir es).
Proof.
  induction cs as [|c cs IH]; intros root acc root'; cbn [makedirs_from canon].
  - destruct (get root (rev acc)) as [[perm data|es]|] eqn:Hd; try discriminate.
    intros [= <-]. now exists acc, es.
  - destruct (get root (rev acc)) as [[perm data|es]|] eqn:Hd; try discriminate.
    destruct (is_skip c) eqn:Hs.
    { intros H. pose proof (makedirs_from_grows _ _ _ _ H) as G.
      destruct (grows_dir _ _ _ _ G Hd) as (es' & ->). now apply IH in H. }
    destruct (is_parent c) eqn:Hp.
    { intros H. pose proof (makedirs_from_grows _ _ _ _ H) as G.
      destruct (grows_dir _ _ _ _ G Hd) as (es' & ->). now apply IH in H. }
    destruct (assoc c es) as [x|] eqn:Hx; intros H.
    + pose proof (makedirs_from_grows _ _ _ _ H) as G.
      assert (Hget : get root (rev acc ++ [c]) = Some x).
      { rewrite get_app, Hd. cbn [get]. now rewrite Hx. }
      destruct (G _ _ Hget) as (x' & Hget' & _).
      destruct (get_snoc_inv _ _ _ _ Hget') as (es' & -> & ->). now apply IH in H.
    + pose proof (makedirs_from_grows _ _ _ _ H) as G.
      pose proof (put_get_same _ _ _ c (Dir []) Hd) as Hget.
      destruct (G _ _ Hget) as (x' & Hget' & _).
      destruct (get_snoc_inv _ _ _ _ Hget') as (es' & -> & ->). now apply IH in H.
Qed.

(** [os.makedirs(p, exist_ok=True)] leaves a directory at [p]. *)
Lemma makedirs_dir root p root' :
  makedirs root p = Some root' -> dir_at root' p.
Proof.
  unfold makedirs, dir_at, resolve.
  destruct (String.eqb p EmptyString); [discriminate|]. intros H.
  destruct (makedirs_from_dir _ _ _ _ H) as (acc' & es & -> & Hd). now exists es.
Qed.

Lemma dir_at_grows root root' p :
  grows root root' -> dir_at root p -> dir_at root' p.
Proof.
  intros G (es & H). destruct (resolve_grows _ _ _ _ G H) as (n' & H' & K).
  cbn in K. destruct n' as [perm data|es']; [discriminate|]. now exists es'.
Qed.

End MakedirsFacts.

(** ** More on the orchestrator *)

Section MoreOrchestrator.
Variable detect : list Byte.byte -> option string.
Variable decode : list Byte.byte -> string -> decoded.
Variable os_system : string -> node -> Z * node.
Variable read_json_lines : list Byte.byte -> option (list string).
Variable script_dir : string.

(** X9. Without the manifest nothing is done: the run raises
    [FileNotFoundError] before it makes a directory, reads a file or runs
    a command.  A manifest that is there but cannot be read or parsed is
    found out later: the run raises what the reading raises, and by then
    the two output directories have been made. *)
Theorem manifest_errors_of_the_run
        (src : option string) (limit : option Z) (w : world) :
  (Fs.exists_ (fs w) (manifest_path script_dir src) = false ->
   download_github_sources detect decode os_system read_json_lines script_dir
                           src limit w
   = (Raise (FileNotFoundError
               ("File '" ++ manifest_path script_dir src ++ "' not found.")),
      w))
  /\ (forall fs1 fs2 e,
         Fs.exists_ (fs w) (manifest_path script_dir src) = true ->
         Fs.makedirs (fs w) (clone_root_dir script_dir) = Some fs1 ->
         Fs.makedirs fs1 (jsonl_dir script_dir) = Some fs2 ->
         fst (read_urls read_json_lines (manifest_path script_dir src)
                        (mkWorld fs2 (log w))) = Raise e ->
         download_github_sources detect decode os_system read_json_lines
                                 script_dir src limit w
         = (Raise e, mkWorld fs2 (log w))).
Proof.
  split.
  - intros H. unfold download_github_sources.
    fold (manifest_path script_dir src).
    unfold bind at 1. unfold path_exists at 1. now rewrite H.
  - intros fs1 fs2 e Hex Hm1 Hm2 Hr. unfold download_github_sources.
    fold (manifest_path script_dir src).
    unfold bind at 1. unfold path_exists at 1. rewrite Hex. cbn [negb].
    unfold bind at 1. unfold makedirs at 1. rewrite Hm1.
    unfold bind at 1. unfold makedirs at 1. cbn [fs log]. rewrite Hm2.
    unfold bind at 1.
    destruct (read_urls read_json_lines _ (mkWorld fs2 (log w))) as [r w1] eqn:E.
    cbn [fst] in Hr. subst r. unfold read_urls in E.
    destruct (Fs.read_bytes _ _) as [data|]; [destruct (read_json_lines data)|];
      now injection E as _ <-.
Qed.

Lemma subseq_nil_l {A} (xs : list A) : subseq [] xs.
Proof. induction xs; constructor; assumption. Qed.

Lemma subseq_firstn {A} n (xs : list A) : subseq (firstn n xs) xs.
Proof.
  revert n; induction xs as [|x xs IH]; intros [|n]; cbn [firstn].
  - constructor.
  - constructor.
  - apply subseq_nil_l.
  - apply subseq_take, IH.
Qed.

Lemma subseq_trans {A} (a b c : list A) : subseq a b -> subseq b c -> subseq a c.
Proof.
  intros Hab Hbc. revert a Hab.
  induction Hbc as [|x b c Hbc IH|x b c Hbc IH]; intros a Hab.
  - exact Hab.
  - apply subseq_skip. now apply IH.
  - inversion Hab; subst.
    + apply subseq_skip. now apply IH.
    + apply subseq_take. now apply IH.
Qed.

Lemma apply_limit_subseq limit (urls : list string) :
  subseq (apply_limit limit urls) urls.
Proof.
  assert (Hrefl : subseq urls urls)
    by (induction urls; [constructor | now apply subseq_take]).
  unfold apply_limit, slice_list. destruct limit as [k|]; [|exact Hrefl].
  destruct (k =? 0); [exact Hrefl|].
  destruct (0 <=? k); apply subseq_firstn.
Qed.

(** The commands of the clone loop are clone commands of entries of the
    list, in order. *)
Lemma clone_all_commands root urls : forall w,
  exists sub fs' evs,
    clone_all os_system root urls w = (Ok tt, mkWorld fs' (log w ++ evs))
    /\ system_calls evs = map (clone_cmd root) sub
    /\ subseq sub urls.
Proof.
  induction urls as [|url urls IH]; intros w.
  - exists [], (fs w), []. cbn. rewrite app_nil_r, world_eta.
    repeat split. constructor.
  - cbn [clone_all]. step. fold (clone_dir_of root url). fold (clone_cmd root url).
    destruct (Fs.exists_ (fs w) (clone_dir_of root url)).
    + match goal with
      | |- context [clone_all _ _ _ ?w1] =>
          destruct (IH w1) as (sub & fs' & evs & -> & Hs & Hsub)
      end.
      exists sub, fs'. eexists. cbn [log]. rewrite <- app_assoc.
      split; [reflexivity|]. split; [exact Hs | now apply subseq_skip].
    + destruct (os_system (clone_cmd root url) (fs w)) as [code fs1].
      destruct (negb (code =? 0));
        match goal with
        | |- context [clone_all _ _ _ ?w1] =>
            destruct (IH w1) as (sub & fs' & evs & -> & Hs & Hsub)
        end;
        exists (url :: sub), fs'; eexists; cbn [log]; rewrite <- !app_assoc;
        (split; [reflexivity|]);
        (split; [unfold system_calls in *; cbn [flat_map app map];
                 now rewrite Hs
                | now apply subseq_take]).
Qed.

Lemma quiet_conversion_tail (w : world) :
  system_calls
    (log (snd ((repos <- listdir (clone_root_dir script_dir) ;;
                convert_all detect decode (clone_root_dir script_dir)
                            (jsonl_dir script_dir) repos ;;
                ret (jsonl_dir script_dir)) w)))
  = system_calls (log w).
Proof.
  unfold bind at 1. unfold listdir.
  destruct (Fs.listdir (fs w) (clone_root_dir script_dir)) as [repos|];
    [|reflexivity].
  unfold bind.
  destruct (convert_all _ _ _ _ repos w) as [[[]|e] w1] eqn:Hc; cbn [snd ret];
    exact (quiet_convert_all _ _ _ _ _ _ _ _ Hc).
Qed.

(** X10. The only commands a run issues are [git clone] commands for
    entries of the manifest, within the cap, into the clone root, in the
    order of the manifest and at most one for each entry. *)
Theorem run_only_clones_manifest_entries
        (src : option string) (limit : option Z) (w : world)
        (data : list Byte.byte) (urls : list string) :
  Fs.read_bytes (fs w) (manifest_path script_dir src) = Some data ->
  read_json_lines data = Some urls ->
  exists sub,
    subseq sub (apply_limit limit urls)
    /\ subseq sub urls
    /\ system_calls
         (log (snd (download_github_sources detect decode os_system
                      read_json_lines script_dir src limit w)))
       = (system_calls (log w)
          ++ map (clone_cmd (clone_root_dir script_dir)) sub)%list.
Proof.
  intros Hread Hparse.
  assert (Hnone : system_calls (log w)
                  = (system_calls (log w)
                     ++ map (clone_cmd (clone_root_dir script_dir)) [])%list)
    by (cbn; now rewrite app_nil_r).
  destruct (Fs.makedirs (fs w) (clone_root_dir script_dir)) as [fs1|] eqn:Hm1.
  2:{ exists []. split; [apply subseq_nil_l|]. split; [apply subseq_nil_l|].
      unfold download_github_sources. fold (manifest_path script_dir src).
      unfold bind at 1. unfold path_exists at 1.
      rewrite (read_bytes_exists _ _ _ Hread). cbn [negb].
      unfold bind at 1. unfold makedirs at 1. rewrite Hm1. exact Hnone. }
  destruct (Fs.makedirs fs1 (jsonl_dir script_dir)) as [fs2|] eqn:Hm2.
  2:{ exists []. split; [apply subseq_nil_l|]. split; [apply subseq_nil_l|].
      unfold download_github_sources. fold (manifest_path script_dir src).
      unfold bind at 1. unfold path_exists at 1.
      rewrite (read_bytes_exists _ _ _ Hread). cbn [negb].
      unfold bind at 1. unfold makedirs at 1. rewrite Hm1.
      unfold bind at 1. unfold makedirs at 1. cbn [fs log]. rewrite Hm2.
      exact Hnone. }
  rewrite (download_cases detect decode os_system read_json_lines script_dir
             src limit w data urls fs1 fs2) by assumption.
  destruct (clone_all_commands (clone_root_dir script_dir)
              (apply_limit limit urls) (mkWorld fs2 (log w)))
    as (sub & fs' & evs & Hclone & Hs & Hsub).
  exists sub. split; [exact Hsub|].
  split; [exact (subseq_trans _ _ _ Hsub (apply_limit_subseq limit urls))|].
  unfold bind at 1. rewrite Hclone. rewrite quiet_conversion_tail.
  cbn [log]. now rewrite system_calls_app, Hs.
Qed.

(** X11. Two entries with the same base name share a clone directory: once
    the clone of the first has left that directory, the second, whatever
    repository it names, is skipped and never cloned. *)
Theorem same_basename_is_cloned_once
        (root u1 u2 : string) (rest : list string) (w : world) :
  OsPath.basename u1 = OsPath.basename u2 ->
  Fs.exists_ (fs w) (clone_dir_of root u1) = false ->
  Fs.exists_ (snd (os_system (clone_cmd root u1) (fs w))) (clone_dir_of root u1)
  = true ->
  exists w1,
    clone_all os_system root (u1 :: u2 :: rest) w = clone_all os_system root rest w1
    /\ fs w1 = snd (os_system (clone_cmd root u1) (fs w))
    /\ system_calls (log w1) = (system_calls (log w) ++ [clone_cmd root u1])%list
    /\ In (skip_event u2) (log w1).
Proof.
  intros Hb Habs Hthere.
  assert (Hdir : clone_dir_of root u2 = clone_dir_of root u1)
    by (unfold clone_dir_of; now rewrite Hb).
  cbn [clone_all]. step.
  fold (clone_dir_of root u1). fold (clone_cmd root u1).
  fold (clone_dir_of root u2). rewrite Habs.
  destruct (os_system (clone_cmd root u1) (fs w)) as [code fs1].
  cbn [snd] in Hthere. rewrite Hdir.
  destruct (negb (code =? 0)); step; rewrite Hthere;
    eexists; (split; [reflexivity|]); cbn [fs log];
    (split; [reflexivity|]);
    (split; [rewrite !system_calls_app; cbn; now rewrite !app_nil_r|]);
    apply in_or_app; right; left; reflexivity.
Qed.

(** X12. When the two output directories can be made, the clone loop
    starts over files where both are directories and where nothing that
    was there is lost. *)
Theorem clone_loop_starts_with_both_directories
        (src : option string) (limit : option Z) (w : world)
        (data : list Byte.byte) (urls : list string) (fs1 fs2 : node) :
  Fs.read_bytes (fs w) (manifest_path script_dir src) = Some data ->
  read_json_lines data = Some urls ->
  Fs.makedirs (fs w) (clone_root_dir script_dir) = Some fs1 ->
  Fs.makedirs fs1 (jsonl_dir script_dir) = Some fs2 ->
  download_github_sources detect decode os_system read_json_lines script_dir
                          src limit w
  = (clone_all os_system (clone_root_dir script_dir) (apply_limit limit urls) ;;
     repos <- listdir (clone_root_dir script_dir) ;;
     convert_all detect decode (clone_root_dir script_dir)
                 (jsonl_dir script_dir) repos ;;
     ret (jsonl_dir script_dir)) (mkWorld fs2 (log w))
  /\ dir_at fs2 (clone_root_dir script_dir)
  /\ dir_at fs2 (jsonl_dir script_dir)
  /\ grows (fs w) fs2.
Proof.
  intros Hread Hparse Hm1 Hm2.
  split; [now apply (download_cases detect decode os_system read_json_lines
                       script_dir src limit w data urls fs1 fs2)|].
  pose proof (makedirs_grows _ _ _ Hm1) as G1.
  pose proof (makedirs_grows _ _ _ Hm2) as G2.
  split; [|split].
  - exact (dir_at_grows _ _ _ G2 (makedirs_dir _ _ _ Hm1)).
  - exact (makedirs_dir _ _ _ Hm2).
  - exact (grows_trans _ _ _ G1 G2).
Qed.

(** X13. When the conversion loop returns, the artifact of every entry
    [repo] it was given is the file [repo.jsonl] of the output directory. *)
Theorem artifacts_are_named_after_entries
        (root jsonl : string) (repos : list string) (w w' : world) :
  Forall (fun repo => slashless repo = true) repos ->
  convert_all detect decode root jsonl repos w = (Ok tt, w') ->
  Forall (fun repo =>
            Fs.exists_ (fs w') (OsPath.join jsonl (repo ++ ".jsonl")) = true
            /\ artifact_path jsonl (OsPath.join root repo)
               = OsPath.join jsonl (repo ++ ".jsonl")) repos.
Proof.
  intros Hs Hrun.
  destruct (convert_all_returns detect decode root jsonl repos w w' Hrun)
    as [_ Hall].
  rewrite Forall_forall in *. intros repo Hin.
  assert (E : artifact_path jsonl (OsPath.join root repo)
              = OsPath.join jsonl (repo ++ ".jsonl")).
  { unfold artifact_path. now rewrite (basename_join _ _ (Hs _ Hin)). }
  split; [|exact E]. rewrite <- E. now apply Hall.
Qed.

Lemma convert_all_skips root jsonl repos : forall w,
  Forall (fun repo =>
            Fs.exists_ (fs w) (artifact_path jsonl (OsPath.join root repo))
            = true) repos ->
  convert_all detect decode root jsonl repos w
  = (Ok tt,
     mkWorld (fs w)
       (log w ++ map (fun repo => converted_event (OsPath.join root repo)) repos)).
Proof.
  induction repos as [|repo repos IH]; intros w Hall.
  - cbn. now rewrite app_nil_r, world_eta.
  - inversion Hall as [|? ? Hex Hrest]; subst.
    cbn [convert_all]. unfold bind at 1.
    rewrite convert_repo_cases, Hex.
    rewrite IH by exact Hrest. cbn [fs log map]. now rewrite <- app_assoc.
Qed.

(** X17. The conversion loop is idempotent: run again over the entries of
    a run that returned, it changes no file and opens none; it prints,
    for every entry, that the entry is converted. *)
Theorem second_conversion_only_prints
        (root jsonl : string) (repos : list string) (w w1 : world) :
  convert_all detect decode root jsonl repos w = (Ok tt, w1) ->
  convert_all detect decode root jsonl repos w1
  = (Ok tt,
     mkWorld (fs w1)
       (log w1 ++ map (fun repo => converted_event (OsPath.join root repo)) repos)).
Proof.
  intros Hrun. apply convert_all_skips.
  exact (proj2 (convert_all_returns detect decode root jsonl repos w w1 Hrun)).
Qed.

End MoreOrchestrator.

(* ================================================================= *)
(** ** Failure isolation *)

Section ListingFacts.
Import Fs PyStr.

Lemma assoc_in k es v : assoc k es = Some v -> In k (map fst es).
Proof.
  induction es as [|[k' v'] es IH]; cbn [assoc map fst]; [discriminate|].
  destruct (String.eqb_spec k k') as [->|Hne]; [now left|].
  intros H. right. now apply IH.
Qed.

Lemma append_nonempty a c b : String.eqb (a ++ String c b) EmptyString = false.
Proof. destruct a; reflexivity. Qed.

Lemma proper_name_inv name :
  proper_name name = true ->
  count OsPath.sep name = 0 /\ is_skip name = false /\ is_parent name = false.
Proof.
  unfold proper_name, slashless. intros H.
  apply andb_prop in H as [H Hp]. apply andb_prop in H as [Hs Hk].
  apply negb_true_iff in Hp, Hk. apply Z.eqb_eq in Hs. now repeat split.
Qed.

(** The path [p/name] resolves to the entry [name] of the directory at
    [p]. *)
Lemma resolve_entry root p name :
  proper_name name = true ->
  resolve root (p ++ String OsPath.sep name)
  = match canon root [] (split OsPath.sep p) with
    | Some acc =>
        match get root (rev acc) with
        | Some (Dir es) => assoc name es
        | _ => None
        end
    | None => None
    end.
Proof.
  intros H. destruct (proper_name_inv _ H) as (Hs & Hk & Hp).
  unfold resolve. rewrite append_nonempty.
  rewrite split_app_sep, (split_slashless _ name Hs), canon_app.
  destruct (canon root [] (split OsPath.sep p)) as [acc|]; [|reflexivity].
  cbn [canon].
  destruct (get root (rev acc)) as [[perm data|es]|] eqn:Hd; try reflexivity.
  rewrite Hk, Hp. destruct (assoc name es) as [x|] eqn:Hx; [|reflexivity].
  cbn [rev]. rewrite get_app, Hd. cbn [get]. now rewrite Hx.
Qed.

Lemma listdir_inv root p names :
  listdir root p = Some names ->
  exists acc es,
    canon root [] (split OsPath.sep p) = Some acc
    /\ get root (rev acc) = Some (Dir es)
    /\ names = map fst es.
Proof.
  unfold listdir, resolve.
  destruct (String.eqb p EmptyString); [discriminate|].
  destruct (canon root [] (split OsPath.sep p)) as [acc|]; [|discriminate].
  destruct (get root (rev acc)) as [[perm data|es]|] eqn:Hd; try discriminate.
  intros [= <-]. now exists acc, es.
Qed.

(** What is at [join p name] is listed by [os.listdir(p)]. *)
Lemma exists_join_listed root p name names :
  listdir root p = Some names ->
  proper_name name = true ->
  exists_ root (OsPath.join p name) = true ->
  In name names.
Proof.
  intros Hl Hn.
  destruct (proper_name_inv _ Hn) as (Hs & _ & _).
  assert (Hs' : slashless name = true) by (unfold slashless; now rewrite Hs).
  destruct (join_cases p name (slashless_not_absolute _ Hs'))
    as [[_ ->] | [(p' & -> & ->) | ->]].
  - discriminate Hl.
  - destruct (listdir_inv _ _ _ Hl) as (acc & es & Hc & Hd & ->).
    unfold exists_. rewrite (resolve_entry _ _ _ Hn).
    rewrite split_app_sep, canon_app in Hc.
    destruct (canon root [] (split OsPath.sep p')) as [acc1|]; [|discriminate].
    cbn [split canon] in Hc.
    destruct (get root (rev acc1)) as [[perm data|es1]|] eqn:Hd1; try discriminate.
    change (is_skip EmptyString) with true in Hc. cbv iota in Hc.
    injection Hc as <-. rewrite Hd1 in Hd. injection Hd as <-.
    destruct (assoc name es1) as [x|] eqn:Hx; [|discriminate].
    intros _. exact (assoc_in _ _ _ Hx).
  - destruct (listdir_inv _ _ _ Hl) as (acc & es & Hc & Hd & ->).
    unfold exists_. rewrite (resolve_entry _ _ _ Hn), Hc, Hd.
    destruct (assoc name es) as [x|] eqn:Hx; [|discriminate].
    intros _. exact (assoc_in _ _ _ Hx).
Qed.

End ListingFacts.

Section Isolation.
Variable detect : list Byte.byte -> option string.
Variable decode : list Byte.byte -> string -> decoded.
Variable os_system : string -> node -> Z * node.
Variable read_json_lines : list Byte.byte -> option (list string).
Variable script_dir : string.

(** Where every command only adds to the files, so does the clone loop. *)
Lemma clone_all_grows root urls : forall w,
  (forall cmd tree, grows tree (snd (os_system cmd tree))) ->
  grows (fs w) (fs (snd (clone_all os_system root urls w))).
Proof.
  induction urls as [|url urls IH]; intros w Hadd; [apply grows_refl|].
  cbn [clone_all]. step.
  destruct (Fs.exists_ (fs w) _).
  - match goal with
    | |- context [clone_all _ _ _ ?w1] => exact (IH w1 Hadd)
    end.
  - pose proof (Hadd ("git clone https://github.com/" ++ url ++ " "
                      ++ OsPath.join root (OsPath.basename url)) (fs w)) as G.
    destruct (os_system _ (fs w)) as [code fs1]. cbn [snd] in G.
    destruct (negb (code =? 0));
      match goal with
      | |- context [clone_all _ _ _ ?w1] =>
          exact (grows_trans _ _ _ G (IH w1 Hadd))
      end.
Qed.

(** When the run returns, what is in the clone root after the clone loop
    has its artifact. *)
Lemma run_converts_what_is_there
      (src : option string) (limit : option Z) (w : world)
      (data : list Byte.byte) (urls : list string) (fs1 fs2 : node)
      (r : string) (w' : world) (name : string) :
  Fs.read_bytes (fs w) (manifest_path script_dir src) = Some data ->
  read_json_lines data = Some urls ->
  Fs.makedirs (fs w) (clone_root_dir script_dir) = Some fs1 ->
  Fs.makedirs fs1 (jsonl_dir script_dir) = Some fs2 ->
  download_github_sources detect decode os_system read_json_lines script_dir
                          src limit w = (Ok r, w') ->
  proper_name name = true ->
  Fs.exists_
    (fs (snd (clone_all os_system (clone_root_dir script_dir)
                (apply_limit limit urls) (mkWorld fs2 (log w)))))
    (OsPath.join (clone_root_dir script_dir) name) = true ->
  Fs.exists_ (fs w')
    (artifact_path (jsonl_dir script_dir)
                   (OsPath.join (clone_root_dir script_dir) name)) = true.
Proof.
  intros Hread Hparse Hm1 Hm2 Hrun Hn Hex.
  rewrite (download_cases detect decode os_system read_json_lines script_dir
             src limit w data urls fs1 fs2) in Hrun by assumption.
  unfold bind at 1 in Hrun.
  destruct (clone_all os_system (clone_root_dir script_dir)
              (apply_limit limit urls) (mkWorld fs2 (log w)))
    as [[[]|e] w1]; [|discriminate].
  cbn [snd] in Hex.
  unfold bind at 1 in Hrun. unfold listdir in Hrun.
  destruct (Fs.listdir (fs w1) (clone_root_dir script_dir)) as [repos|] eqn:Hl;
    [|discriminate].
  unfold bind in Hrun.
  destruct (convert_all detect decode (clone_root_dir script_dir)
              (jsonl_dir script_dir) repos w1) as [[[]|e] w2] eqn:Hc;
    [|discriminate].
  cbn [ret] in Hrun. injection Hrun as _ <-.
  destruct (convert_all_returns detect decode _ _ _ _ _ Hc) as [_ Hall].
  rewrite Forall_forall in Hall. apply Hall.
  exact (exists_join_listed _ _ _ _ Hl Hn Hex).
Qed.

(** C2, as the code has it.  A failed clone stops nothing: the clone loop
    always runs to its end (1), every entry whose directory is missing
    when its turn comes is cloned, whatever happened to the entries before
    it (2), and the run goes on to list the clone root and to convert (3).
    When the run returns, every entry whose directory is in the clone root
    after the clone loop is converted: it has its artifact (4); where
    commands only add to the files, these are the entries whose directory
    was there after their turn, already present or left by their clone
    (5).  An exception raised while one repository is converted is a
    different matter: nothing catches it, it ends the conversion loop and
    the run there, and the repositories listed after it are not converted
    (6). *)
Theorem clone_failures_are_isolated :
  (forall root urls w,
      exists fs' evs,
        clone_all os_system root urls w = (Ok tt, mkWorld fs' (log w ++ evs)))
  /\ (forall root l1 url l2 w,
         Fs.exists_ (fs (snd (clone_all os_system root l1 w)))
                    (clone_dir_of root url) = false ->
         In (clone_cmd root url)
            (system_calls
               (log (snd (clone_all os_system root (l1 ++ url :: l2) w)))))
  /\ (forall src limit w data urls fs1 fs2,
         Fs.read_bytes (fs w) (manifest_path script_dir src) = Some data ->
         read_json_lines data = Some urls ->
         Fs.makedirs (fs w) (clone_root_dir script_dir) = Some fs1 ->
         Fs.makedirs fs1 (jsonl_dir script_dir) = Some fs2 ->
         exists w1,
           clone_all os_system (clone_root_dir script_dir)
                     (apply_limit limit urls) (mkWorld fs2 (log w))
           = (Ok tt, w1)
           /\ download_github_sources detect decode os_system read_json_lines
                                      script_dir src limit w
              = (repos <- listdir (clone_root_dir script_dir) ;;
                 convert_all detect decode (clone_root_dir script_dir)
                             (jsonl_dir script_dir) repos ;;
                 ret (jsonl_dir script_dir)) w1)
  /\ (forall src limit w data urls fs1 fs2 r w' url,
         Fs.read_bytes (fs w) (manifest_path script_dir src) = Some data ->
         read_json_lines data = Some urls ->
         Fs.makedirs (fs w) (clone_root_dir script_dir) = Some fs1 ->
         Fs.makedirs fs1 (jsonl_dir script_dir) = Some fs2 ->
         download_github_sources detect decode os_system read_json_lines
                                 script_dir src limit w = (Ok r, w') ->
         proper_name (OsPath.basename url) = true ->
         Fs.exists_
           (fs (snd (clone_all os_system (clone_root_dir script_dir)
                       (apply_limit limit urls) (mkWorld fs2 (log w)))))
           (clone_dir_of (clone_root_dir script_dir) url) = true ->
         Fs.exists_ (fs w')
           (artifact_path (jsonl_dir script_dir)
                          (clone_dir_of (clone_root_dir script_dir) url)) = true)
  /\ (forall src limit w data urls fs1 fs2 r w' l1 url l2,
         (forall cmd tree, grows tree (snd (os_system cmd tree))) ->
         Fs.read_bytes (fs w) (manifest_path script_dir src) = Some data ->
         read_json_lines data = Some urls ->
         Fs.makedirs (fs w) (clone_root_dir script_dir) = Some fs1 ->
         Fs.makedirs fs1 (jsonl_dir script_dir) = Some fs2 ->
         download_github_sources detect decode os_system read_json_lines
                                 script_dir src limit w = (Ok r, w') ->
         apply_limit limit urls = (l1 ++ url :: l2)%list ->
         proper_name (OsPath.basename url) = true ->
         Fs.exists_
           (fs (snd (clone_all os_system (clone_root_dir script_dir)
                       (l1 ++ [url]) (mkWorld fs2 (log w)))))
           (clone_dir_of (clone_root_dir script_dir) url) = true ->
         Fs.exists_ (fs w')
           (artifact_path (jsonl_dir script_dir)
                          (clone_dir_of (clone_root_dir script_dir) url)) = true)
  /\ (forall root jsonl l1 repo l2 w w1 e w2,
         convert_all detect decode root jsonl l1 w = (Ok tt, w1) ->
         convert_repo_to_jsonl detect decode (OsPath.join root repo) jsonl w1
         = (Raise e, w2) ->
         convert_all detect decode root jsonl (l1 ++ repo :: l2) w
         = (Raise e, w2)).
Proof.
  split; [exact (clone_all_returns os_system)|].
  split; [|split; [|split; [|split]]].
  - intros root l1 url l2 w Habs. rewrite clone_all_app.
    destruct (clone_all_attempts os_system root url l2 _ Habs) as (evs & ->).
    rewrite system_calls_app. apply in_or_app. right. now left.
  - intros src limit w data urls fs1 fs2 Hread Hparse Hm1 Hm2.
    destruct (clone_all_returns os_system (clone_root_dir script_dir)
                (apply_limit limit urls) (mkWorld fs2 (log w)))
      as (fs' & evs & Hclone).
    eexists. split; [exact Hclone|].
    rewrite (download_cases detect decode os_system read_json_lines script_dir
               src limit w data urls fs1 fs2) by assumption.
    unfold bind at 1. now rewrite Hclone.
  - intros src limit w data urls fs1 fs2 r w' url
           Hread Hparse Hm1 Hm2 Hrun Hn Hex.
    exact (run_converts_what_is_there src limit w data urls fs1 fs2 r w'
             (OsPath.basename url) Hread Hparse Hm1 Hm2 Hrun Hn Hex).
  - intros src limit w data urls fs1 fs2 r w' l1 url l2
           Hadd Hread Hparse Hm1 Hm2 Hrun Hcut Hn Hex.
    apply (run_converts_what_is_there src limit w data urls fs1 fs2 r w'
             (OsPath.basename url) Hread Hparse Hm1 Hm2 Hrun Hn).
    fold (clone_dir_of (clone_root_dir script_dir) url).
    rewrite Hcut.
    change (l1 ++ url :: l2)%list with (l1 ++ [url] ++ l2)%list.
    rewrite app_assoc, clone_all_app.
    eapply exists_grows; [|exact Hex].
    apply clone_all_grows. exact Hadd.
  - exact (convert_all_raises detect decode).
Qed.

End Isolation.

(** The sample clone collaborator only adds to the files. *)
Lemma git_remote_grows remote cmd tree :
  grows tree (snd (Sample.git_remote remote cmd tree)).
Proof.
  unfold Sample.git_remote.
  destruct (PyStr.split " "%char cmd) as [|a [|b [|url [|dir [|x rest]]]]];
    try apply grows_refl.
  destruct (Fs.assoc url remote) as [repo|]; [|apply grows_refl].
  destruct (Fs.exists_ tree dir) eqn:Hex; [apply grows_refl|].
  destruct (Fs.place tree dir repo) as [tree'|] eqn:Hp; [|apply grows_refl].
  cbn [snd]. apply (place_absent_grows _ _ _ _ Hp).
  unfold Fs.exists_ in Hex.
  destruct (Fs.resolve tree dir); [discriminate | reflexivity].
Qed.

(** The scenario of the specification: of three entries the second cannot
    be cloned.  All three clones are attempted, the failure is printed and
    leaves no directory, and the first and the third entry are converted. *)
Example second_clone_fails_others_converted :
  let '(r, w') := Sample.run Sample.remote (Sample.app Sample.three []) None in
  r = Ok Sample.jsonl_root
  /\ system_calls (log w') = map (clone_cmd Sample.clone_root) Sample.three
  /\ In (EvPrint "Failed to clone repository 'nothing' from 'nobody/nothing'.")
        (log w')
  /\ Fs.exists_ (fs w') (clone_dir_of Sample.clone_root "nobody/nothing") = false
  /\ Fs.exists_ (fs w') (artifact_path Sample.jsonl_root "hello-world") = true
  /\ Fs.exists_ (fs w') (artifact_path Sample.jsonl_root "nothing") = false
  /\ Fs.exists_ (fs w') (artifact_path Sample.jsonl_root "spoon-knife") = true.
Proof.
  vm_compute. do 2 (split; [reflexivity|]).
  split; [repeat (first [left; reflexivity | right])|].
  repeat split; reflexivity.
Qed.

Lemma clone_failures_are_isolated_witness :
  Fs.exists_
    (fs (snd (Sample.run Sample.remote (Sample.app Sample.three []) None)))
    (artifact_path Sample.jsonl_root
                   (clone_dir_of Sample.clone_root "octocat/spoon-knife"))
  = true.
Proof.
  refine (proj1 (proj2 (proj2 (proj2 (proj2
            (clone_failures_are_isolated
               Sample.ascii_detect Sample.ascii_decode
               (Sample.git_remote Sample.remote) Sample.read_lines
               Sample.script_dir)))))
            None None (mkWorld (Sample.app Sample.three []) [])
            (Sample.manifest Sample.three) Sample.three
            (Sample.made (Sample.app Sample.three []) Sample.clone_root)
            (Sample.made
               (Sample.made (Sample.app Sample.three []) Sample.clone_root)
               Sample.jsonl_root)
            Sample.jsonl_root
            (snd (Sample.run Sample.remote (Sample.app Sample.three []) None))
            ["octocat/hello-world"; "nobody/nothing"] "octocat/spoon-knife" []
            (git_remote_grows Sample.remote) _ _ _ _ _ _ _ _);
    vm_compute; reflexivity.
Defined.

(** C2, as stated, fails.  A repository with a file that cannot be opened
    is in the clone root next to a sound one.  Whichever of the two the
    directory lists first, the run ends with the exception of the [open];
    where the failing one is listed first, the sound one, which converts
    without fault when it is reached, is left without an artifact. *)
Lemma walk_failure_aborts_the_run :
  (let '(r, w') :=
     Sample.run Sample.remote
                (Sample.app ["octocat/hello-world"]
                            [("locked", Sample.locked);
                             ("hello-world", Sample.hello_world)])
                None in
   r = Raise (OSError "/app/data/raw/github/repos/locked/notes.txt")
   /\ system_calls (log w') = []
   /\ Fs.exists_ (fs w') (artifact_path Sample.jsonl_root "locked") = false
   /\ Fs.exists_ (fs w') (artifact_path Sample.jsonl_root "hello-world") = false)
  /\ (let '(r, w') :=
        Sample.run Sample.remote
                   (Sample.app ["octocat/hello-world"]
                               [("hello-world", Sample.hello_world);
                                ("locked", Sample.locked)])
                   None in
      r = Raise (OSError "/app/data/raw/github/repos/locked/notes.txt")
      /\ system_calls (log w') = []
      /\ Fs.exists_ (fs w') (artifact_path Sample.jsonl_root "locked") = false
      /\ Fs.exists_ (fs w') (artifact_path Sample.jsonl_root "hello-world") = true).
Proof. vm_compute. repeat split; reflexivity. Qed.

(** ** [downloaders.py] and [download_wikipedia.py] *)

Section DownloaderFacts.
Variable read_json_lines : list Byte.byte -> option (list string).
Variable script_dir : string.
Variable download_and_extract :
  source_kind -> string -> bool -> list string -> list string -> M unit.

Lemma read_urls_reads (p : string) (w : world) data urls :
  Fs.read_bytes (fs w) p = Some data ->
  read_json_lines data = Some urls ->
  read_urls read_json_lines p w = (Ok urls, w).
Proof. intros Hr Hp. unfold read_urls. now rewrite Hr, Hp. Qed.

Lemma read_urls_same_world (p : string) (w : world) r w' :
  read_urls read_json_lines p w = (r, w') -> w' = w.
Proof.
  unfold read_urls. destruct (Fs.read_bytes (fs w) p) as [data|];
    [destruct (read_json_lines data)|]; now intros [= _ <-].
Qed.

(** X14. The two modules differ on an output directory that is given:
    [download_wikipedia.py] makes a directory only when it falls back on
    the default one, and hands a given one to the library as it finds it;
    [downloaders.py] makes the directory in both cases, so the library
    starts with a directory there, or is not called at all.  Without an
    output directory given the two functions are the same. *)
Theorem given_output_dir_is_made_by_downloaders_only
        (src : option string) (out : string) (limit : option Z) (w : world)
        (data : list Byte.byte) (urls : list string) :
  Fs.read_bytes (fs w) (source_links script_dir "wikipedia_urls.jsonl" src)
  = Some data ->
  read_json_lines data = Some urls ->
  DownloadWikipedia.download_wikipedia_sources
    read_json_lines script_dir download_and_extract src (Some out) limit w
  = (download_and_extract DAPTtxt out false (apply_limit limit urls)
                          (output_paths out (apply_limit limit urls)) ;;
     ret out) w
  /\ Downloaders.download_wikipedia_sources
       read_json_lines script_dir download_and_extract src (Some out) limit w
     = match Fs.makedirs (fs w) out with
       | Some fs1 =>
           (download_and_extract DAPTtxt out false (apply_limit limit urls)
                                 (output_paths out (apply_limit limit urls)) ;;
            ret out) (mkWorld fs1 (log w))
       | None => (Raise (OSError out), w)
       end
  /\ (forall fs1, Fs.makedirs (fs w) out = Some fs1 ->
                  dir_at fs1 out /\ grows (fs w) fs1)
  /\ DownloadWikipedia.download_wikipedia_sources
       read_json_lines script_dir download_and_extract src None limit w
     = Downloaders.download_wikipedia_sources
         read_json_lines script_dir download_and_extract src None limit w.
Proof.
  intros Hread Hparse. split; [|split; [|split]].
  - unfold DownloadWikipedia.download_wikipedia_sources.
    unfold bind at 1. unfold path_exists at 1.
    rewrite (read_bytes_exists _ _ _ Hread). cbn [negb].
    unfold bind at 1. unfold ret at 1.
    unfold bind at 1. now rewrite (read_urls_reads _ _ _ _ Hread Hparse).
  - unfold Downloaders.download_wikipedia_sources.
    unfold bind at 1. unfold path_exists at 1.
    rewrite (read_bytes_exists _ _ _ Hread). cbn [negb].
    unfold bind at 1. unfold makedirs at 1.
    destruct (Fs.makedirs (fs w) out) as [fs1|] eqn:Hm; [|reflexivity].
    unfold bind at 1.
    rewrite (read_urls_reads _ (mkWorld fs1 (log w)) data urls);
      [reflexivity | | exact Hparse].
    cbn [fs]. eapply read_bytes_grows; [|exact Hread].
    exact (makedirs_grows _ _ _ Hm).
  - intros fs1 Hm. split; [exact (makedirs_dir _ _ _ Hm)|].
    exact (makedirs_grows _ _ _ Hm).
  - unfold DownloadWikipedia.download_wikipedia_sources,
      Downloaders.download_wikipedia_sources.
    cbv beta iota zeta delta [bind path_exists makedirs ret raise].
    destruct (negb _); [reflexivity|].
    destruct (Fs.makedirs (fs w) _) as [fs1|]; reflexivity.
Qed.

(** The functions that write under a [jsonl] directory, once the manifest
    is read and the two directories are made. *)
Lemma download_to_jsonl_cases
      (kind : source_kind) (manifest_name data_name : string)
      (src out : option string) (limit : option Z) (w : world)
      (data : list Byte.byte) (urls : list string) (fs1 fs2 : node) :
  let dir := match out with
             | None => OsPath.join_all script_dir ["data"; "raw"; data_name]
             | Some d => d
             end in
  Fs.read_bytes (fs w) (source_links script_dir manifest_name src) = Some data ->
  read_json_lines data = Some urls ->
  Fs.makedirs (fs w) dir = Some fs1 ->
  Fs.makedirs fs1 (OsPath.join dir "jsonl") = Some fs2 ->
  Downloaders.download_to_jsonl read_json_lines script_dir download_and_extract
    kind manifest_name data_name src out limit w
  = (download_and_extract kind dir true (apply_limit limit urls)
       (output_paths (OsPath.join dir "jsonl") (apply_limit limit urls)) ;;
     ret (OsPath.join dir "jsonl")) (mkWorld fs2 (log w))
  /\ dir_at fs2 dir
  /\ dir_at fs2 (OsPath.join dir "jsonl")
  /\ grows (fs w) fs2.
Proof.
  intros dir Hread Hparse Hm1 Hm2.
  pose proof (makedirs_grows _ _ _ Hm1) as G1.
  pose proof (makedirs_grows _ _ _ Hm2) as G2.
  split; [|split; [|split]].
  - unfold Downloaders.download_to_jsonl.
    unfold bind at 1. unfold path_exists at 1.
    rewrite (read_bytes_exists _ _ _ Hread). cbn [negb].
    unfold bind at 1. rewrite (read_urls_reads _ _ _ _ Hread Hparse).
    fold dir. unfold bind at 1. unfold makedirs at 1. rewrite Hm1.
    unfold bind at 1. unfold makedirs at 1. cbn [fs log]. rewrite Hm2.
    reflexivity.
  - exact (dir_at_grows _ _ _ G2 (makedirs_dir _ _ _ Hm1)).
  - exact (makedirs_dir _ _ _ Hm2).
  - exact (grows_trans _ _ _ G1 G2).
Qed.

(** X15. [download_github_sources] and [download_pdf_sources] of
    [downloaders.py] call the library with the capped manifest and, for
    each entry, the output path of its base name in the [jsonl] directory,
    over files where the output directory and its [jsonl] directory are
    directories and nothing that was there is lost; what they return, if
    the library returns, is the [jsonl] directory. *)
Theorem jsonl_downloads_prepare_their_directories
        (src : option string) (out : string) (limit : option Z) (w : world)
        (data : list Byte.byte) (urls : list string) (fs1 fs2 : node) :
  read_json_lines data = Some urls ->
  Fs.makedirs (fs w) out = Some fs1 ->
  Fs.makedirs fs1 (OsPath.join out "jsonl") = Some fs2 ->
  (Fs.read_bytes (fs w) (source_links script_dir "github_repos.jsonl" src)
   = Some data ->
   Downloaders.download_github_sources
     read_json_lines script_dir download_and_extract src (Some out) limit w
   = (download_and_extract GitHub out true (apply_limit limit urls)
        (output_paths (OsPath.join out "jsonl") (apply_limit limit urls)) ;;
      ret (OsPath.join out "jsonl")) (mkWorld fs2 (log w)))
  /\ (Fs.read_bytes (fs w) (source_links script_dir "arxiv_urls.jsonl" src)
      = Some data ->
      Downloaders.download_pdf_sources
        read_json_lines script_dir download_and_extract src (Some out) limit w
      = (download_and_extract Arxiv out true (apply_limit limit urls)
           (output_paths (OsPath.join out "jsonl") (apply_limit limit urls)) ;;
         ret (OsPath.join out "jsonl")) (mkWorld fs2 (log w)))
  /\ dir_at fs2 out
  /\ dir_at fs2 (OsPath.join out "jsonl")
  /\ grows (fs w) fs2.
Proof.
  intros Hparse Hm1 Hm2.
  pose proof (makedirs_grows _ _ _ Hm1) as G1.
  pose proof (makedirs_grows _ _ _ Hm2) as G2.
  split; [|split; [|split; [|split]]].
  - intros Hread.
    exact (proj1 (download_to_jsonl_cases GitHub "github_repos.jsonl" "github"
                    src (Some out) limit w data urls fs1 fs2
                    Hread Hparse Hm1 Hm2)).
  - intros Hread.
    exact (proj1 (download_to_jsonl_cases Arxiv "arxiv_urls.jsonl" "arxiv"
                    src (Some out) limit w data urls fs1 fs2
                    Hread Hparse Hm1 Hm2)).
  - exact (dir_at_grows _ _ _ G2 (makedirs_dir _ _ _ Hm1)).
  - exact (makedirs_dir _ _ _ Hm2).
  - exact (grows_trans _ _ _ G1 G2).
Qed.

(** X16. In [downloaders.py] the GitHub and PDF functions look at the
    manifest before they do anything else: when it is missing they raise
    [FileNotFoundError], and when it cannot be read or parsed they raise
    what the reading raises; in both cases no directory has been made and
    the library has not been called. *)
Theorem jsonl_downloads_fail_before_any_effect
        (kind : source_kind) (manifest_name data_name : string)
        (src out : option string) (limit : option Z) (w : world) :
  (Fs.exists_ (fs w) (source_links script_dir manifest_name src) = false ->
   Downloaders.download_to_jsonl read_json_lines script_dir download_and_extract
     kind manifest_name data_name src out limit w
   = (Raise (FileNotFoundError
               ("File '" ++ source_links script_dir manifest_name src
                ++ "' not found.")), w))
  /\ (forall e,
         Fs.exists_ (fs w) (source_links script_dir manifest_name src) = true ->
         fst (read_urls read_json_lines
                        (source_links script_dir manifest_name src) w)
         = Raise e ->
         Downloaders.download_to_jsonl read_json_lines script_dir
           download_and_extract kind manifest_name data_name src out limit w
         = (Raise e, w)).
Proof.
  split.
  - intros H. unfold Downloaders.download_to_jsonl.
    unfold bind at 1. unfold path_exists at 1. now rewrite H.
  - intros e Hex Hr. unfold Downloaders.download_to_jsonl.
    unfold bind at 1. unfold path_exists at 1. rewrite Hex. cbn [negb].
    unfold bind at 1.
    destruct (read_urls read_json_lines _ w) as [r w1] eqn:E.
    cbn [fst] in Hr. subst r. now rewrite (read_urls_same_world _ _ _ _ E).
Qed.

End DownloaderFacts.

(** ** Instances of the further properties *)

Lemma walk_yields_the_eligible_files_witness :
  exists w',
    Sample.plain_walk
    = (Ok (flat_map (doc_of Sample.ascii_detect Sample.ascii_decode (Sample.site []))
                    (walk_candidates Sample.site_triples)), w').
Proof.
  apply (proj2 (walk_yields_the_eligible_files
                  Sample.ascii_detect Sample.ascii_decode
                  Sample.site_triples Sample.site_world)).
  assert (E : walk_candidates Sample.site_triples
              = ["/r/README.md"; "/r/src/main.c"]) by (vm_compute; reflexivity).
  rewrite E.
  constructor; [vm_compute; reflexivity|].
  constructor; [vm_compute; reflexivity|].
  constructor.
Defined.

Lemma walk_opens_the_supported_files_witness :
  file_reads (log (snd Sample.plain_walk)) = ["/r/README.md"; "/r/src/main.c"].
Proof.
  rewrite (walk_opens_the_supported_files
             Sample.ascii_detect Sample.ascii_decode
             Sample.site_triples Sample.site_world
             (Sample.docs_of Sample.plain_walk) (snd Sample.plain_walk)).
  - reflexivity.
  - vm_compute. reflexivity.
Defined.

Lemma walk_documents_are_well_formed_witness :
  Forall well_formed_document (Sample.docs_of Sample.plain_walk).
Proof.
  apply (walk_documents_are_well_formed
           Sample.ascii_detect Sample.ascii_decode
           Sample.site_triples Sample.site_world
           (Sample.docs_of Sample.plain_walk) (snd Sample.plain_walk)).
  vm_compute. reflexivity.
Defined.

Lemma hidden_script_dir_empties_every_artifact_witness :
  exists msg,
    convert_repo_to_jsonl Sample.ascii_detect Sample.ascii_decode
      (OsPath.join (clone_root_dir Sample.hidden_script_dir) "r")
      (jsonl_dir Sample.hidden_script_dir)
      (mkWorld Sample.hidden_app [])
    = open_w_write
        (artifact_path (jsonl_dir Sample.hidden_script_dir)
                       (OsPath.join (clone_root_dir Sample.hidden_script_dir) "r"))
        EmptyString
        (mkWorld Sample.hidden_app ([] ++ [EvPrint msg])).
Proof.
  apply (hidden_script_dir_empties_every_artifact
           Sample.ascii_detect Sample.ascii_decode
           Sample.hidden_script_dir "r" (mkWorld Sample.hidden_app [])).
  - reflexivity.
  - reflexivity.
  - intros tree H. vm_compute in H. injection H as <-. reflexivity.
  - reflexivity.
Defined.

(** The repository of [hidden_app] has files the walk would take, were the
    script elsewhere; where it is, the artifact is empty. *)
Example hidden_app_artifact :
  let w' := snd (convert_repo_to_jsonl Sample.ascii_detect Sample.ascii_decode
                   (OsPath.join (clone_root_dir Sample.hidden_script_dir) "r")
                   (jsonl_dir Sample.hidden_script_dir)
                   (mkWorld Sample.hidden_app [])) in
  Fs.read_bytes (fs w') "/home/u/.local/app/data/raw/github/jsonl/r.jsonl"
  = Some []
  /\ file_reads (log w') = [].
Proof. vm_compute. split; reflexivity. Qed.

Lemma not_a_directory_gets_an_empty_artifact_witness :
  exists fs',
    Fs.write_text Sample.stray (artifact_path "/out" "/stray.txt") EmptyString
    = Some fs'
    /\ fst (convert_repo_to_jsonl Sample.ascii_detect Sample.ascii_decode
              "/stray.txt" "/out" (mkWorld Sample.stray [])) = Ok tt
    /\ Fs.read_bytes fs' (artifact_path "/out" "/stray.txt") = Some [].
Proof.
  destruct (not_a_directory_gets_an_empty_artifact
              Sample.ascii_detect Sample.ascii_decode
              "/stray.txt" "/out" (mkWorld Sample.stray [])) as [_ H].
  - intros es He. vm_compute in He. discriminate.
  - reflexivity.
  - eexists. split; [vm_compute; reflexivity|]. apply H. vm_compute. reflexivity.
Defined.

Lemma conversion_never_touches_what_is_there_witness :
  Fs.read_bytes (fs (snd Sample.site_conversion)) "/r/src/main.c"
  = Some (list_byte_of_string "int main;")
  /\ system_calls (log (snd Sample.site_conversion)) = [].
Proof.
  destruct (conversion_never_touches_what_is_there
              Sample.ascii_detect Sample.ascii_decode "/" "/out" ["r"]
              Sample.site_world
              (fst Sample.site_conversion) (snd Sample.site_conversion))
    as (Hread & _ & Hquiet).
  - vm_compute. reflexivity.
  - split; [apply Hread; reflexivity | exact Hquiet].
Defined.

Lemma manifest_errors_of_the_run_witness :
  Sample.run Sample.remote (Dir []) None
  = (Raise (FileNotFoundError
              ("File '" ++ manifest_path Sample.script_dir None
               ++ "' not found.")),
     mkWorld (Dir []) []).
Proof.
  apply (proj1 (manifest_errors_of_the_run
                  Sample.ascii_detect Sample.ascii_decode
                  (Sample.git_remote Sample.remote) Sample.read_lines
                  Sample.script_dir None None (mkWorld (Dir []) []))).
  reflexivity.
Defined.

Lemma run_only_clones_manifest_entries_witness :
  exists sub,
    subseq sub (apply_limit (Some 2)
                  ["octocat/hello-world"; "nobody/nothing"; "octocat/spoon-knife"])
    /\ subseq sub ["octocat/hello-world"; "nobody/nothing"; "octocat/spoon-knife"]
    /\ system_calls
         (log (snd (Sample.run Sample.remote
                      (Sample.app ["octocat/hello-world"; "nobody/nothing";
                                   "octocat/spoon-knife"]
                                  [("hello-world", Sample.hello_world)])
                      (Some 2))))
       = ([] ++ map (clone_cmd (clone_root_dir Sample.script_dir)) sub)%list.
Proof.
  apply (run_only_clones_manifest_entries
           Sample.ascii_detect Sample.ascii_decode
           (Sample.git_remote Sample.remote) Sample.read_lines
           Sample.script_dir None (Some 2)
           (mkWorld (Sample.app ["octocat/hello-world"; "nobody/nothing";
                                 "octocat/spoon-knife"]
                                [("hello-world", Sample.hello_world)]) [])
           (Sample.manifest ["octocat/hello-world"; "nobody/nothing";
                             "octocat/spoon-knife"])).
  - reflexivity.
  - reflexivity.
Defined.

Lemma same_basename_is_cloned_once_witness :
  exists w1,
    clone_all (Sample.git_remote Sample.remote) Sample.clone_root
              ["octocat/hello-world"; "fork/hello-world"]
              (mkWorld (Sample.app [] []) [])
    = clone_all (Sample.git_remote Sample.remote) Sample.clone_root [] w1
    /\ fs w1
       = snd (Sample.git_remote Sample.remote
                (clone_cmd Sample.clone_root "octocat/hello-world")
                (Sample.app [] []))
    /\ system_calls (log w1)
       = ([] ++ [clone_cmd Sample.clone_root "octocat/hello-world"])%list
    /\ In (skip_event "fork/hello-world") (log w1).
Proof.
  apply (same_basename_is_cloned_once
           (Sample.git_remote Sample.remote) Sample.clone_root
           "octocat/hello-world" "fork/hello-world" []
           (mkWorld (Sample.app [] []) [])).
  - reflexivity.
  - reflexivity.
  - vm_compute. reflexivity.
Defined.

Lemma clone_loop_starts_with_both_directories_witness :
  dir_at (Sample.made (Sample.made (Sample.app ["octocat/hello-world"] [])
                                   (clone_root_dir Sample.script_dir))
                      (jsonl_dir Sample.script_dir))
         (jsonl_dir Sample.script_dir).
Proof.
  refine (proj1 (proj2 (proj2
    (clone_loop_starts_with_both_directories
       Sample.ascii_detect Sample.ascii_decode
       (Sample.git_remote Sample.remote) Sample.read_lines Sample.script_dir
       None None (mkWorld (Sample.app ["octocat/hello-world"] []) [])
       (Sample.manifest ["octocat/hello-world"]) ["octocat/hello-world"]
       (Sample.made (Sample.app ["octocat/hello-world"] [])
                    (clone_root_dir Sample.script_dir))
       _ _ _ _ _)))).
  - reflexivity.
  - reflexivity.
  - vm_compute. reflexivity.
  - vm_compute. reflexivity.
Defined.

Lemma artifacts_are_named_after_entries_witness :
  Forall (fun repo =>
            Fs.exists_ (fs (snd Sample.site_conversion))
                       (OsPath.join "/out" (repo ++ ".jsonl")) = true
            /\ artifact_path "/out" (OsPath.join "/" repo)
               = OsPath.join "/out" (repo ++ ".jsonl")) ["r"].
Proof.
  apply (artifacts_are_named_after_entries
           Sample.ascii_detect Sample.ascii_decode "/" "/out" ["r"]
           Sample.site_world (snd Sample.site_conversion)).
  - repeat constructor.
  - vm_compute. reflexivity.
Defined.

Lemma second_conversion_only_prints_witness :
  convert_all Sample.ascii_detect Sample.ascii_decode "/" "/out" ["r"]
              (snd Sample.site_conversion)
  = (Ok tt,
     mkWorld (fs (snd Sample.site_conversion))
       (log (snd Sample.site_conversion)
        ++ map (fun repo => converted_event (OsPath.join "/" repo)) ["r"])).
Proof.
  apply (second_conversion_only_prints
           Sample.ascii_detect Sample.ascii_decode "/" "/out" ["r"]
           Sample.site_world (snd Sample.site_conversion)).
  vm_compute. reflexivity.
Defined.

Lemma given_output_dir_is_made_by_downloaders_only_witness :
  fst (DownloadWikipedia.download_wikipedia_sources
         Sample.read_lines Sample.script_dir Sample.touching
         None (Some "/data/wiki") None (mkWorld Sample.wiki_app []))
  = Raise (OSError "/data/wiki/Coq")
  /\ fst (Downloaders.download_wikipedia_sources
            Sample.read_lines Sample.script_dir Sample.touching
            None (Some "/data/wiki") None (mkWorld Sample.wiki_app []))
     = Ok "/data/wiki".
Proof.
  destruct (given_output_dir_is_made_by_downloaders_only
              Sample.read_lines Sample.script_dir Sample.touching
              None "/data/wiki" None (mkWorld Sample.wiki_app [])
              (Sample.manifest ["https://en.wikipedia.org/wiki/Coq"])
              ["https://en.wikipedia.org/wiki/Coq"] eq_refl eq_refl)
    as (H1 & H2 & _).
  rewrite H1, H2. vm_compute. split; reflexivity.
Defined.

Lemma jsonl_downloads_prepare_their_directories_witness :
  Downloaders.download_github_sources
    Sample.read_lines Sample.script_dir Sample.touching
    None (Some "/out") None
    (mkWorld (Sample.app ["octocat/hello-world"] []) [])
  = (Sample.touching GitHub "/out" true ["octocat/hello-world"]
       (output_paths (OsPath.join "/out" "jsonl") ["octocat/hello-world"]) ;;
     ret (OsPath.join "/out" "jsonl"))
      (mkWorld (Sample.made (Sample.made (Sample.app ["octocat/hello-world"] [])
                                         "/out")
                            (OsPath.join "/out" "jsonl")) []).
Proof.
  refine (proj1 (jsonl_downloads_prepare_their_directories
                   Sample.read_lines Sample.script_dir Sample.touching
                   None "/out" None
                   (mkWorld (Sample.app ["octocat/hello-world"] []) [])
                   (Sample.manifest ["octocat/hello-world"])
                   ["octocat/hello-world"]
                   (Sample.made (Sample.app ["octocat/hello-world"] []) "/out")
                   _ _ _ _) _).
  - reflexivity.
  - vm_compute. reflexivity.
  - vm_compute. reflexivity.
  - reflexivity.
Defined.

Lemma jsonl_downloads_fail_before_any_effect_witness :
  Downloaders.download_pdf_sources
    Sample.read_lines Sample.script_dir Sample.touching
    None None (Some 10) (mkWorld (Dir []) [])
  = (Raise (FileNotFoundError
              ("File '" ++ source_links Sample.script_dir "arxiv_urls.jsonl" None
               ++ "' not found.")),
     mkWorld (Dir []) []).
Proof.
  apply (proj1 (jsonl_downloads_fail_before_any_effect
                  Sample.read_lines Sample.script_dir Sample.touching
                  Arxiv "arxiv_urls.jsonl" "arxiv" None None (Some 10)
                  (mkWorld (Dir []) []))).
  reflexivity.
Defined.

(** ** Names of the outputs *)

(** X18. Outputs are named by the base name of the manifest entry alone:
    the clone directory of an entry has the entry's base name, its
    artifact is [<base name>.jsonl] in the output directory, and the output
    paths of [downloaders.py] have the base names of their entries.  So
    entries that differ in what precedes the base name share their
    outputs. *)
Theorem outputs_are_named_by_base_name
        (root jsonl dir : string) (url : string) (urls : list string) :
  OsPath.basename (clone_dir_of root url) = OsPath.basename url
  /\ artifact_path jsonl (clone_dir_of root url)
     = OsPath.join jsonl (OsPath.basename url ++ ".jsonl")
  /\ map OsPath.basename (output_paths dir urls) = map OsPath.basename urls.
Proof.
  assert (Hb : forall r u,
             OsPath.basename (OsPath.join r (OsPath.basename u))
             = OsPath.basename u)
    by (intros r u; apply basename_join, basename_slashless).
  split; [apply Hb|]. split.
  - unfold artifact_path, clone_dir_of. now rewrite Hb.
  - unfold output_paths. rewrite map_map. apply map_ext. intros u. apply Hb.
Qed.

(** ** Nothing visible is passed over *)

(** Every file of the tree that is not hidden, below directories that are
    not hidden and a root without hidden part, is among the paths the walk
    visits. *)
Lemma files_under_candidates tree :
  names_ok tree = true ->
  forall top dirs file p,
    hidden_root top = false ->
    In (dirs, file, p) (files_under top tree) ->
    Forall (fun d => PyStr.startswith hidden_marker d = false) dirs ->
    PyStr.startswith hidden_marker file = false ->
    In p (walk_candidates (Fs.walk_node top tree)).
Proof.
  induction tree as [perm data|es IH] using node_induction;
    intros Hok top dirs file p Htop Hin Hdirs Hfile.
  - contradiction.
  - cbn [files_under] in Hin. apply in_flat_map in Hin.
    destruct Hin as ([name child] & He & Hin). cbn [fst snd] in Hin.
    cbn [names_ok] in Hok. rewrite forallb_forall in Hok.
    pose proof (Hok _ He) as Hproper. cbn [fst snd] in Hproper.
    apply andb_true_iff in Hproper. destruct Hproper as [Hname Hchild].
    rewrite Forall_forall in IH. specialize (IH _ He). cbn [snd] in IH.
    cbn [Fs.walk_node walk_candidates flat_map fst snd]. rewrite Htop.
    apply in_or_app. destruct child as [perm data|es'].
    + destruct Hin as [[= <- <- <-]|[]]. left.
      unfold file_candidates. apply in_map. apply filter_In.
      split; [|now rewrite Hfile].
      unfold Fs.filenames.
      change name with (fst (name, File perm data)). apply in_map.
      apply filter_In. split; [exact He | reflexivity].
    + apply in_map_iff in Hin.
      destruct Hin as ([[ds f] p'] & [= <- <- <-] & Hin). right.
      inversion Hdirs as [|? ? Hn Hds]; subst.
      assert (Hin' : In p' (walk_candidates
                              (Fs.walk_node (OsPath.join top name) (Dir es')))).
      { apply (IH Hchild _ ds f p'); try assumption.
        now apply hidden_root_join_visible. }
      unfold walk_candidates in *. apply in_flat_map in Hin'.
      destruct Hin' as (t & Ht & Hp). apply in_flat_map. exists t.
      split; [|exact Hp]. apply in_flat_map. exists (name, Dir es').
      split; [exact He | exact Ht].
Qed.

Section Completeness.
Variable detect : list Byte.byte -> option string.
Variable decode : list Byte.byte -> string -> decoded.

(** X19. Nothing visible is passed over.  In a walk that returns, over a
    repository whose path has no hidden part, every file that is not
    hidden and lies below directories that are not hidden has its path
    visited, and if the builder gives that path a document, the document
    is among those of the walk. *)
Theorem visible_files_contribute
        (tree : node) (top : string) (w : world)
        (docs : list document) (w' : world)
        (dirs : list string) (file p : string) :
  names_ok tree = true ->
  hidden_root top = false ->
  convert_walk detect decode (Fs.walk_node top tree) [] w = (Ok docs, w') ->
  In (dirs, file, p) (files_under top tree) ->
  Forall (fun d => PyStr.startswith hidden_marker d = false) dirs ->
  PyStr.startswith hidden_marker file = false ->
  In p (walk_candidates (Fs.walk_node top tree))
  /\ forall doc, doc_of detect decode (fs w) p = [doc] -> In doc docs.
Proof.
  intros Hok Htop Hwalk Hin Hdirs Hfile.
  pose proof (files_under_candidates tree Hok top dirs file p
                Htop Hin Hdirs Hfile) as Hc.
  split; [exact Hc|]. intros doc Hdoc.
  pose proof (convert_walk_outcome detect decode (Fs.walk_node top tree) [] w)
    as H.
  rewrite Hwalk in H. destruct H as (-> & _ & _). cbn [app].
  apply in_flat_map. exists p. split; [exact Hc|]. rewrite Hdoc. now left.
Qed.

End Completeness.

Lemma visible_files_contribute_witness :
  In "/r/src/main.c" (walk_candidates (Fs.walk_node "/r" Sample.hello_world))
  /\ forall doc,
       doc_of Sample.ascii_detect Sample.ascii_decode (Sample.site [])
              "/r/src/main.c" = [doc] ->
       In doc (Sample.docs_of Sample.plain_walk).
Proof.
  apply (visible_files_contribute
           Sample.ascii_detect Sample.ascii_decode
           Sample.hello_world "/r" Sample.site_world
           (Sample.docs_of Sample.plain_walk) (snd Sample.plain_walk)
           ["src"] "main.c" "/r/src/main.c").
  - reflexivity.
  - reflexivity.
  - vm_compute. reflexivity.
  - vm_compute. repeat (first [left; reflexivity | right]).
  - repeat constructor.
  - reflexivity.
Defined.
